(** * Solteq Sund journal export robot: model and verification

    A shallow embedding of [robot_framework/sub_process/solteq_sund.py] and
    [robot_framework/process.py].

    The robot drives a desktop application through the [uiautomation]
    library, reads the wall clock, sleeps, and sends one SQL query through
    [pyodbc].  None of these collaborators is part of the repository, so
    they appear here as a [World]: a record of oracles (what the
    accessibility tree contains at a given time, what the database answers
    to a given query text, how long a probe takes).  The robot's own code
    is embedded in a reader/state/exception monad over that world; the state
    holds the clock and the trace of every call that left the process.

    Clock readings are exact rationals ([Q]); rounding of Python floats is
    outside the model. *)

From Stdlib Require Import List String Ascii Bool Arith ZArith QArith Qround Lia Lqa.
From Stdlib Require Import DecimalString.
Import ListNotations.

Local Close Scope Q_scope.
Local Open Scope nat_scope.
Local Open Scope list_scope.
Local Open Scope string_scope.

(** ** Python string builtins used by the robot *)

Module Py.

Definition squote : ascii := "'"%char.
Definition dquote : ascii := "034"%char.
Definition backslash : ascii := "\"%char.

Fixpoint contains_char (c : ascii) (s : string) : bool :=
  match s with
  | EmptyString => false
  | String x s' => Ascii.eqb x c || contains_char c s'
  end.

(** [s.startswith(p)] *)
Fixpoint startswith (p s : string) : bool :=
  match p, s with
  | EmptyString, _ => true
  | String a p', String b s' => Ascii.eqb a b && startswith p' s'
  | String _ _, EmptyString => false
  end.

(** Scan of [str.replace(old, new)] for a non-empty [old]: left to right,
    occurrences do not overlap; [skip] counts the characters of an
    occurrence that are still to be dropped. *)
Fixpoint replace_scan (old new : string) (skip : nat) (s : string) : string :=
  match s with
  | EmptyString => EmptyString
  | String c s' =>
      match skip with
      | S k => replace_scan old new k s'
      | O =>
          if startswith old s
          then new ++ replace_scan old new (String.length old - 1) s'
          else String c (replace_scan old new 0 s')
      end
  end.

(** With an empty [old], Python puts [new] before every character and at
    the end. *)
Fixpoint intersperse (new s : string) : string :=
  match s with
  | EmptyString => new
  | String c s' => new ++ String c (intersperse new s')
  end.

(** [s.replace(old, new)] *)
Definition replace (s old new : string) : string :=
  match old with
  | EmptyString => intersperse new s
  | String _ _ => replace_scan old new 0 s
  end.

(** *** [repr] of a [str], for code points below 256 *)

Definition hex_digit (n : nat) : ascii :=
  match n with
  | 0 => "0" | 1 => "1" | 2 => "2" | 3 => "3" | 4 => "4"
  | 5 => "5" | 6 => "6" | 7 => "7" | 8 => "8" | 9 => "9"
  | 10 => "a" | 11 => "b" | 12 => "c" | 13 => "d" | 14 => "e"
  | _ => "f"
  end%char.

Definition hex2 (c : ascii) : string :=
  let n := nat_of_ascii c in
  String (hex_digit (n / 16)) (String (hex_digit (n mod 16)) EmptyString).

(** [str.isprintable] on one character of the Latin-1 range: the C0 and C1
    controls, DEL, the no-break space and the soft hyphen are not
    printable. *)
Definition isprintable (c : ascii) : bool :=
  let n := nat_of_ascii c in
  ((32 <=? n)%nat && (n <? 127)%nat) || ((161 <=? n)%nat && negb (n =? 173)%nat).

Definition repr_quote (s : string) : ascii :=
  if contains_char squote s && negb (contains_char dquote s)
  then dquote else squote.

Definition repr_char (q c : ascii) : string :=
  if Ascii.eqb c q || Ascii.eqb c backslash
  then String backslash (String c EmptyString)
  else if Ascii.eqb c "009"%char then "\t"
  else if Ascii.eqb c "010"%char then "\n"
  else if Ascii.eqb c "013"%char then "\r"
  else if isprintable c then String c EmptyString
  else "\x" ++ hex2 c.

Fixpoint repr_body (q : ascii) (s : string) : string :=
  match s with
  | EmptyString => EmptyString
  | String c s' => repr_char q c ++ repr_body q s'
  end.

(** [repr(s)] *)
Definition repr_str (s : string) : string :=
  let q := repr_quote s in
  String q (repr_body q s ++ String q EmptyString).

Fixpoint repr_items (items : list (string * string)) : string :=
  match items with
  | [] => EmptyString
  | [(k, v)] => repr_str k ++ ": " ++ repr_str v
  | (k, v) :: rest => repr_str k ++ ": " ++ repr_str v ++ ", " ++ repr_items rest
  end.

(** [repr(d)] of a dict with [str] keys and values, in insertion order;
    this is also what an f-string prints for [{d}]. *)
Definition repr_dict (d : list (string * string)) : string :=
  "{" ++ repr_items d ++ "}".

(** [dict(pairs)]: later pairs overwrite the value of an earlier key and
    keep its position. *)
Fixpoint dict_set {V : Type} (k : string) (v : V) (d : list (string * V))
  : list (string * V) :=
  match d with
  | [] => [(k, v)]
  | (k', v') :: d' =>
      if String.eqb k' k then (k, v) :: d' else (k', v') :: dict_set k v d'
  end.

Definition dict {V : Type} (pairs : list (string * V)) : list (string * V) :=
  fold_left (fun d kv => dict_set (fst kv) (snd kv) d) pairs [].

(** Decimal digits of [n], zero-padded on the left to [width]. *)
Definition zero_pad (width n : nat) : string :=
  let digits := NilZero.string_of_uint (Nat.to_uint n) in
  String.concat EmptyString (repeat "0" (width - String.length digits)) ++ digits.

End Py.

(** ** Data model *)

(** The control classes of [uiautomation] that the robot names. *)
Inductive ControlType :=
| WindowControl | EditControl | ListItemControl | TabItemControl | PaneControl.

(** [search_params]: a dict from property name to value. *)
Definition SearchParams := list (string * string).

(** A control descriptor: kind, identifying attributes, search depth. *)
Record Descriptor := mkDescriptor {
  control_type : ControlType;
  search_params : SearchParams;
  search_depth : Z
}.

(** An element of the accessibility tree, as the automation layer hands it
    out. *)
Definition Element := nat.

(** A [uiautomation] control object: its descriptor, the control the search
    starts from (for a control made by a method of another control) and the
    element the last successful search bound it to. *)
#[warnings="-register-all"]
Inductive Control :=
| mkControl (descr : Descriptor) (search_from : option Control)
            (element : option Element).

Definition descr_of (c : Control) : Descriptor :=
  let '(mkControl d _ _) := c in d.

(** Local calendar date, as [datetime.datetime.now()] gives it. *)
Record Date := mkDate { year : nat; month : nat; day : nat }.

(** [d.strftime("%d-%m-%Y")] *)
Definition strftime_dmY (d : Date) : string :=
  Py.zero_pad 2 (day d) ++ "-" ++ Py.zero_pad 2 (month d) ++ "-"
    ++ Py.zero_pad 4 (year d).

(** A value in a fetched row. *)
Inductive SqlValue :=
| SqlInt (n : Z)
| SqlText (s : string).

(** One fetched row: the values of its columns. *)
Definition Row := list SqlValue.

(** What [cursor.execute] followed by [fetchall] gives: the column names of
    [cursor.description] and the rows, or a driver error. *)
Inductive DbReply :=
| Rows (columns : list string) (rows : list Row)
| DbError (msg : string).

Inductive Exn :=
| TimeoutError (msg : string)
| ValueError (msg : string)
| AttributeError (msg : string)
| DatabaseError (msg : string).

(** Every call that leaves the process, in program order. *)
Inductive Event :=
| EvLogTrace (msg : string)
| EvStartFile (path : string)
| EvTime (t : Q)
| EvExists (d : Descriptor) (maxSearchSeconds searchIntervalSeconds : Q)
           (found : bool)
| EvSleep (secs : Q)
| EvSetFocus (c : Control)
| EvSendKeys (c : Control) (text : string) (waitTime : option Q)
| EvClick (c : Control) (simulateMove : bool) (waitTime : Q)
| EvDoubleClick (c : Control) (simulateMove : bool) (waitTime : Q)
| EvConnect (connection_string : string) (autocommit : bool)
| EvExecute (sql : string) (bound_parameters : list string).

(** The collaborators outside the repository. *)
Record World := mkWorld {
  (** the accessibility tree: which element, if any, a descriptor resolves
      to at a given time *)
  gui : Q -> Descriptor -> option Element;
  (** time one search of the tree takes *)
  probe_cost : Q;
  (** by how much [time.sleep] oversleeps *)
  sleep_lag : Q;
  (** time one input action (focus, keys, click) takes *)
  action_cost : Q;
  (** local date at a given clock reading *)
  calendar : Q -> Date;
  (** answer of the database behind a connection string to a query text at
      a given time *)
  database : Q -> string -> string -> DbReply
}.

(** A world in which no operation takes negative time. *)
Definition causal (W : World) : Prop :=
  (0 <= probe_cost W /\ 0 <= sleep_lag W /\ 0 <= action_cost W)%Q.

Record State := mkState {
  clock : Q;
  trace : list Event
}.

(** ** The monad of robot code *)

Inductive Outcome (A : Type) :=
| Return (a : A)
| Raise (e : Exn)
| OutOfFuel.

Arguments Return {A} a.
Arguments Raise {A} e.
Arguments OutOfFuel {A}.

Definition M (A : Type) := World -> State -> Outcome A * State.

Definition ret {A} (a : A) : M A := fun _ s => (Return a, s).

Definition bind {A B} (m : M A) (k : A -> M B) : M B :=
  fun W s =>
    match m W s with
    | (Return a, s') => k a W s'
    | (Raise e, s') => (Raise e, s')
    | (OutOfFuel, s') => (OutOfFuel, s')
    end.

Definition raise {A} (e : Exn) : M A := fun _ s => (Raise e, s).

Definition out_of_fuel {A} : M A := fun _ s => (OutOfFuel, s).

Declare Scope robot_scope.
Delimit Scope robot_scope with robot.
Notation "x <- m ;; k" := (bind m (fun x => k))
  (at level 61, m at next level, right associativity) : robot_scope.
Notation "m ;; k" := (bind m (fun _ => k))
  (at level 61, right associativity) : robot_scope.
Local Open Scope robot_scope.

(** Record an event that takes no time. *)
Definition log (ev : Event) (s : State) : State :=
  mkState (clock s) (trace s ++ [ev])%list.

(** Record an event and let [dt] pass. *)
Definition emit (ev : Event) (dt : Q) (s : State) : State :=
  mkState (clock s + dt)%Q (trace s ++ [ev])%list.

(** ** Calls into the standard library and [uiautomation] *)

Definition Qltb (a b : Q) : bool := negb (Qle_bool b a).

(** [time.time()] *)
Definition time_time : M Q :=
  fun _ s => (Return (clock s), log (EvTime (clock s)) s).

(** [time.sleep(secs)] *)
Definition time_sleep (secs : Q) : M unit :=
  fun W s => (Return tt, emit (EvSleep secs) (secs + sleep_lag W) s).

(** [control_type(searchDepth=search_depth, **search_params)]: builds the
    control object; nothing is searched yet. *)
Definition new_control (ct : ControlType) (depth : Z) (sp : SearchParams)
  : Control :=
  mkControl (mkDescriptor ct sp depth) None None.

(** [control.Exists(maxSearchSeconds, searchIntervalSeconds)] belongs to
    uiautomation.  With a zero search time, the only way the robot calls
    it, it searches the tree once, without waiting, binds the control
    object to the element found and answers whether there was one. *)
Definition Exists (c : Control) (maxSearchSeconds searchIntervalSeconds : Q)
  : M (bool * Control) :=
  fun W s =>
    let '(mkControl d from _) := c in
    let found := gui W (clock s) d in
    (Return (match found with Some _ => true | None => false end,
             mkControl d from found),
     emit (EvExists d maxSearchSeconds searchIntervalSeconds
             (match found with Some _ => true | None => false end))
          (probe_cost W) s).

(** [parent.EditControl(AutomationId=...)] and its siblings: a control
    searched from [parent], with the library's default depth. *)
Definition child_control (parent : Control) (ct : ControlType)
  (sp : SearchParams) : Control :=
  mkControl (mkDescriptor ct sp 4294967295) (Some parent) None.

Definition SetFocus (c : Control) : M unit :=
  fun W s => (Return tt, emit (EvSetFocus c) (action_cost W) s).

Definition SendKeys (c : Control) (text : string) (waitTime : option Q)
  : M unit :=
  fun W s => (Return tt, emit (EvSendKeys c text waitTime) (action_cost W) s).

Definition Click (c : Control) (simulateMove : bool) (waitTime : Q)
  : M unit :=
  fun W s =>
    (Return tt, emit (EvClick c simulateMove waitTime) (action_cost W) s).

Definition DoubleClick (c : Control) (simulateMove : bool) (waitTime : Q)
  : M unit :=
  fun W s =>
    (Return tt,
     emit (EvDoubleClick c simulateMove waitTime) (action_cost W) s).

(** [os.startfile(path)] *)
Definition os_startfile (path : string) : M unit :=
  fun _ s => (Return tt, log (EvStartFile path) s).

(** ** [SolteqSundApp] *)

Record SolteqSundApp := mkSolteqSundApp {
  app_path : string;
  username : string;
  password : string;
  ssn : string;
  connection_string : string;
  app_window : option Control
}.

(** [SolteqSundApp.__init__] *)
Definition init (app_path username password ssn db_connection_string : string)
  : SolteqSundApp :=
  mkSolteqSundApp app_path username password ssn db_connection_string None.

Definition opt_arg {A} (default : A) (given : option A) : A :=
  match given with Some a => a | None => default end.

Definition not_found_message (sp : SearchParams) : string :=
  "Control with parameters " ++ Py.repr_dict sp
    ++ " was not found within the timeout period.".

Definition not_gone_message (sp : SearchParams) : string :=
  "Control with parameters " ++ Py.repr_dict sp
    ++ " did not disappear within the timeout period.".

(** The [while] loop of [wait_for_control]; [fuel] bounds the number of
    times its condition is evaluated. *)
Fixpoint wait_for_control_loop (fuel : nat) (ct : ControlType)
  (sp : SearchParams) (depth : Z) (end_time : Q) : M Control :=
  match fuel with
  | O => out_of_fuel
  | S fuel' =>
      now <- time_time ;;
      if Qltb now end_time then
        r <- Exists (new_control ct depth sp) 0 0 ;;
        if fst r then ret (snd r)
        else time_sleep (1#2) ;;
             wait_for_control_loop fuel' ct sp depth end_time
      else raise (TimeoutError (not_found_message sp))
  end.

(** [SolteqSundApp.wait_for_control]; an argument left out takes the
    default of the signature ([search_depth=1], [timeout=30]). *)
Definition wait_for_control (fuel : nat) (ct : ControlType)
  (sp : SearchParams) (search_depth : option Z) (timeout : option Q)
  : M Control :=
  let search_depth := opt_arg 1%Z search_depth in
  let timeout := opt_arg 30%Q timeout in
  start <- time_time ;;
  let end_time := (start + timeout)%Q in
  wait_for_control_loop fuel ct sp search_depth end_time.

(** The [while] loop of [wait_for_control_to_disappear]. *)
Fixpoint wait_for_control_to_disappear_loop (fuel : nat) (ct : ControlType)
  (sp : SearchParams) (depth : Z) (end_time : Q) : M bool :=
  match fuel with
  | O => out_of_fuel
  | S fuel' =>
      now <- time_time ;;
      if Qltb now end_time then
        r <- Exists (new_control ct depth sp) 0 0 ;;
        if negb (fst r) then ret true
        else time_sleep (1#2) ;;
             wait_for_control_to_disappear_loop fuel' ct sp depth end_time
      else raise (TimeoutError (not_gone_message sp))
  end.

(** [SolteqSundApp.wait_for_control_to_disappear] *)
Definition wait_for_control_to_disappear (fuel : nat) (ct : ControlType)
  (sp : SearchParams) (search_depth : option Z) (timeout : option Q)
  : M bool :=
  let search_depth := opt_arg 1%Z search_depth in
  let timeout := opt_arg 30%Q timeout in
  start <- time_time ;;
  let end_time := (start + timeout)%Q in
  wait_for_control_to_disappear_loop fuel ct sp search_depth end_time.

(** [datetime.datetime.now()] *)
Definition datetime_now : M Date :=
  fun W s => (Return (calendar W (clock s)), s).

(** A [pyodbc] connection and a cursor after [execute]. *)
Record Connection := mkConnection { dsn : string }.

Record Cursor := mkCursor {
  description : list string;
  fetchall : list Row
}.

(** [pyodbc.connect(connection_string, autocommit=...)] *)
Definition pyodbc_connect (connection_string : string) (autocommit : bool)
  : M Connection :=
  fun _ s =>
    (Return (mkConnection connection_string),
     log (EvConnect connection_string autocommit) s).

(** [conn.cursor().execute(sql)]: the text is sent as it is; no parameter
    is bound. *)
Definition execute (conn : Connection) (sql : string) : M Cursor :=
  fun W s =>
    let s' := log (EvExecute sql []) s in
    match database W (clock s) (dsn conn) sql with
    | Rows columns rows => (Return (mkCursor columns rows), s')
    | DbError msg => (Raise (DatabaseError msg), s')
    end.

Definition tab : string := String "009"%char EmptyString.

(** The f-string handed to [crsr.execute] in [_is_journal_created]. *)
Definition journal_query (ssn filename : string) : string :=
"
            SELECT" ++ tab ++ "ds.DocumentId
                    ,ds.entityId
                    ,ds.OriginalFilename
                    ,ds.UniqueFilename
                    ,dss.Document_HistoryId
                    ,dss.Documented
                    ,dss.Decided
                    ,dss.DocumentStoreStatusId
            FROM DocumentStore ds
            JOIN Child c ON c.childId = ds.entityId
            JOIN (
                SELECT DocumentId, MAX(Document_HistoryId) AS MaxDocument_HistoryId
                FROM DocumentStoreStatus
                GROUP BY DocumentId
            ) maxHistory ON ds.DocumentId = maxHistory.DocumentId
            JOIN DocumentStoreStatus dss ON ds.DocumentId = dss.DocumentId AND dss.Document_HistoryId = maxHistory.MaxDocument_HistoryId
            WHERE" ++ tab ++ "c.cpr = '"
  ++ Py.replace ssn "-" EmptyString
  ++ "'
                    AND ds.OriginalFilename = '"
  ++ filename
  ++ "'
                    AND dss.DocumentStoreStatusId = 1
            ORDER BY Decided DESC
            ".

(** [SolteqSundApp._is_journal_created] *)
Definition _is_journal_created (self : SolteqSundApp) : M bool :=
  now <- datetime_now ;;
  let current_date := strftime_dmY now in
  let filename := "Udskrift af journal " ++ current_date ++ ".pdf" in
  conn <- pyodbc_connect (connection_string self) true ;;
  crsr <- execute conn (journal_query (ssn self) filename) ;;
  let rows := fetchall crsr in
  let columns := description crsr in
  let result := map (fun row => Py.dict (combine columns row)) rows in
  let bool_result := match result with [] => false | _ :: _ => true end in
  ret bool_result.

(** [SolteqSundApp.start_application] *)
Definition start_application (self : SolteqSundApp) : M unit :=
  os_startfile (app_path self).

Definition set_app_window (self : SolteqSundApp) (w : Control)
  : SolteqSundApp :=
  mkSolteqSundApp (app_path self) (username self) (password self) (ssn self)
    (connection_string self) (Some w).

(** Reading [self.app_window] to call a method on it; on [None] Python
    raises [AttributeError]. *)
Definition the_app_window (self : SolteqSundApp) (method : string)
  : M Control :=
  match app_window self with
  | Some w => ret w
  | None =>
      raise (AttributeError
               ("'NoneType' object has no attribute '" ++ method ++ "'"))
  end.

(** [SolteqSundApp.login]; returns the object with its new [app_window]. *)
Definition login (fuel : nat) (self : SolteqSundApp) : M SolteqSundApp :=
  w <- wait_for_control fuel WindowControl [("AutomationId", "frmLogin")]
         (Some 2%Z) None ;;
  let self := set_app_window self w in
  w <- the_app_window self "SetFocus" ;;
  SetFocus w ;;
  w <- the_app_window self "EditControl" ;;
  let username_box :=
    child_control w EditControl [("AutomationId", "textBoxLogin")] in
  SendKeys username_box (username self) (Some 0%Q) ;;
  w <- the_app_window self "EditControl" ;;
  let password_box :=
    child_control w EditControl [("AutomationId", "textBoxPassword")] in
  SendKeys password_box (password self) (Some 0%Q) ;;
  SendKeys password_box "{ENTER}" (Some 0%Q) ;;
  w <- wait_for_control fuel WindowControl [("AutomationId", "frmClient")]
         (Some 2%Z) (Some 60%Q) ;;
  ret (set_app_window self w).

(** [SolteqSundApp.open_patient] *)
Definition open_patient (fuel : nat) (self : SolteqSundApp) : M unit :=
  w <- the_app_window self "SendKeys" ;;
  SendKeys w "{Ctrl}o" (Some 0%Q) ;;
  wait_for_control fuel EditControl [("AutomationId", "TextBoxChildCPR")]
    (Some 8%Z) None ;;
  w <- the_app_window self "EditControl" ;;
  let ssn_textbox :=
    child_control w EditControl [("AutomationId", "TextBoxChildCPR")] in
  SetFocus ssn_textbox ;;
  SendKeys ssn_textbox (ssn self) None ;;
  SendKeys ssn_textbox "{ENTER}" None ;;
  list_item <- wait_for_control fuel ListItemControl [("Name", ssn self)]
                 (Some 12%Z) None ;;
  DoubleClick list_item false 0%Q ;;
  wait_for_control fuel TabItemControl
    [("Name", Py.replace (ssn self) "-" EmptyString)] (Some 4%Z) None ;;
  ret tt.

Definition value_error_message : string :=
  "The document was not found in the SQL database.".

(** [SolteqSundApp.create_journal] *)
Definition create_journal (fuel : nat) (self : SolteqSundApp) : M unit :=
  w <- the_app_window self "SendKeys" ;;
  SendKeys w "{Ctrl}{Shift}p" (Some 0%Q) ;;
  print_journal_window <-
    wait_for_control fuel WindowControl [("AutomationId", "frmViewBase")]
      (Some 2%Z) None ;;
  let print_journal_button :=
    child_control print_journal_window PaneControl
      [("AutomationId", "buttonPrintToDocumentStore")] in
  Click print_journal_button false 0%Q ;;
  wait_for_control_to_disappear fuel WindowControl
    [("AutomationId", "frmViewBase")] (Some 2%Z) (Some 60%Q) ;;
  created <- _is_journal_created self ;;
  if negb created then raise (ValueError value_error_message) else ret tt.

(** ** [process.py] *)

Record Credential := mkCredential {
  cred_username : string;
  cred_password : string
}.

(** The [OrchestratorConnection] handed to [process]: a lookup either
    answers or raises. *)
Record OrchestratorConnection := mkOrchestratorConnection {
  get_credential : string -> Exn + Credential;
  get_constant : string -> Exn + string
}.

(** [robot_framework/config.py] is not among the sources; the one setting
    [process] reads is taken as given. *)
Record Config := mkConfig { APP_PATH : string }.

Definition lookup {A} (r : Exn + A) : M A :=
  match r with
  | inr a => ret a
  | inl e => raise e
  end.

Definition log_trace (msg : string) : M unit :=
  fun _ s => (Return tt, log (EvLogTrace msg) s).

(** [process]; the arguments of the constructor are evaluated left to
    right. *)
Definition process (fuel : nat) (config : Config)
  (orchestrator_connection : OrchestratorConnection) : M unit :=
  log_trace "Running process." ;;
  let app_path := APP_PATH config in
  c <- lookup (get_credential orchestrator_connection "solteq_sund") ;;
  let username := cred_username c in
  c <- lookup (get_credential orchestrator_connection "solteq_sund") ;;
  let password := cred_password c in
  db <- lookup (get_constant orchestrator_connection "solteq_sund_db_connstr") ;;
  let app_obj := init app_path username password EmptyString db in
  start_application app_obj ;;
  app_obj <- login fuel app_obj ;;
  open_patient fuel app_obj ;;
  create_journal fuel app_obj.

(** * Specification vocabulary *)

(** ** What a polling loop does

    [polling W d stop_when end_time t evs t' fin]: started at clock [t], a
    loop that polls descriptor [d] and stops at the first existence check
    answering [stop_when] performs the calls [evs], in this order, and is
    left at clock [t'] for the reason [fin]. *)

Inductive PollEnd :=
| Stopped (resolved : option Element)
| Deadline
| Exhausted.

Definition is_some {A} (o : option A) : bool :=
  match o with Some _ => true | None => false end.

Inductive polling (W : World) (d : Descriptor) (stop_when : bool)
  (end_time : Q) : Q -> list Event -> Q -> PollEnd -> Prop :=
| poll_deadline t :
    (end_time <= t)%Q ->
    polling W d stop_when end_time t [EvTime t] t Deadline
| poll_stop t :
    (t < end_time)%Q ->
    is_some (gui W t d) = stop_when ->
    polling W d stop_when end_time t
      [EvTime t; EvExists d 0 0 stop_when]
      (t + probe_cost W)%Q (Stopped (gui W t d))
| poll_again t evs t' fin :
    (t < end_time)%Q ->
    is_some (gui W t d) = negb stop_when ->
    polling W d stop_when end_time
      (t + probe_cost W + ((1#2) + sleep_lag W))%Q evs t' fin ->
    polling W d stop_when end_time t
      (EvTime t :: EvExists d 0 0 (negb stop_when) :: EvSleep (1#2) :: evs)
      t' fin
| poll_exhausted t :
    polling W d stop_when end_time t [] t Exhausted.

(** Number of existence checks among the calls [evs]. *)
Definition is_probe (ev : Event) : bool :=
  match ev with EvExists _ _ _ _ => true | _ => false end.

Definition polls (evs : list Event) : nat :=
  List.length (filter is_probe evs).

(** Whether some existence check among [evs] answered [b]. *)
Definition answered (b : bool) (ev : Event) : bool :=
  match ev with EvExists _ _ _ found => Bool.eqb found b | _ => false end.

(** How [wait_for_control] ends, for each way its loop can end. *)
Definition appeared (d : Descriptor) (fin : PollEnd) : Outcome Control :=
  match fin with
  | Stopped resolved => Return (mkControl d None resolved)
  | Deadline => Raise (TimeoutError (not_found_message (search_params d)))
  | Exhausted => OutOfFuel
  end.

(** How [wait_for_control_to_disappear] ends. *)
Definition disappeared (d : Descriptor) (fin : PollEnd) : Outcome bool :=
  match fin with
  | Stopped _ => Return true
  | Deadline => Raise (TimeoutError (not_gone_message (search_params d)))
  | Exhausted => OutOfFuel
  end.

(** Loop-condition evaluations that suffice for a wait of [timeout]. *)
Definition polls_needed (timeout : Q) : nat :=
  S (Z.to_nat (Qceiling (2 * timeout))).

(** ** Scripted worlds for examples

    Every descriptor resolves (to element 1) from [appears_at] up to, but
    not including, [gone_at]; no operation takes time beyond the sleeps
    themselves; the database holds [rows] for every query. *)
Definition scripted_world (appears_at gone_at : Q) (rows : list Row) : World :=
  mkWorld
    (fun t _ => if Qle_bool appears_at t && Qltb t gone_at
                then Some 1 else None)
    0 0 0
    (fun _ => mkDate 2024 3 5)
    (fun _ _ _ => Rows ["DocumentId"] rows).

Definition at_start : State := mkState 0 [].

Definition frmLogin : SearchParams := [("AutomationId", "frmLogin")].

(** ** Vocabulary for the workflow steps *)

(** Calls that go to the database. *)
Definition is_db_call (ev : Event) : bool :=
  match ev with
  | EvConnect _ _ | EvExecute _ _ => true
  | _ => false
  end.

(** [m] only appends to the trace, and only events satisfying [P]. *)
Definition emits {A} (W : World) (P : Event -> Prop) (m : M A) : Prop :=
  forall s r s',
    m W s = (r, s') ->
    exists evs, trace s' = (trace s ++ evs)%list /\ Forall P evs.

Definition frmViewBase : SearchParams := [("AutomationId", "frmViewBase")].

(** The part of [create_journal] that drives the user interface up to the
    click on the store button (its first four statements). *)
Definition create_journal_click (fuel : nat) (self : SolteqSundApp) : M unit :=
  w <- the_app_window self "SendKeys" ;;
  SendKeys w "{Ctrl}{Shift}p" (Some 0%Q) ;;
  print_journal_window <-
    wait_for_control fuel WindowControl frmViewBase (Some 2%Z) None ;;
  let print_journal_button :=
    child_control print_journal_window PaneControl
      [("AutomationId", "buttonPrintToDocumentStore")] in
  Click print_journal_button false 0%Q.

(** The query text [_is_journal_created] sends at clock reading [t]. *)
Definition journal_query_at (W : World) (self : SolteqSundApp) (t : Q)
  : string :=
  journal_query (ssn self)
    ("Udskrift af journal " ++ strftime_dmY (calendar W t) ++ ".pdf").

(** A driver object as [login] leaves it, for examples. *)
Definition logged_in_app (ssn : string) : SolteqSundApp :=
  mkSolteqSundApp "C:\Solteq\Sund.exe" "robot" "secret" ssn "DSN=sund"
    (Some (mkControl
             (mkDescriptor WindowControl [("AutomationId", "frmClient")] 2)
             None (Some 1))).

(** [s] without the occurrences of the character [c]. *)
Fixpoint remove_char (c : ascii) (s : string) : string :=
  match s with
  | EmptyString => EmptyString
  | String x s' =>
      if Ascii.eqb x c then remove_char c s' else String x (remove_char c s')
  end.

(** The characters of Python's [string.punctuation]: the printable ASCII
    characters that are neither letters nor digits nor the space. *)
Definition is_punctuation (c : ascii) : bool :=
  let n := nat_of_ascii c in
  ((33 <=? n)%nat && (n <=? 47)%nat) || ((58 <=? n)%nat && (n <=? 64)%nat)
  || ((91 <=? n)%nat && (n <=? 96)%nat) || ((123 <=? n)%nat && (n <=? 126)%nat).

(** The tab label as the specification words it: the identifier with
    punctuation stripped. *)
Fixpoint spec_strip_punctuation (s : string) : string :=
  match s with
  | EmptyString => EmptyString
  | String x s' =>
      if is_punctuation x then spec_strip_punctuation s'
      else String x (spec_strip_punctuation s')
  end.

(** The hyphen is the only punctuation in [s]. *)
Fixpoint only_hyphens (s : string) : bool :=
  match s with
  | EmptyString => true
  | String x s' =>
      (negb (is_punctuation x) || Ascii.eqb x "-"%char) && only_hyphens s'
  end.

(** The descriptor of the tab [open_patient] waits for. *)
Definition patient_tab (self : SolteqSundApp) : Descriptor :=
  mkDescriptor TabItemControl
    [("Name", Py.replace (ssn self) "-" EmptyString)] 4.

(** ** The query, read as SQL

    The three literal pieces of the f-string of [_is_journal_created]:
    before the identifier, between the identifier and the file name, and
    after the file name. *)
Definition query_head : string :=
"
            SELECT" ++ tab ++ "ds.DocumentId
                    ,ds.entityId
                    ,ds.OriginalFilename
                    ,ds.UniqueFilename
                    ,dss.Document_HistoryId
                    ,dss.Documented
                    ,dss.Decided
                    ,dss.DocumentStoreStatusId
            FROM DocumentStore ds
            JOIN Child c ON c.childId = ds.entityId
            JOIN (
                SELECT DocumentId, MAX(Document_HistoryId) AS MaxDocument_HistoryId
                FROM DocumentStoreStatus
                GROUP BY DocumentId
            ) maxHistory ON ds.DocumentId = maxHistory.DocumentId
            JOIN DocumentStoreStatus dss ON ds.DocumentId = dss.DocumentId AND dss.Document_HistoryId = maxHistory.MaxDocument_HistoryId
            WHERE" ++ tab ++ "c.cpr = '".

Definition query_mid : string :=
"'
                    AND ds.OriginalFilename = '".

Definition query_tail : string :=
"'
                    AND dss.DocumentStoreStatusId = 1
            ORDER BY Decided DESC
            ".













(** Reading an SQL text literal from just after its opening quote: it ends
    at the first quote that is not doubled, and a doubled quote stands for
    one quote.  Gives the value and the text after the closing quote. *)
Fixpoint read_literal (s : string) : option (string * string) :=
  match s with
  | EmptyString => None
  | String c s' =>
      if Ascii.eqb c Py.squote then
        match s' with
        | String c' s'' =>
            if Ascii.eqb c' Py.squote then
              match read_literal s'' with
              | Some (v, rest) => Some (String Py.squote v, rest)
              | None => None
              end
            else Some (EmptyString, s')
        | EmptyString => Some (EmptyString, s')
        end
      else
        match read_literal s' with
        | Some (v, rest) => Some (String c v, rest)
        | None => None
        end
  end.

Fixpoint strip_prefix (p s : string) : option string :=
  match p, s with
  | EmptyString, _ => Some s
  | String a p', String b s' =>
      if Ascii.eqb a b then strip_prefix p' s' else None
  | String _ _, EmptyString => None
  end.

Definition after_quote (s : string) : string :=
  match s with
  | String _ s' => s'
  | EmptyString => EmptyString
  end.

(** The two literals of a text that is the journal query, as the database
    reads them; [None] for any other text. *)
Definition read_journal_query (text : string) : option (string * string) :=
  match strip_prefix query_head text with
  | None => None
  | Some s1 =>
      match read_literal s1 with
      | None => None
      | Some (cpr, s2) =>
          match strip_prefix (after_quote query_mid) s2 with
          | None => None
          | Some s3 =>
              match read_literal s3 with
              | None => None
              | Some (filename, s4) =>
                  if String.eqb s4 (after_quote query_tail)
                  then Some (cpr, filename) else None
              end
          end
      end
  end.





(** What it means for one call of a run to use the empty identifier: keys
    typed into the cpr search box are the empty text or the Enter key, a
    list item or tab item is looked for under the empty name, and a query
    is the journal query for the empty identifier, with nothing bound. *)
Definition uses_empty_identifier (ev : Event) : Prop :=
  match ev with
  | EvSendKeys c text _ =>
      search_params (descr_of c) = [("AutomationId", "TextBoxChildCPR")] ->
      text = EmptyString \/ text = "{ENTER}"
  | EvExists d _ _ _ =>
      control_type d = ListItemControl \/ control_type d = TabItemControl ->
      search_params d = [("Name", EmptyString)]
  | EvExecute sql bound =>
      bound = []
      /\ exists filename,
          sql = query_head ++ EmptyString ++ query_mid ++ filename
                  ++ query_tail
  | _ => True
  end.

(** ** Reading a [repr] back

    One character of the body of a [repr] in quotes [q], read from the
    front of a text; [None] where the body ends. *)
Definition hex_value (c : ascii) : nat :=
  let n := nat_of_ascii c in
  if (n <? 58)%nat then n - 48 else n - 87.

Definition unrepr_char (q : ascii) (s : string) : option (ascii * string) :=
  match s with
  | EmptyString => None
  | String c rest =>
      if Ascii.eqb c Py.backslash then
        match rest with
        | EmptyString => None
        | String e rest' =>
            if Ascii.eqb e "x"%char then
              match rest' with
              | String h1 (String h2 rest'') =>
                  Some (ascii_of_nat (16 * hex_value h1 + hex_value h2),
                        rest'')
              | _ => None
              end
            else if Ascii.eqb e "t"%char then Some ("009"%char, rest')
            else if Ascii.eqb e "n"%char then Some ("010"%char, rest')
            else if Ascii.eqb e "r"%char then Some ("013"%char, rest')
            else Some (e, rest')
        end
      else if Ascii.eqb c q then None
      else Some (c, rest)
  end.

(** The clock readings among the calls [evs], in order. *)
Definition clock_readings (evs : list Event) : list Q :=
  flat_map (fun ev => match ev with EvTime t => [t] | _ => [] end) evs.

(** * Vocabulary for the further properties *)

(** Calls that give input to the application. *)
Definition is_input (ev : Event) : bool :=
  match ev with
  | EvSetFocus _ | EvSendKeys _ _ _ | EvClick _ _ _ | EvDoubleClick _ _ _ =>
      true
  | _ => false
  end.

Definition frmClient : SearchParams := [("AutomationId", "frmClient")].

(** The part of [login] up to the Enter key that submits the credentials
    (its statements before the wait for the client window); it gives the
    object with the login window as its window. *)
Definition login_submit (fuel : nat) (self : SolteqSundApp)
  : M SolteqSundApp :=
  w <- wait_for_control fuel WindowControl frmLogin (Some 2%Z) None ;;
  let self := set_app_window self w in
  w <- the_app_window self "SetFocus" ;;
  SetFocus w ;;
  w <- the_app_window self "EditControl" ;;
  let username_box :=
    child_control w EditControl [("AutomationId", "textBoxLogin")] in
  SendKeys username_box (username self) (Some 0%Q) ;;
  w <- the_app_window self "EditControl" ;;
  let password_box :=
    child_control w EditControl [("AutomationId", "textBoxPassword")] in
  SendKeys password_box (password self) (Some 0%Q) ;;
  SendKeys password_box "{ENTER}" (Some 0%Q) ;;
  ret self.

(** A world for examples in which every control is there at all times,
    except those whose first search parameter has the value [missing]. *)
Definition world_without (missing : string) (reply : DbReply) : World :=
  mkWorld
    (fun _ d =>
       match search_params d with
       | (_, v) :: _ => if String.eqb v missing then None else Some 1
       | [] => Some 1
       end)
    0 0 0
    (fun _ => mkDate 2024 3 5)
    (fun _ _ _ => reply).

(** Whatever [m] raises satisfies [E]. *)
Definition raises {A} (W : World) (E : Exn -> Prop) (m : M A) : Prop :=
  forall s e s', m W s = (Raise e, s') -> E e.

Definition is_attribute_error (e : Exn) : bool :=
  match e with AttributeError _ => true | _ => false end.

(** The part of [open_patient] that opens the search and types the
    identifier (its statements before the wait for the list item). *)
Definition open_patient_search (fuel : nat) (self : SolteqSundApp) : M unit :=
  w <- the_app_window self "SendKeys" ;;
  SendKeys w "{Ctrl}o" (Some 0%Q) ;;
  wait_for_control fuel EditControl [("AutomationId", "TextBoxChildCPR")]
    (Some 8%Z) None ;;
  w <- the_app_window self "EditControl" ;;
  let ssn_textbox :=
    child_control w EditControl [("AutomationId", "TextBoxChildCPR")] in
  SetFocus ssn_textbox ;;
  SendKeys ssn_textbox (ssn self) None ;;
  SendKeys ssn_textbox "{ENTER}" None.

(** The descriptor of the list entry [open_patient] waits for: named by
    the identifier as it is. *)
Definition patient_list_item (self : SolteqSundApp) : Descriptor :=
  mkDescriptor ListItemControl [("Name", ssn self)] 12.

Definition is_double_click (ev : Event) : bool :=
  match ev with EvDoubleClick _ _ _ => true | _ => false end.

Definition is_click (ev : Event) : bool :=
  match ev with EvClick _ _ _ => true | _ => false end.

Definition is_launch (ev : Event) : bool :=
  match ev with EvStartFile _ => true | _ => false end.

Definition is_log (ev : Event) : bool :=
  match ev with EvLogTrace _ => true | _ => false end.

(** What it means for one call of a run of [process] to use the settings
    the orchestrator and the configuration give. *)
Definition uses_settings (config : Config) (oc : OrchestratorConnection)
  (ev : Event) : Prop :=
  match ev with
  | EvStartFile path => path = APP_PATH config
  | EvLogTrace msg => msg = "Running process."
  | EvConnect dsn autocommit =>
      get_constant oc "solteq_sund_db_connstr" = inr dsn /\ autocommit = true
  | EvSendKeys c text _ =>
      (search_params (descr_of c) = [("AutomationId", "textBoxLogin")] ->
       exists cred, get_credential oc "solteq_sund" = inr cred
                    /\ text = cred_username cred)
      /\ (search_params (descr_of c) = [("AutomationId", "textBoxPassword")] ->
          exists cred, get_credential oc "solteq_sund" = inr cred
                       /\ (text = cred_password cred \/ text = "{ENTER}"))
  | _ => True
  end.

(** ** The run of [process] *)

(** What [process] does with the driver object once it has built it: its
    last four statements. *)
Definition process_steps (fuel : nat) (app_obj : SolteqSundApp) : M unit :=
  start_application app_obj ;;
  app_obj <- login fuel app_obj ;;
  open_patient fuel app_obj ;;
  create_journal fuel app_obj.

(** The cpr search box, as [open_patient] addresses it from the window. *)
Definition cpr_box (w : Control) : Control :=
  child_control w EditControl [("AutomationId", "TextBoxChildCPR")].

(** The two calls that mark how far a run got: the double click that opens
    the patient and the calls to the database. *)
Definition is_milestone (ev : Event) : bool :=
  is_double_click ev || is_db_call ev.

(** [m] never stops for lack of fuel: it returns or raises. *)
Definition finishes {A} (W : World) (m : M A) : Prop :=
  forall s, fst (m W s) <> OutOfFuel.
(** * Verification *)

(** ** The monad *)

Lemma bind_Return {A B} (m : M A) (k : A -> M B) W s a s' :
  m W s = (Return a, s') -> bind m k W s = k a W s'.
Proof. unfold bind; intros ->; reflexivity. Qed.

Lemma bind_Raise {A B} (m : M A) (k : A -> M B) W s e s' :
  m W s = (Raise e, s') -> bind m k W s = (Raise e, s').
Proof. unfold bind; intros ->; reflexivity. Qed.

Lemma bind_OutOfFuel {A B} (m : M A) (k : A -> M B) W s s' :
  m W s = (OutOfFuel, s') -> bind m k W s = (OutOfFuel, s').
Proof. unfold bind; intros ->; reflexivity. Qed.

Lemma Qltb_lt (a b : Q) : Qltb a b = true <-> (a < b)%Q.
Proof.
  unfold Qltb. rewrite negb_true_iff, <- not_true_iff_false, Qle_bool_iff.
  split; [apply Qnot_le_lt | apply Qlt_not_le].
Qed.

Lemma Qltb_ge (a b : Q) : Qltb a b = false <-> (b <= a)%Q.
Proof.
  unfold Qltb. rewrite negb_false_iff. apply Qle_bool_iff.
Qed.

(** ** The error message names the search parameters *)

Lemma append_assoc (a b c : string) : (a ++ b) ++ c = a ++ b ++ c.
Proof. induction a as [|x a IH]; [reflexivity|]. cbn. now rewrite IH. Qed.

Lemma append_inv_head (p a b : string) : p ++ a = p ++ b -> a = b.
Proof.
  induction p as [|x p IH]; [auto|]. cbn. intros [= H]. auto.
Qed.

Lemma unrepr_repr_char q c rest :
  q = Py.squote \/ q = Py.dquote ->
  unrepr_char q (Py.repr_char q c ++ rest) = Some (c, rest).
Proof.
  intros [-> | ->];
    destruct c as [[] [] [] [] [] [] [] []]; reflexivity.
Qed.

Lemma unrepr_end q rest :
  q = Py.squote \/ q = Py.dquote -> unrepr_char q (String q rest) = None.
Proof. intros [-> | ->]; reflexivity. Qed.

Lemma repr_quote_cases s :
  Py.repr_quote s = Py.squote \/ Py.repr_quote s = Py.dquote.
Proof. unfold Py.repr_quote. destruct (_ && _); auto. Qed.

Lemma repr_body_inj q a b x y :
  q = Py.squote \/ q = Py.dquote ->
  Py.repr_body q a ++ String q x = Py.repr_body q b ++ String q y ->
  a = b /\ x = y.
Proof.
  intros Hq. revert b.
  induction a as [|c a IH]; intros [|d b]; cbn [Py.repr_body append].
  - intros [= H]. auto.
  - rewrite append_assoc. intros H.
    apply (f_equal (unrepr_char q)) in H.
    rewrite unrepr_end, unrepr_repr_char in H by assumption. discriminate.
  - rewrite append_assoc. intros H.
    apply (f_equal (unrepr_char q)) in H.
    rewrite unrepr_end, unrepr_repr_char in H by assumption. discriminate.
  - rewrite !append_assoc. intros H.
    pose proof (f_equal (unrepr_char q) H) as Hc.
    rewrite !unrepr_repr_char in Hc by assumption.
    injection Hc as <- Hrest.
    destruct (IH _ Hrest) as (<- & <-). auto.
Qed.

(** A [repr] of a text ends where its closing quote is: two of them that
    start the same text are [repr]s of the same text. *)
Lemma repr_str_inj a b x y :
  Py.repr_str a ++ x = Py.repr_str b ++ y -> a = b /\ x = y.
Proof.
  unfold Py.repr_str. cbn [append]. rewrite !append_assoc. cbn [append].
  intros [= Hq H]. rewrite <- Hq in H.
  eapply repr_body_inj; [apply repr_quote_cases | exact H].
Qed.

Lemma repr_str_head a x :
  exists q rest, Py.repr_str a ++ x = String q rest
                 /\ (q = Py.squote \/ q = Py.dquote).
Proof.
  unfold Py.repr_str. cbn [append]. eexists _, _.
  split; [reflexivity | apply repr_quote_cases].
Qed.

Lemma repr_items_cons k v rest :
  Py.repr_items ((k, v) :: rest)
  = Py.repr_str k ++ ": " ++ Py.repr_str v
      ++ match rest with [] => EmptyString | _ :: _ => ", " ++ Py.repr_items rest end.
Proof.
  destruct rest as [|[k' v'] rest]; cbn [Py.repr_items].
  - f_equal. f_equal. clear. induction (Py.repr_str v); cbn; congruence.
  - reflexivity.
Qed.

Lemma repr_items_inj l1 l2 x y :
  Py.repr_items l1 ++ String "}"%char x = Py.repr_items l2 ++ String "}"%char y ->
  l1 = l2 /\ x = y.
Proof.
  revert l2. induction l1 as [|[k1 v1] l1 IH]; intros [|[k2 v2] l2].
  - cbn. intros [= H]. auto.
  - rewrite repr_items_cons, append_assoc.
    destruct (repr_str_head k2 ((": " ++ Py.repr_str v2 ++
      match l2 with [] => EmptyString | _ :: _ => ", " ++ Py.repr_items l2 end)
      ++ String "}"%char y)) as (q & rest & -> & [-> | ->]); discriminate.
  - rewrite repr_items_cons, append_assoc.
    destruct (repr_str_head k1 ((": " ++ Py.repr_str v1 ++
      match l1 with [] => EmptyString | _ :: _ => ", " ++ Py.repr_items l1 end)
      ++ String "}"%char x)) as (q & rest & -> & [-> | ->]); discriminate.
  - rewrite !repr_items_cons, !append_assoc. intros H.
    apply repr_str_inj in H. destruct H as (<- & H).
    apply (append_inv_head ": ") in H.
    apply repr_str_inj in H. destruct H as (<- & H).
    destruct l1 as [|p1 l1], l2 as [|p2 l2].
    + cbn in H. injection H as <-. auto.
    + cbn in H. discriminate.
    + cbn in H. discriminate.
    + rewrite !append_assoc in H. apply (append_inv_head ", ") in H.
      destruct (IH _ H) as (-> & <-). auto.
Qed.

Lemma repr_dict_inj d1 d2 x :
  Py.repr_dict d1 ++ x = Py.repr_dict d2 ++ x -> d1 = d2.
Proof.
  unfold Py.repr_dict. cbn [append]. rewrite !append_assoc. cbn [append].
  intros [= H]. now apply repr_items_inj in H.
Qed.

Lemma not_found_message_inj sp1 sp2 :
  not_found_message sp1 = not_found_message sp2 -> sp1 = sp2.
Proof.
  unfold not_found_message. intros H.
  apply append_inv_head in H. now apply repr_dict_inj in H.
Qed.

Lemma not_gone_message_inj sp1 sp2 :
  not_gone_message sp1 = not_gone_message sp2 -> sp1 = sp2.
Proof.
  unfold not_gone_message. intros H.
  apply append_inv_head in H. now apply repr_dict_inj in H.
Qed.

(** ** The polling loops *)

(** Unfold one layer of monadic code. *)
Ltac run_step :=
  cbv beta iota delta
    [bind ret raise out_of_fuel time_time time_sleep Exists new_control];
  cbn [fst snd log emit clock trace].

Lemma wait_for_control_loop_polling fuel ct sp depth end_time W :
  forall s r s',
    wait_for_control_loop fuel ct sp depth end_time W s = (r, s') ->
    exists evs fin,
      polling W (mkDescriptor ct sp depth) true end_time
        (clock s) evs (clock s') fin
      /\ trace s' = (trace s ++ evs)%list
      /\ r = appeared (mkDescriptor ct sp depth) fin
      /\ (fin = Exhausted -> polls evs = fuel).
Proof.
  induction fuel as [|fuel IH]; intros s r s'.
  - intros E. injection E as <- <-. exists [], Exhausted.
    rewrite app_nil_r. repeat split. constructor.
  - cbn [wait_for_control_loop]. run_step.
    destruct (Qltb (clock s) end_time) eqn:Hlt; run_step.
    + apply Qltb_lt in Hlt.
      destruct (gui W (clock s) (mkDescriptor ct sp depth)) as [e|] eqn:Hg;
        run_step.
      * intros E. injection E as <- <-.
        exists [EvTime (clock s);
                EvExists (mkDescriptor ct sp depth) 0 0 true],
               (Stopped (Some e)).
        cbn [emit log clock trace]. rewrite <- app_assoc.
        repeat split; try discriminate.
        rewrite <- Hg. apply poll_stop; [assumption | now rewrite Hg].
      * intros E.
        apply IH in E. destruct E as (evs & fin & Hp & Ht & Hr & Hn).
        cbn [emit log clock trace] in Hp, Ht.
        exists (EvTime (clock s)
                :: EvExists (mkDescriptor ct sp depth) 0 0 false
                :: EvSleep (1#2) :: evs), fin.
        split; [|split; [|split]].
        -- apply (poll_again W _ true); [assumption | now rewrite Hg | exact Hp].
        -- rewrite Ht. rewrite <- !app_assoc. reflexivity.
        -- exact Hr.
        -- intros Hf. cbn. f_equal. exact (Hn Hf).
    + apply Qltb_ge in Hlt. intros E. injection E as <- <-.
      exists [EvTime (clock s)], Deadline. repeat split; try discriminate.
      now constructor.
Qed.

Lemma wait_for_control_to_disappear_loop_polling fuel ct sp depth end_time W :
  forall s r s',
    wait_for_control_to_disappear_loop fuel ct sp depth end_time W s = (r, s') ->
    exists evs fin,
      polling W (mkDescriptor ct sp depth) false end_time
        (clock s) evs (clock s') fin
      /\ trace s' = (trace s ++ evs)%list
      /\ r = disappeared (mkDescriptor ct sp depth) fin
      /\ (fin = Exhausted -> polls evs = fuel).
Proof.
  induction fuel as [|fuel IH]; intros s r s'.
  - intros E. injection E as <- <-. exists [], Exhausted.
    rewrite app_nil_r. repeat split. constructor.
  - cbn [wait_for_control_to_disappear_loop]. run_step.
    destruct (Qltb (clock s) end_time) eqn:Hlt; run_step.
    + apply Qltb_lt in Hlt.
      destruct (gui W (clock s) (mkDescriptor ct sp depth)) as [e|] eqn:Hg;
        cbn [negb]; run_step.
      * intros E.
        apply IH in E. destruct E as (evs & fin & Hp & Ht & Hr & Hn).
        cbn [emit log clock trace] in Hp, Ht.
        exists (EvTime (clock s)
                :: EvExists (mkDescriptor ct sp depth) 0 0 true
                :: EvSleep (1#2) :: evs), fin.
        split; [|split; [|split]].
        -- apply (poll_again W _ false); [assumption | now rewrite Hg | exact Hp].
        -- rewrite Ht. rewrite <- !app_assoc. reflexivity.
        -- exact Hr.
        -- intros Hf. cbn. f_equal. exact (Hn Hf).
      * intros E. injection E as <- <-.
        exists [EvTime (clock s);
                EvExists (mkDescriptor ct sp depth) 0 0 false],
               (Stopped None).
        cbn [emit log clock trace]. rewrite <- app_assoc.
        repeat split; try discriminate.
        rewrite <- Hg. apply poll_stop; [assumption | now rewrite Hg].
    + apply Qltb_ge in Hlt. intros E. injection E as <- <-.
      exists [EvTime (clock s)], Deadline. repeat split; try discriminate.
      now constructor.
Qed.

(** *** Facts about [polling] *)

Section Polling.

Variables (W : World) (d : Descriptor) (stop_when : bool) (end_time : Q).

Lemma polling_stopped t evs t' resolved :
  polling W d stop_when end_time t evs t' (Stopped resolved) ->
  is_some resolved = stop_when.
Proof.
  intros H. remember (Stopped resolved) as fin eqn:Hfin.
  induction H; try discriminate; auto.
  injection Hfin as <-. assumption.
Qed.

(** A loop that ends on the deadline made no probe that answered
    [stop_when]; its last call is the clock reading that met the
    deadline. *)
Lemma polling_deadline t evs t' :
  polling W d stop_when end_time t evs t' Deadline ->
  existsb (answered stop_when) evs = false
  /\ (exists before, evs = (before ++ [EvTime t'])%list)
  /\ (end_time <= t')%Q.
Proof.
  intros H. remember Deadline as fin eqn:Hfin.
  induction H; try discriminate.
  - repeat split; auto. now exists [].
  - destruct (IHpolling Hfin) as (Hall & (before & ->) & Hle).
    split; [|split]; auto.
    + cbn. rewrite Hall. now destruct stop_when.
    + eexists (_ :: _ :: _ :: before). reflexivity.
Qed.

(** A loop that stops on a probe made it before the deadline; it is the
    only probe that answered [stop_when] and the last call. *)
Lemma polling_stop t evs t' resolved :
  polling W d stop_when end_time t evs t' (Stopped resolved) ->
  existsb (answered stop_when) evs = true
  /\ (exists before,
        evs = (before ++ [EvExists d 0 0 stop_when])%list
        /\ existsb (answered stop_when) before = false)
  /\ (exists t_probe,
        (t_probe < end_time)%Q /\ t' = (t_probe + probe_cost W)%Q
        /\ gui W t_probe d = resolved).
Proof.
  intros H. remember (Stopped resolved) as fin eqn:Hfin.
  induction H; try discriminate.
  - injection Hfin as <-. split; [|split].
    + cbn. now destruct stop_when.
    + now exists [EvTime t].
    + now exists t.
  - destruct (IHpolling Hfin) as (Hany & (before & -> & Hb) & Ht).
    split; [|split]; auto.
    + cbn. rewrite Hany. now rewrite !orb_true_r.
    + eexists (_ :: _ :: _ :: before). split; [reflexivity|].
      cbn. rewrite Hb. now destruct stop_when.
Qed.

Lemma polling_exhausted t evs t' :
  polling W d stop_when end_time t evs t' Exhausted ->
  existsb (answered stop_when) evs = false.
Proof.
  intros H. remember Exhausted as fin eqn:Hfin.
  induction H; try discriminate; auto.
  cbn. rewrite (IHpolling Hfin). now destruct stop_when.
Qed.

Hypothesis Hcausal : causal W.

(** Time does not run backwards during a loop. *)
Lemma polling_clock t evs t' fin :
  polling W d stop_when end_time t evs t' fin -> (t <= t')%Q.
Proof.
  destruct Hcausal as (Hp & Hs & _).
  induction 1; try lra.
Qed.

(** After [k+1] probes at least [k] half units have passed since the first
    one, and the last one was still made before the deadline. *)
Lemma polling_polls_bound t evs t' fin k :
  polling W d stop_when end_time t evs t' fin ->
  polls evs = S k ->
  (t + inject_Z (Z.of_nat k) * (1#2) < end_time)%Q.
Proof.
  destruct Hcausal as (Hp & Hs & _).
  intros H. revert k. induction H; intros k Hk; try discriminate.
  - injection Hk as <-. change (inject_Z (Z.of_nat 0)) with 0%Q. lra.
  - cbn in Hk. injection Hk as Hk. destruct k as [|k].
    + change (inject_Z (Z.of_nat 0)) with 0%Q. lra.
    + specialize (IHpolling k Hk).
      rewrite Nat2Z.inj_succ. unfold Z.succ. rewrite inject_Z_plus.
      change (inject_Z 1) with 1%Q. lra.
Qed.

End Polling.

(** *** The two waits as a whole *)

Lemma polling_polls_le W d stop_when t timeout evs t' fin :
  causal W ->
  polling W d stop_when (t + timeout) t evs t' fin ->
  polls evs < polls_needed timeout.
Proof.
  intros Hc H. unfold polls_needed.
  destruct (polls evs) as [|k] eqn:Hk; [lia|].
  pose proof (polling_polls_bound W d stop_when _ Hc _ _ _ _ _ H Hk) as Hb.
  assert (Hq : (inject_Z (Z.of_nat k) < inject_Z (Qceiling (2 * timeout)))%Q).
  { pose proof (Qle_ceiling (2 * timeout)). lra. }
  rewrite <- Zlt_Qlt in Hq. lia.
Qed.

Lemma wait_for_control_run fuel ct sp search_depth timeout W s r s' :
  wait_for_control fuel ct sp search_depth timeout W s = (r, s') ->
  let d := mkDescriptor ct sp (opt_arg 1%Z search_depth) in
  exists evs fin,
    polling W d true (clock s + opt_arg 30%Q timeout) (clock s) evs
      (clock s') fin
    /\ trace s' = (trace s ++ EvTime (clock s) :: evs)%list
    /\ r = appeared d fin
    /\ (fin = Exhausted -> polls evs = fuel).
Proof.
  unfold wait_for_control. run_step. intros E.
  apply wait_for_control_loop_polling in E.
  destruct E as (evs & fin & Hp & Ht & Hr & Hn).
  cbn [log clock trace] in Hp, Ht.
  exists evs, fin. repeat split; auto.
  rewrite Ht, <- app_assoc. reflexivity.
Qed.

Lemma wait_for_control_to_disappear_run fuel ct sp search_depth timeout W s r s' :
  wait_for_control_to_disappear fuel ct sp search_depth timeout W s = (r, s') ->
  let d := mkDescriptor ct sp (opt_arg 1%Z search_depth) in
  exists evs fin,
    polling W d false (clock s + opt_arg 30%Q timeout) (clock s) evs
      (clock s') fin
    /\ trace s' = (trace s ++ EvTime (clock s) :: evs)%list
    /\ r = disappeared d fin
    /\ (fin = Exhausted -> polls evs = fuel).
Proof.
  unfold wait_for_control_to_disappear. run_step. intros E.
  apply wait_for_control_to_disappear_loop_polling in E.
  destruct E as (evs & fin & Hp & Ht & Hr & Hn).
  cbn [log clock trace] in Hp, Ht.
  exists evs, fin. repeat split; auto.
  rewrite Ht, <- app_assoc. reflexivity.
Qed.

(** With enough fuel in a causal world a loop is never cut short. *)
Lemma polling_not_exhausted W d stop_when t timeout evs t' fuel :
  causal W ->
  polls_needed timeout <= fuel ->
  polling W d stop_when (t + timeout) t evs t' Exhausted ->
  polls evs = fuel -> False.
Proof.
  intros Hc Hfuel H Hn.
  pose proof (polling_polls_le _ _ _ _ _ _ _ _ Hc H). lia.
Qed.

Section PollingWindow.

Variables (W : World) (d : Descriptor) (stop_when : bool) (end_time : Q).
Hypothesis Hcausal : causal W.

(** The probe a loop stops on is made inside the window. *)
Lemma polling_stop_window t evs t' resolved :
  polling W d stop_when end_time t evs t' (Stopped resolved) ->
  exists t_probe,
    (t <= t_probe)%Q /\ (t_probe < end_time)%Q
    /\ t' = (t_probe + probe_cost W)%Q /\ gui W t_probe d = resolved.
Proof.
  destruct Hcausal as (Hp & Hs & _).
  intros H. remember (Stopped resolved) as fin eqn:Hfin.
  induction H; try discriminate.
  - injection Hfin as <-. exists t. repeat split; auto. lra.
  - destruct (IHpolling Hfin) as (tp & Ha & Hb & Hc & Hd).
    exists tp. repeat split; auto. lra.
Qed.

End PollingWindow.

(** *** More fuel changes nothing once a loop has ended by itself *)

Lemma wait_for_control_loop_fuel ct sp depth end_time W fuel :
  forall fuel' s r s',
    fuel <= fuel' ->
    wait_for_control_loop fuel ct sp depth end_time W s = (r, s') ->
    r <> OutOfFuel ->
    wait_for_control_loop fuel' ct sp depth end_time W s = (r, s').
Proof.
  induction fuel as [|fuel IH]; intros fuel' s r s' Hle.
  - intros [= <- <-] Hr. now destruct Hr.
  - destruct fuel' as [|fuel']; [lia|].
    cbn [wait_for_control_loop]. run_step.
    destruct (Qltb (clock s) end_time); run_step; [|auto].
    destruct (gui W (clock s) (mkDescriptor ct sp depth)); run_step; [auto|].
    apply IH. lia.
Qed.

Lemma wait_for_control_to_disappear_loop_fuel ct sp depth end_time W fuel :
  forall fuel' s r s',
    fuel <= fuel' ->
    wait_for_control_to_disappear_loop fuel ct sp depth end_time W s = (r, s') ->
    r <> OutOfFuel ->
    wait_for_control_to_disappear_loop fuel' ct sp depth end_time W s = (r, s').
Proof.
  induction fuel as [|fuel IH]; intros fuel' s r s' Hle.
  - intros [= <- <-] Hr. now destruct Hr.
  - destruct fuel' as [|fuel']; [lia|].
    cbn [wait_for_control_to_disappear_loop]. run_step.
    destruct (Qltb (clock s) end_time); run_step; [|auto].
    destruct (gui W (clock s) (mkDescriptor ct sp depth)); cbn [negb];
      run_step; [|auto].
    apply IH. lia.
Qed.

Lemma wait_for_control_fuel fuel fuel' ct sp search_depth timeout W s r s' :
  fuel <= fuel' ->
  wait_for_control fuel ct sp search_depth timeout W s = (r, s') ->
  r <> OutOfFuel ->
  wait_for_control fuel' ct sp search_depth timeout W s = (r, s').
Proof.
  unfold wait_for_control. run_step. apply wait_for_control_loop_fuel.
Qed.

Lemma wait_for_control_to_disappear_fuel
  fuel fuel' ct sp search_depth timeout W s r s' :
  fuel <= fuel' ->
  wait_for_control_to_disappear fuel ct sp search_depth timeout W s = (r, s') ->
  r <> OutOfFuel ->
  wait_for_control_to_disappear fuel' ct sp search_depth timeout W s = (r, s').
Proof.
  unfold wait_for_control_to_disappear. run_step.
  apply wait_for_control_to_disappear_loop_fuel.
Qed.

(** The rounds of a loop start one probe and one sleep apart: 0.5 apart in
    a world without latency. *)
Lemma polling_readings W d stop_when end_time t evs t' fin :
  polling W d stop_when end_time t evs t' fin ->
  forall k x,
    nth_error (clock_readings evs) k = Some x ->
    (x == t + inject_Z (Z.of_nat k)
               * (probe_cost W + ((1#2) + sleep_lag W)))%Q.
Proof.
  induction 1; intros k x; cbn [clock_readings flat_map app].
  - destruct k as [|[|k]]; cbn [nth_error]; try discriminate.
    intros [= <-]. change (inject_Z (Z.of_nat 0)) with 0%Q. lra.
  - destruct k as [|[|k]]; cbn [nth_error]; try discriminate.
    intros [= <-]. change (inject_Z (Z.of_nat 0)) with 0%Q. lra.
  - destruct k as [|k]; cbn [nth_error].
    + intros [= <-]. change (inject_Z (Z.of_nat 0)) with 0%Q. lra.
    + intros Hk. apply IHpolling in Hk. rewrite Hk.
      rewrite Nat2Z.inj_succ. unfold Z.succ. rewrite inject_Z_plus.
      change (inject_Z 1) with 1%Q. lra.
  - destruct k; discriminate.
Qed.

(** A control that is there from [a] to the deadline is found if [a] lies
    at least one round (a probe and a sleep) before the deadline. *)
Lemma polling_finds_stable W d end_time a t evs t' :
  (t < a + (probe_cost W + ((1#2) + sleep_lag W)))%Q ->
  (a + (probe_cost W + ((1#2) + sleep_lag W)) <= end_time)%Q ->
  (forall u, (a <= u)%Q -> (u < end_time)%Q -> gui W u d <> None) ->
  polling W d true end_time t evs t' Deadline -> False.
Proof.
  intros Ht Ha Hthere H. remember Deadline as fin eqn:Hfin.
  induction H; try discriminate.
  - lra.
  - destruct (Qlt_le_dec t a) as [Hlt|Hge].
    + apply IHpolling; [lra | assumption].
    + apply (Hthere t Hge H). cbn in H0.
      destruct (gui W t d); [discriminate | reflexivity].
Qed.

(** ** Waiting for a control to appear *)

Lemma scripted_world_resolves a b rows t d :
  (a <= t)%Q -> (t < b)%Q -> gui (scripted_world a b rows) t d = Some 1.
Proof.
  intros Ha Hb. cbn.
  rewrite (proj2 (Qle_bool_iff a t) Ha), (proj2 (Qltb_lt t b) Hb).
  reflexivity.
Qed.

(** C1. For every descriptor and timeout, [wait_for_control] reads the clock
    once to fix the deadline and then polls: each round builds the control
    anew, checks it against the tree as it is at that moment with
    [Exists(0, 0)], returns the control bound to the element found as soon
    as a check succeeds, and otherwise sleeps 0.5 before the next round, so
    that round [k] starts [k] times 0.5 (plus what a check takes and the
    sleep oversleeps) after the first.  Leaving out [timeout] is the same
    as passing 30. *)
Theorem wait_for_control_polls fuel ct sp search_depth timeout W s r s' :
  wait_for_control fuel ct sp search_depth timeout W s = (r, s') ->
  let d := mkDescriptor ct sp (opt_arg 1%Z search_depth) in
  (exists evs fin,
      polling W d true (clock s + opt_arg 30%Q timeout) (clock s) evs
        (clock s') fin
      /\ trace s' = (trace s ++ EvTime (clock s) :: evs)%list
      /\ r = appeared d fin
      /\ (forall resolved, fin = Stopped resolved ->
          exists e, resolved = Some e)
      /\ (forall k x,
             nth_error (clock_readings evs) k = Some x ->
             (x == clock s
                   + inject_Z (Z.of_nat k)
                     * (probe_cost W + ((1#2) + sleep_lag W)))%Q))
  /\ wait_for_control fuel ct sp search_depth None
     = wait_for_control fuel ct sp search_depth (Some 30%Q).
Proof.
  intros E d. split; [|reflexivity].
  destruct (wait_for_control_run _ _ _ _ _ _ _ _ _ E)
    as (evs & fin & Hp & Ht & Hr & _).
  exists evs, fin. repeat split; auto.
  - intros resolved ->. apply polling_stopped in Hp.
    destruct resolved as [e|]; [now exists e | discriminate].
  - eapply polling_readings; eauto.
Qed.

Lemma wait_for_control_polls_witness :
  let run := wait_for_control 10 WindowControl frmLogin (Some 2%Z) (Some 2%Q)
               (scripted_world (3#4) 100 []) at_start in
  fst run = Return (mkControl (mkDescriptor WindowControl frmLogin 2) None
                      (Some 1))
  /\ exists evs fin,
      polling (scripted_world (3#4) 100 [])
        (mkDescriptor WindowControl frmLogin 2) true (0 + 2)%Q 0%Q evs
        (clock (snd run)) fin
      /\ trace (snd run) = ([] ++ EvTime 0 :: evs)%list
      /\ fst run = appeared (mkDescriptor WindowControl frmLogin 2) fin.
Proof.
  intros run. split; [reflexivity|].
  destruct (wait_for_control_polls 10 WindowControl frmLogin (Some 2%Z)
              (Some 2%Q) (scripted_world (3#4) 100 []) at_start
              (fst run) (snd run))
    as ((evs & fin & Hp & Ht & Hr & _) & _).
  - reflexivity.
  - exists evs, fin. auto.
Defined.

(** C2. In a causal world and with fuel for the whole wait,
    [wait_for_control] raises exactly when no existence check of the run
    found the control; what it raises is a [TimeoutError] whose message
    carries the [repr] of the search parameters, and different search
    parameters give different messages.  It raises on a clock reading at or
    past the deadline, that reading is its last call, and the error ends
    every caller's continuation. *)
Theorem wait_for_control_timeout fuel ct sp search_depth timeout W s r s' :
  causal W ->
  polls_needed (opt_arg 30%Q timeout) <= fuel ->
  wait_for_control fuel ct sp search_depth timeout W s = (r, s') ->
  exists evs,
    trace s' = (trace s ++ EvTime (clock s) :: evs)%list
    /\ (r = Raise (TimeoutError (not_found_message sp))
        <-> existsb (answered true) evs = false)
    /\ (forall e, r = Raise e ->
        e = TimeoutError
              ("Control with parameters " ++ Py.repr_dict sp
                 ++ " was not found within the timeout period.")
        /\ (clock s + opt_arg 30%Q timeout <= clock s')%Q
        /\ exists before, evs = (before ++ [EvTime (clock s')])%list)
    /\ (forall B (k : Control -> M B) e, r = Raise e ->
        bind (wait_for_control fuel ct sp search_depth timeout) k W s
        = (Raise e, s'))
    /\ (forall sp', not_found_message sp' = not_found_message sp -> sp' = sp).
Proof.
  intros Hc Hfuel E.
  destruct (wait_for_control_run _ _ _ _ _ _ _ _ _ E)
    as (evs & fin & Hp & Ht & Hr & Hn).
  exists evs. split; [exact Ht|].
  destruct fin as [resolved| |]; cbn [appeared search_params] in Hr; subst r.
  - apply polling_stop in Hp. destruct Hp as (Hany & _).
    split; [split; [discriminate|]|].
    + intros Hno. rewrite Hno in Hany. discriminate.
    + split; [discriminate|]. split; [discriminate|].
      intros sp' Hmsg. exact (not_found_message_inj _ _ Hmsg).
  - apply polling_deadline in Hp. destruct Hp as (Hno & Hlast & Hle).
    split; [split; auto|]. split; [|split].
    + intros e' [= <-]. auto.
    + intros B k e' [= <-]. now apply bind_Raise.
    + intros sp' Hmsg. exact (not_found_message_inj _ _ Hmsg).
  - exfalso. eapply polling_not_exhausted; eauto.
Qed.

Lemma wait_for_control_timeout_witness :
  let run := wait_for_control 10 WindowControl frmLogin (Some 2%Z) (Some 1%Q)
               (scripted_world 5 100 []) at_start in
  fst run
  = Raise (TimeoutError
      "Control with parameters {'AutomationId': 'frmLogin'} was not found within the timeout period.")
  /\ exists evs,
      trace (snd run) = ([] ++ EvTime 0 :: evs)%list
      /\ existsb (answered true) evs = false.
Proof.
  intros run. split; [reflexivity|].
  destruct (wait_for_control_timeout 10 WindowControl frmLogin (Some 2%Z)
              (Some 1%Q) (scripted_world 5 100 []) at_start
              (fst run) (snd run))
    as (evs & Ht & Hiff & _).
  - unfold causal; cbn; lra.
  - vm_compute; lia.
  - reflexivity.
  - exists evs. split; [exact Ht|]. apply Hiff. reflexivity.
Defined.

(** C3, as the code has it.  In a causal world and with fuel for the whole
    wait, [wait_for_control] terminates, and with the same result whatever
    further fuel it is given.  It returns a handle only from a
    probe made inside the window, so less than the timeout plus the time of
    that one probe after invocation, hence within the timeout plus 0.5 when
    a probe takes at most 0.5; and it does return one for every descriptor
    that resolves from some moment on until the deadline, if that moment
    lies at least one round (a probe and the sleep of 0.5) before the
    deadline.  It raises only on a clock reading at or past the deadline,
    never before, and it does raise when no moment of the window resolves
    the descriptor. *)
Theorem wait_for_control_terminates fuel ct sp search_depth timeout W s r s' :
  causal W ->
  polls_needed (opt_arg 30%Q timeout) <= fuel ->
  wait_for_control fuel ct sp search_depth timeout W s = (r, s') ->
  let d := mkDescriptor ct sp (opt_arg 1%Z search_depth) in
  let timeout := opt_arg 30%Q timeout in
  let round := (probe_cost W + ((1#2) + sleep_lag W))%Q in
  r <> OutOfFuel
  /\ (forall fuel', fuel <= fuel' ->
      wait_for_control fuel' ct sp search_depth (Some timeout) W s = (r, s'))
  /\ (forall c, r = Return c ->
      (exists t_probe e,
          (clock s <= t_probe)%Q /\ (t_probe < clock s + timeout)%Q
          /\ gui W t_probe d = Some e
          /\ c = mkControl d None (Some e)
          /\ clock s' = (t_probe + probe_cost W)%Q)
      /\ (clock s' < clock s + timeout + probe_cost W)%Q
      /\ ((probe_cost W <= 1#2)%Q ->
          (clock s' <= clock s + timeout + (1#2))%Q))
  /\ (forall a,
         (clock s <= a)%Q -> (a + round <= clock s + timeout)%Q ->
         (forall t, (a <= t)%Q -> (t < clock s + timeout)%Q ->
                    gui W t d <> None) ->
         exists c, r = Return c)
  /\ (forall e, r = Raise e -> (clock s + timeout <= clock s')%Q)
  /\ ((forall t, (clock s <= t)%Q -> (t < clock s + timeout)%Q ->
       gui W t d = None) ->
      r = Raise (TimeoutError (not_found_message sp))).
Proof.
  intros Hc Hfuel E d T round.
  destruct (wait_for_control_run _ _ _ _ _ _ _ _ _ E)
    as (evs & fin & Hp & Ht & Hr & Hn).
  fold d in Hp, Hr. fold T in Hp.
  assert (Hterm : r <> OutOfFuel).
  { intros ->. destruct fin; try discriminate.
    eapply polling_not_exhausted; eauto. }
  split; [exact Hterm|]. split.
  { intros fuel' Hle.
    change (wait_for_control fuel' ct sp search_depth timeout W s = (r, s')).
    eapply wait_for_control_fuel; eauto. }
  destruct fin as [resolved| |]; cbn [appeared search_params] in Hr; subst r.
  - pose proof (polling_stopped _ _ _ _ _ _ _ _ Hp) as Hsome.
    destruct (polling_stop_window _ _ _ _ Hc _ _ _ _ Hp)
      as (tp & Hlo & Hhi & Hclock & Hgui).
    destruct resolved as [e|]; [|discriminate].
    split; [|split; [|split; [discriminate|]]].
    + intros c [= <-]. split; [|split].
      * exists tp, e. auto.
      * rewrite Hclock. lra.
      * intros Hcost. rewrite Hclock. lra.
    + intros a _ _ _. eauto.
    + intros Hnever. rewrite (Hnever tp Hlo Hhi) in Hgui. discriminate.
  - split; [discriminate|]. split; [|split].
    + intros a Hlo Hhi Hthere. exfalso.
      destruct Hc as (Hpc & Hsl & _).
      apply (polling_finds_stable _ _ _ a _ _ _) with (4 := Hp); auto.
      lra.
    + intros e _. now apply polling_deadline in Hp.
    + reflexivity.
  - now destruct Hterm.
Qed.

Lemma wait_for_control_terminates_witness :
  let run := wait_for_control 10 WindowControl frmLogin (Some 2%Z) (Some 2%Q)
               (scripted_world (3#4) 100 []) at_start in
  fst run <> OutOfFuel
  /\ (clock (snd run) <= 0 + 2 + (1#2))%Q.
Proof.
  intros run.
  destruct (wait_for_control_terminates 10 WindowControl frmLogin (Some 2%Z)
              (Some 2%Q) (scripted_world (3#4) 100 []) at_start
              (fst run) (snd run))
    as (Hterm & _ & Hret & _).
  - unfold causal; cbn; lra.
  - vm_compute; lia.
  - reflexivity.
  - split; [exact Hterm|].
    destruct (Hret _ eq_refl) as (_ & _ & Hbound).
    apply Hbound. cbn. lra.
Defined.

(** C3, as stated, fails.  The control below appears 0.75 after invocation,
    inside a timeout window of 1, and stays; the polls at 0 and 0.5 miss it
    and the next reading of the clock is the deadline itself, so the wait
    raises and no amount of fuel makes it return a handle. *)
Lemma wait_for_control_misses_late_control :
  let W := scripted_world (3#4) 100 [] in
  let d := mkDescriptor WindowControl frmLogin 2 in
  let wait fuel :=
    wait_for_control fuel WindowControl frmLogin (Some 2%Z) (Some 1%Q)
      W at_start in
  (forall t, (3#4 <= t)%Q -> (t < 100)%Q -> gui W t d = Some 1)
  /\ (exists t, (0 <= t)%Q /\ (t < 0 + 1)%Q /\ gui W t d = Some 1)
  /\ (forall fuel c, fst (wait fuel) <> Return c)
  /\ fst (wait 3)
     = Raise (TimeoutError
         "Control with parameters {'AutomationId': 'frmLogin'} was not found within the timeout period.")
  /\ (clock (snd (wait 3%nat)) == 1)%Q.
Proof.
  intros W d wait. split; [|split; [|split; [|split]]].
  - intros t Hlo Hhi. now apply scripted_world_resolves.
  - exists (3#4)%Q. repeat split; try reflexivity; lra.
  - intros [|[|[|fuel]]] c; vm_compute; discriminate.
  - reflexivity.
  - reflexivity.
Qed.

(** ** Waiting for a control to disappear *)

(** C4. [wait_for_control_to_disappear] runs the same polling loop with the
    test turned around: rounds 0.5 apart, each with one [Exists(0, 0)]; it
    returns [True] on the first check that fails and raises [TimeoutError]
    when every check made before the deadline succeeded.  [True] is the
    only value it returns.  Leaving out [timeout] is the same as passing
    30. *)
Theorem wait_for_control_to_disappear_dual
  fuel ct sp search_depth timeout W s r s' :
  causal W ->
  polls_needed (opt_arg 30%Q timeout) <= fuel ->
  wait_for_control_to_disappear fuel ct sp search_depth timeout W s = (r, s') ->
  let d := mkDescriptor ct sp (opt_arg 1%Z search_depth) in
  (exists evs fin,
      polling W d false (clock s + opt_arg 30%Q timeout) (clock s) evs
        (clock s') fin
      /\ trace s' = (trace s ++ EvTime (clock s) :: evs)%list
      /\ r = disappeared d fin
      /\ (forall k x,
             nth_error (clock_readings evs) k = Some x ->
             (x == clock s
                   + inject_Z (Z.of_nat k)
                     * (probe_cost W + ((1#2) + sleep_lag W)))%Q)
      /\ (r = Return true <-> existsb (answered false) evs = true)
      /\ (r = Raise (TimeoutError (not_gone_message sp))
          <-> existsb (answered false) evs = false))
  /\ (forall v, r = Return v -> v = true)
  /\ (forall e, r = Raise e ->
      e = TimeoutError
            ("Control with parameters " ++ Py.repr_dict sp
               ++ " did not disappear within the timeout period.")
      /\ (clock s + opt_arg 30%Q timeout <= clock s')%Q)
  /\ r <> OutOfFuel
  /\ wait_for_control_to_disappear fuel ct sp search_depth None
     = wait_for_control_to_disappear fuel ct sp search_depth (Some 30%Q).
Proof.
  intros Hc Hfuel E d.
  destruct (wait_for_control_to_disappear_run _ _ _ _ _ _ _ _ _ E)
    as (evs & fin & Hp & Ht & Hr & Hn).
  fold d in Hp, Hr.
  pose proof (polling_readings _ _ _ _ _ _ _ _ Hp) as Hrounds.
  destruct fin as [resolved| |]; cbn [disappeared search_params] in Hr; subst r.
  - pose proof (polling_stop _ _ _ _ _ _ _ _ Hp) as (Hany & _).
    split; [exists evs, (Stopped resolved)|]; repeat split;
      auto; try discriminate.
    + intros Hno. rewrite Hno in Hany. discriminate.
    + now intros v [= <-].
  - pose proof (polling_deadline _ _ _ _ _ _ _ Hp) as (Hno & _ & Hle).
    split; [exists evs, Deadline|]; repeat split; auto; try discriminate.
    + intros Hany. rewrite Hno in Hany. discriminate.
    + match goal with H : Raise _ = Raise _ |- _ => injection H as <- end.
      reflexivity.
  - exfalso. eapply polling_not_exhausted; eauto.
Qed.

Lemma wait_for_control_to_disappear_dual_witness :
  let run := wait_for_control_to_disappear 10 WindowControl frmLogin
               (Some 2%Z) (Some 2%Q) (scripted_world 0 (3#4) []) at_start in
  fst run = Return true
  /\ fst run <> OutOfFuel
  /\ forall v, fst run = Return v -> v = true.
Proof.
  intros run. split; [reflexivity|].
  destruct (wait_for_control_to_disappear_dual 10 WindowControl frmLogin
              (Some 2%Z) (Some 2%Q) (scripted_world 0 (3#4) []) at_start
              (fst run) (snd run))
    as (_ & Htrue & _ & Hterm & _).
  - unfold causal; cbn; lra.
  - vm_compute; lia.
  - reflexivity.
  - split; assumption.
Defined.

(** ** Events of straight-line code *)

Section Emits.

Context {W : World} {P : Event -> Prop}.

Lemma emits_ret {A} (a : A) : emits W P (ret a).
Proof. intros s r s' [= <- <-]. exists []. now rewrite app_nil_r. Qed.

Lemma emits_raise {A} e : emits W P (@raise A e).
Proof. intros s r s' [= <- <-]. exists []. now rewrite app_nil_r. Qed.

Lemma emits_bind {A B} (m : M A) (k : A -> M B) :
  emits W P m -> (forall a, emits W P (k a)) -> emits W P (bind m k).
Proof.
  intros Hm Hk s r s'. unfold bind.
  destruct (m W s) as [[a|e|] s1] eqn:E; destruct (Hm _ _ _ E) as (evs & Ht & Hall).
  - intros E2. destruct (Hk a _ _ _ E2) as (evs2 & Ht2 & Hall2).
    exists (evs ++ evs2)%list. rewrite Ht2, Ht, app_assoc.
    split; [reflexivity | now apply Forall_app].
  - intros [= <- <-]. eauto.
  - intros [= <- <-]. eauto.
Qed.

Lemma emits_one {A} (m : M A) ev :
  (forall s, exists a dt,
      m W s = (Return a, mkState (clock s + dt)%Q (trace s ++ [ev])%list)
      \/ m W s = (Return a, mkState (clock s) (trace s ++ [ev])%list)) ->
  P ev -> emits W P m.
Proof.
  intros Hm Hev s r s' E. destruct (Hm s) as (a & dt & [E'|E']);
    rewrite E' in E; injection E as <- <-; exists [ev]; auto.
Qed.

Lemma emits_the_app_window self method : emits W P (the_app_window self method).
Proof.
  unfold the_app_window. destruct (app_window self);
    [apply emits_ret | apply emits_raise].
Qed.

Lemma emits_SendKeys c text wt :
  P (EvSendKeys c text wt) -> emits W P (SendKeys c text wt).
Proof. apply emits_one. intros s. exists tt, (action_cost W). now left. Qed.

Lemma emits_SetFocus c : P (EvSetFocus c) -> emits W P (SetFocus c).
Proof. apply emits_one. intros s. exists tt, (action_cost W). now left. Qed.

Lemma emits_Click c mv wt : P (EvClick c mv wt) -> emits W P (Click c mv wt).
Proof. apply emits_one. intros s. exists tt, (action_cost W). now left. Qed.

Lemma emits_DoubleClick c mv wt :
  P (EvDoubleClick c mv wt) -> emits W P (DoubleClick c mv wt).
Proof. apply emits_one. intros s. exists tt, (action_cost W). now left. Qed.

Lemma emits_os_startfile path :
  P (EvStartFile path) -> emits W P (os_startfile path).
Proof. apply emits_one. intros s. exists tt, 0%Q. now right. Qed.

Lemma emits_log_trace msg : P (EvLogTrace msg) -> emits W P (log_trace msg).
Proof. apply emits_one. intros s. exists tt, 0%Q. now right. Qed.

Lemma emits_lookup {A} (r : Exn + A) : emits W P (lookup r).
Proof. destruct r; [apply emits_raise | apply emits_ret]. Qed.

Lemma polling_events d stop_when end_time t evs t' fin :
  polling W d stop_when end_time t evs t' fin ->
  (forall x, P (EvTime x)) ->
  (forall found, P (EvExists d 0 0 found)) ->
  P (EvSleep (1#2)) ->
  Forall P evs.
Proof.
  intros H Htime Hprobe Hsleep. induction H; repeat constructor; auto.
Qed.

Lemma emits_wait_for_control fuel ct sp search_depth timeout :
  (forall x, P (EvTime x)) ->
  (forall found,
      P (EvExists (mkDescriptor ct sp (opt_arg 1%Z search_depth)) 0 0 found)) ->
  P (EvSleep (1#2)) ->
  emits W P (wait_for_control fuel ct sp search_depth timeout).
Proof.
  intros Htime Hprobe Hsleep s r s' E.
  destruct (wait_for_control_run _ _ _ _ _ _ _ _ _ E)
    as (evs & fin & Hp & Ht & _).
  exists (EvTime (clock s) :: evs). split; [exact Ht|].
  constructor; [apply Htime|]. eapply polling_events; eauto.
Qed.

Lemma emits_wait_for_control_to_disappear fuel ct sp search_depth timeout :
  (forall x, P (EvTime x)) ->
  (forall found,
      P (EvExists (mkDescriptor ct sp (opt_arg 1%Z search_depth)) 0 0 found)) ->
  P (EvSleep (1#2)) ->
  emits W P (wait_for_control_to_disappear fuel ct sp search_depth timeout).
Proof.
  intros Htime Hprobe Hsleep s r s' E.
  destruct (wait_for_control_to_disappear_run _ _ _ _ _ _ _ _ _ E)
    as (evs & fin & Hp & Ht & _).
  exists (EvTime (clock s) :: evs). split; [exact Ht|].
  constructor; [apply Htime|]. eapply polling_events; eauto.
Qed.

End Emits.

(** ** The database check *)

(** What [_is_journal_created] does, in one equation: it connects, sends
    the query text, and answers whether any row came back. *)
Lemma _is_journal_created_run self W s :
  _is_journal_created self W s
  = (match database W (clock s) (connection_string self)
             (journal_query_at W self (clock s)) with
     | Rows _ rows => Return (match rows with [] => false | _ :: _ => true end)
     | DbError msg => Raise (DatabaseError msg)
     end,
     mkState (clock s)
       (trace s ++ [EvConnect (connection_string self) true;
                    EvExecute (journal_query_at W self (clock s)) []])%list).
Proof.
  unfold _is_journal_created, journal_query_at, bind, datetime_now,
    pyodbc_connect, execute, ret.
  cbn [log clock trace dsn].
  destruct (database W (clock s) (connection_string self) _) as [cols rows|msg].
  - cbn [fetchall description]. unfold log. cbn [clock trace].
    rewrite <- app_assoc. destruct rows; reflexivity.
  - unfold log. cbn [clock trace]. rewrite <- app_assoc. reflexivity.
Qed.

(** ** [create_journal] *)

Lemma bind_assoc {A B C} (m : M A) (f : A -> M B) (g : B -> M C) W s :
  bind (bind m f) g W s = bind m (fun a => bind (f a) g) W s.
Proof. unfold bind. destruct (m W s) as [[a| |] s1]; reflexivity. Qed.

Lemma bind_ext {A B} (m : M A) (f g : A -> M B) W s :
  (forall a W s, f a W s = g a W s) -> bind m f W s = bind m g W s.
Proof.
  intros H. unfold bind. destruct (m W s) as [[a| |] s1]; auto.
Qed.

Lemma create_journal_split fuel self W s :
  create_journal fuel self W s
  = bind (create_journal_click fuel self)
      (fun _ =>
         bind (wait_for_control_to_disappear fuel WindowControl frmViewBase
                 (Some 2%Z) (Some 60%Q))
           (fun _ =>
              bind (_is_journal_created self)
                (fun created =>
                   if negb created
                   then raise (ValueError value_error_message)
                   else ret tt))) W s.
Proof.
  unfold create_journal, create_journal_click, frmViewBase.
  rewrite bind_assoc. apply bind_ext; intros w W1 s1.
  rewrite bind_assoc. apply bind_ext; intros _ W2 s2.
  rewrite bind_assoc. apply bind_ext; intros c W3 s3.
  reflexivity.
Qed.

Lemma create_journal_click_no_db fuel self W :
  emits W (fun ev => is_db_call ev = false) (create_journal_click fuel self).
Proof.
  unfold create_journal_click.
  apply emits_bind; [apply emits_the_app_window | intros w].
  apply emits_bind; [now apply emits_SendKeys | intros _].
  apply emits_bind; [now apply emits_wait_for_control | intros c].
  now apply emits_Click.
Qed.

(** C5. Once [create_journal] has clicked the store button, if the window
    [frmViewBase] resolves at every moment of the 60 units that follow, the
    operation raises the [TimeoutError] of the wait for disappearance, not
    before those 60 units have passed, and no call to the database is made:
    [_is_journal_created] is not reached. *)
Theorem create_journal_dialog_stays fuel self W s s1 :
  causal W ->
  polls_needed 60 <= fuel ->
  create_journal_click fuel self W s = (Return tt, s1) ->
  (forall t, (clock s1 <= t)%Q -> (t < clock s1 + 60)%Q ->
             gui W t (mkDescriptor WindowControl frmViewBase 2) <> None) ->
  exists s2 evs,
    create_journal fuel self W s
    = (Raise (TimeoutError
         "Control with parameters {'AutomationId': 'frmViewBase'} did not disappear within the timeout period."),
       s2)
    /\ (clock s1 + 60 <= clock s2)%Q
    /\ trace s2 = (trace s ++ evs)%list
    /\ existsb is_db_call evs = false.
Proof.
  intros Hc Hfuel Hclick Hstays.
  destruct (wait_for_control_to_disappear fuel WindowControl frmViewBase
              (Some 2%Z) (Some 60%Q) W s1) as [r s2] eqn:Hwait.
  destruct (wait_for_control_to_disappear_run _ _ _ _ _ _ _ _ _ Hwait)
    as (evs & fin & Hp & Ht & Hr & Hn).
  cbn [opt_arg] in Hp, Hr.
  destruct (create_journal_click_no_db fuel self W _ _ _ Hclick)
    as (evs0 & Ht0 & Hall0).
  assert (Hquiet : existsb is_db_call (evs0 ++ EvTime (clock s1) :: evs) = false).
  { rewrite existsb_app. cbn [existsb is_db_call orb].
    replace (existsb is_db_call evs0) with false.
    - cbn [orb]. apply not_true_is_false. rewrite existsb_exists.
      intros (ev & Hin & Hdb).
      assert (Hq : Forall (fun ev => is_db_call ev = false) evs).
      { eapply polling_events; eauto. }
      rewrite Forall_forall in Hq. rewrite (Hq _ Hin) in Hdb. discriminate.
    - symmetry. apply not_true_is_false. rewrite existsb_exists.
      intros (ev & Hin & Hdb). rewrite Forall_forall in Hall0.
      rewrite (Hall0 _ Hin) in Hdb. discriminate. }
  destruct fin as [resolved| |].
  - exfalso.
    pose proof (polling_stopped _ _ _ _ _ _ _ _ Hp) as Hnone.
    destruct (polling_stop_window _ _ _ _ Hc _ _ _ _ Hp)
      as (tp & Hlo & Hhi & _ & Hgui).
    apply (Hstays tp Hlo Hhi). rewrite Hgui.
    destruct resolved; [discriminate | reflexivity].
  - exists s2, (evs0 ++ EvTime (clock s1) :: evs)%list.
    apply polling_deadline in Hp. destruct Hp as (_ & _ & Hle).
    split; [|split; [exact Hle | split; [|exact Hquiet]]].
    + rewrite create_journal_split.
      rewrite (bind_Return _ _ _ _ _ _ Hclick).
      apply bind_Raise. rewrite Hwait, Hr. reflexivity.
    + rewrite Ht, Ht0, <- app_assoc. reflexivity.
  - exfalso. eapply polling_not_exhausted; eauto.
Qed.

Lemma create_journal_dialog_stays_witness :
  let W := scripted_world 0 100 [] in
  let self := logged_in_app "010101-0101" in
  exists s2 evs,
    create_journal 121 self W at_start
    = (Raise (TimeoutError
         "Control with parameters {'AutomationId': 'frmViewBase'} did not disappear within the timeout period."),
       s2)
    /\ (0 + 60 <= clock s2)%Q
    /\ trace s2 = ([] ++ evs)%list
    /\ existsb is_db_call evs = false.
Proof.
  intros W self.
  apply (create_journal_dialog_stays 121 self W at_start
           (snd (create_journal_click 121 self W at_start))).
  - unfold causal; cbn; lra.
  - vm_compute; lia.
  - reflexivity.
  - intros t Hlo Hhi.
    assert (Hclock : (clock (snd (create_journal_click 121 self W at_start))
                      == 0)%Q) by reflexivity.
    rewrite Hclock in Hlo, Hhi. unfold W.
    rewrite scripted_world_resolves; [discriminate | lra | lra].
Defined.

(** ** [str.replace] with the hyphen *)

Lemma replace_hyphen s :
  Py.replace s "-" EmptyString = remove_char "-"%char s.
Proof.
  unfold Py.replace. induction s as [|x s IH]; [reflexivity|].
  cbn [Py.replace_scan Py.startswith remove_char String.length Nat.sub].
  destruct (Ascii.eqb "-"%char x) eqn:E.
  - rewrite Ascii.eqb_sym, E. cbn. exact IH.
  - rewrite Ascii.eqb_sym, E. cbn. now rewrite IH.
Qed.

Lemma remove_char_absent c s : Py.contains_char c (remove_char c s) = false.
Proof.
  induction s as [|x s IH]; [reflexivity|]. cbn.
  destruct (Ascii.eqb x c) eqn:E; [exact IH|].
  cbn. now rewrite E, IH.
Qed.

Lemma remove_char_keeps c s :
  Py.contains_char c s = false -> remove_char c s = s.
Proof.
  induction s as [|x s IH]; [reflexivity|]. cbn.
  destruct (Ascii.eqb x c); [discriminate|].
  cbn. intros H. now rewrite IH.
Qed.

Lemma strip_punctuation_only_hyphens s :
  only_hyphens s = true ->
  spec_strip_punctuation s = remove_char "-"%char s.
Proof.
  induction s as [|x s IH]; [reflexivity|]. cbn.
  intros H. apply andb_true_iff in H. destruct H as (Hx & Hs).
  rewrite (IH Hs).
  destruct (Ascii.eqb x "-"%char) eqn:E.
  - apply Ascii.eqb_eq in E. subst x. reflexivity.
  - rewrite orb_false_r in Hx. apply negb_true_iff in Hx. now rewrite Hx.
Qed.

(** ** [open_patient] *)

Lemma bind_Return_inv {A B} (m : M A) (k : A -> M B) W s b s' :
  bind m k W s = (Return b, s') ->
  exists a s1, m W s = (Return a, s1) /\ k a W s1 = (Return b, s').
Proof.
  unfold bind. destruct (m W s) as [[a| |] s1]; try discriminate. eauto.
Qed.

(** C7, as the code has it.  The last step of [open_patient] waits for a
    tab item named by the identifier without its hyphens, every other
    character kept in place: no existence check of the run looks for any
    other tab item, and when [open_patient] returns, its last call is the
    check that found this one.  For "010101-0101" the name is
    "0101010101".  The name is the identifier with punctuation stripped
    whenever the hyphen is the only punctuation in the identifier. *)
Theorem open_patient_waits_for_tab fuel self W s r s' :
  open_patient fuel self W s = (r, s') ->
  let label := Py.replace (ssn self) "-" EmptyString in
  let tab := mkDescriptor TabItemControl [("Name", label)] 4 in
  label = remove_char "-"%char (ssn self)
  /\ Py.contains_char "-"%char label = false
  /\ (exists evs,
         trace s' = (trace s ++ evs)%list
         /\ Forall (fun ev => forall d m i found,
                        ev = EvExists d m i found ->
                        control_type d = TabItemControl -> d = tab) evs)
  /\ (r = Return tt ->
      exists before, trace s' = (before ++ [EvExists tab 0 0 true])%list)
  /\ (only_hyphens (ssn self) = true ->
      label = spec_strip_punctuation (ssn self))
  /\ Py.replace "010101-0101" "-" EmptyString = "0101010101".
Proof.
  intros E label tab.
  split; [apply replace_hyphen|].
  split; [unfold label; rewrite replace_hyphen; apply remove_char_absent|].
  split; [|split; [|split; [|reflexivity]]].
  - revert E. generalize s r s'.
    change (emits W (fun ev => forall d m i found,
                         ev = EvExists d m i found ->
                         control_type d = TabItemControl -> d = tab)
              (open_patient fuel self)).
    unfold open_patient.
    apply emits_bind; [apply emits_the_app_window | intros w].
    apply emits_bind; [apply emits_SendKeys; discriminate | intros _].
    apply emits_bind;
      [apply emits_wait_for_control; try discriminate;
       intros found d m i f [= <- _ _ _]; discriminate | intros _].
    apply emits_bind; [apply emits_the_app_window | intros w'].
    apply emits_bind; [apply emits_SetFocus; discriminate | intros _].
    apply emits_bind; [apply emits_SendKeys; discriminate | intros _].
    apply emits_bind; [apply emits_SendKeys; discriminate | intros _].
    apply emits_bind;
      [apply emits_wait_for_control; try discriminate;
       intros found d m i f [= <- _ _ _]; discriminate | intros c].
    apply emits_bind; [apply emits_DoubleClick; discriminate | intros _].
    apply emits_bind;
      [apply emits_wait_for_control; try discriminate;
       intros found d m i f [= <- _ _ _]; reflexivity | intros _].
    apply emits_ret.
  - intros ->. unfold open_patient in E.
    do 9 (apply bind_Return_inv in E; destruct E as (? & ? & _ & E)).
    apply bind_Return_inv in E. destruct E as (c & s1 & Hwait & E).
    injection E as <-.
    destruct (wait_for_control_run _ _ _ _ _ _ _ _ _ Hwait)
      as (evs & fin & Hp & Ht & Hr & _).
    destruct fin as [resolved| |]; try discriminate.
    destruct (polling_stop _ _ _ _ _ _ _ _ Hp) as (_ & (before & -> & _) & _).
    match type of Ht with
    | _ = (trace ?s0 ++ _)%list =>
        exists (trace s0 ++ EvTime (clock s0) :: before)%list
    end.
    rewrite Ht, <- app_assoc. reflexivity.
  - intros Hh. unfold label.
    now rewrite replace_hyphen, strip_punctuation_only_hyphens.
Qed.

Lemma open_patient_waits_for_tab_witness :
  let run := open_patient 5 (logged_in_app "010101-0101")
               (scripted_world 0 100 []) at_start in
  fst run = Return tt
  /\ exists before,
      trace (snd run)
      = (before
           ++ [EvExists
                 (mkDescriptor TabItemControl [("Name", "0101010101")] 4)
                 0 0 true])%list.
Proof.
  intros run. split; [reflexivity|].
  destruct (open_patient_waits_for_tab 5 (logged_in_app "010101-0101")
              (scripted_world 0 100 []) at_start (fst run) (snd run))
    as (_ & _ & _ & Hlast & _).
  - reflexivity.
  - apply Hlast. reflexivity.
Defined.

(** C7, as stated, fails.  For the identifier "01.01.01-0101"
    [open_patient] waits for, and here finds, the tab "01.01.010101": the
    dots are still there, while stripping punctuation gives
    "0101010101". *)
Lemma open_patient_keeps_other_punctuation :
  let run := open_patient 5 (logged_in_app "01.01.01-0101")
               (scripted_world 0 100 []) at_start in
  fst run = Return tt
  /\ last (trace (snd run)) (EvSleep 0)
     = EvExists (mkDescriptor TabItemControl [("Name", "01.01.010101")] 4)
         0 0 true
  /\ spec_strip_punctuation "01.01.01-0101" = "0101010101"
  /\ "01.01.010101" <> spec_strip_punctuation "01.01.01-0101".
Proof.
  intros run. repeat split; try reflexivity. discriminate.
Qed.

(** ** The query text *)

Lemma journal_query_parts ssn filename :
  journal_query ssn filename
  = query_head ++ Py.replace ssn "-" EmptyString ++ query_mid ++ filename
      ++ query_tail.
Proof. reflexivity. Qed.









(** ** The query on tables *)









(** C9. The text handed to [execute] is the f-string with the identifier,
    hyphens removed, pasted between the quotes after [c.cpr =] and the file
    name pasted likewise: whatever the identifier is, it stands verbatim in
    the executed text, and [execute] is given no parameter to bind. *)
Theorem journal_query_interpolates self W s :
  exists filename,
    trace (snd (_is_journal_created self W s))
    = (trace s
         ++ [EvConnect (connection_string self) true;
             EvExecute
               (query_head ++ Py.replace (ssn self) "-" EmptyString
                  ++ query_mid ++ filename ++ query_tail) []])%list
    /\ filename
       = "Udskrift af journal " ++ strftime_dmY (calendar W (clock s))
           ++ ".pdf"
    /\ Py.replace (ssn self) "-" EmptyString
       = remove_char "-"%char (ssn self)
    /\ forall sql bound,
        In (EvExecute sql bound)
          (skipn (List.length (trace s))
             (trace (snd (_is_journal_created self W s)))) ->
        bound = []
        /\ exists before after,
            sql = before ++ remove_char "-"%char (ssn self) ++ after.
Proof.
  exists ("Udskrift af journal " ++ strftime_dmY (calendar W (clock s))
            ++ ".pdf").
  rewrite _is_journal_created_run. cbn [snd trace].
  unfold journal_query_at. rewrite journal_query_parts.
  split; [reflexivity|]. split; [reflexivity|].
  split; [apply replace_hyphen|].
  intros sql bound. rewrite skipn_app, skipn_all, Nat.sub_diag.
  cbn [app skipn]. intros [H|[H|[]]]; [discriminate H|].
  assert (Hb : bound = []) by congruence.
  split; [exact Hb|]. rewrite <- replace_hyphen. subst bound.
  exists query_head,
    (query_mid
       ++ ("Udskrift af journal " ++ strftime_dmY (calendar W (clock s))
             ++ ".pdf") ++ query_tail).
  injection H as <-. reflexivity.
Qed.

(** An identifier with a quote in it changes what the database is asked:
    the text is no longer the journal query for any identifier. *)
Example journal_query_injection :
  read_journal_query
    (journal_query "x' OR '1'='1" "Udskrift af journal 05-03-2024.pdf")
  = None
  /\ read_journal_query
       (journal_query "010101-0101" "Udskrift af journal 05-03-2024.pdf")
     = Some ("0101010101", "Udskrift af journal 05-03-2024.pdf").
Proof. split; reflexivity. Qed.

(** ** [process] *)

Lemma emits_bind_post {A B} W P (Q : A -> Prop) (m : M A) (k : A -> M B) :
  emits W P m ->
  (forall s a s', m W s = (Return a, s') -> Q a) ->
  (forall a, Q a -> emits W P (k a)) ->
  emits W P (bind m k).
Proof.
  intros Hm HQ Hk s r s'. unfold bind.
  destruct (m W s) as [[a|e|] s1] eqn:E;
    destruct (Hm _ _ _ E) as (evs & Ht & Hall).
  - intros E2. destruct (Hk a (HQ _ _ _ E) _ _ _ E2) as (evs2 & Ht2 & Hall2).
    exists (evs ++ evs2)%list. rewrite Ht2, Ht, app_assoc.
    split; [reflexivity | now apply Forall_app].
  - intros [= <- <-]. eauto.
  - intros [= <- <-]. eauto.
Qed.

Lemma emits_bind_ret {A B} W P (a : A) (k : A -> M B) :
  emits W P (k a) -> emits W P (bind (ret a) k).
Proof. intros H s r s' E. exact (H s r s' E). Qed.

Lemma wait_for_control_returns fuel ct sp search_depth timeout W s c s' :
  wait_for_control fuel ct sp search_depth timeout W s = (Return c, s') ->
  exists e,
    c = mkControl (mkDescriptor ct sp (opt_arg 1%Z search_depth)) None (Some e).
Proof.
  intros E.
  destruct (wait_for_control_run _ _ _ _ _ _ _ _ _ E)
    as (evs & fin & Hp & _ & Hr & _).
  destruct fin as [resolved| |]; try discriminate.
  injection Hr as ->. apply polling_stopped in Hp.
  destruct resolved as [e|]; [now exists e | discriminate].
Qed.

(** [login] changes nothing of the object but its window, which becomes
    the client window. *)
Lemma login_result fuel self W s self' s' :
  login fuel self W s = (Return self', s') ->
  ssn self' = ssn self
  /\ exists e,
      app_window self'
      = Some (mkControl
                (mkDescriptor WindowControl [("AutomationId", "frmClient")] 2)
                None (Some e)).
Proof.
  unfold login. intros E.
  do 8 (apply bind_Return_inv in E; destruct E as (? & ? & _ & E)).
  apply bind_Return_inv in E. destruct E as (w & s1 & Hwait & E).
  injection E as <- _. split; [reflexivity|].
  apply wait_for_control_returns in Hwait. destruct Hwait as (e & ->).
  now exists e.
Qed.

Lemma emits_is_journal_created W P self :
  (forall cs, P (EvConnect cs true)) ->
  (forall filename, P (EvExecute (journal_query (ssn self) filename) [])) ->
  emits W P (_is_journal_created self).
Proof.
  intros Hc He s r s' E. rewrite _is_journal_created_run in E.
  injection E as _ <-. eexists. split; [reflexivity|].
  repeat constructor; [apply Hc | apply He].
Qed.

Ltac emits_step :=
  first
    [ apply emits_ret
    | apply emits_raise
    | apply emits_lookup
    | apply emits_SendKeys
    | apply emits_SetFocus
    | apply emits_Click
    | apply emits_DoubleClick
    | apply emits_os_startfile
    | apply emits_log_trace
    | apply emits_wait_for_control
    | apply emits_wait_for_control_to_disappear ].

Ltac side :=
  cbn; intros;
  first
    [ exact I
    | reflexivity
    | discriminate
    | left; reflexivity
    | right; reflexivity
    | match goal with H : _ \/ _ |- _ => destruct H; discriminate end
    | idtac ].

Ltac emits_seq :=
  repeat first
    [ apply emits_bind_ret
    | apply emits_bind; [emits_step | intros ?] ];
  try emits_step.


(** ** More fuel and the steps *)

Lemma bind_fuel {A B} (m m' : M A) (k k' : A -> M B) W s r s' :
  (forall ra sa, m W s = (ra, sa) -> ra <> OutOfFuel -> m' W s = (ra, sa)) ->
  (forall a sa rb sb,
      k a W sa = (rb, sb) -> rb <> OutOfFuel -> k' a W sa = (rb, sb)) ->
  bind m k W s = (r, s') -> r <> OutOfFuel -> bind m' k' W s = (r, s').
Proof.
  intros Hm Hk. unfold bind.
  destruct (m W s) as [[a|e|] sa] eqn:Em.
  - rewrite (Hm _ _ eq_refl) by discriminate. apply Hk.
  - rewrite (Hm _ _ eq_refl) by discriminate. auto.
  - intros [= <- <-] Hr. now destruct Hr.
Qed.

Lemma create_journal_fuel fuel fuel' self W s r s' :
  fuel <= fuel' ->
  create_journal fuel self W s = (r, s') ->
  r <> OutOfFuel ->
  create_journal fuel' self W s = (r, s').
Proof.
  intros Hle. unfold create_journal.
  apply bind_fuel; [auto | intros w sa rb sb].
  apply bind_fuel; [auto | intros _ sa0 rb0 sb0].
  apply bind_fuel;
    [intros ra sa1; now apply wait_for_control_fuel | intros c sa1 rb1 sb1].
  apply bind_fuel; [auto | intros _ sa2 rb2 sb2].
  apply bind_fuel;
    [intros ra sa3; now apply wait_for_control_to_disappear_fuel
    | intros b sa3 rb3 sb3].
  auto.
Qed.

Lemma existsb_false_Forall {A} (p : A -> bool) l :
  Forall (fun x => p x = false) l -> existsb p l = false.
Proof.
  induction 1 as [|x l Hx _ IH]; [reflexivity|]. cbn. now rewrite Hx, IH.
Qed.

(** A control that is gone from [a] to the deadline is seen gone if [a]
    lies at least one round before the deadline. *)
Lemma polling_sees_gone W d end_time a t evs t' :
  (t < a + (probe_cost W + ((1#2) + sleep_lag W)))%Q ->
  (a + (probe_cost W + ((1#2) + sleep_lag W)) <= end_time)%Q ->
  (forall u, (a <= u)%Q -> (u < end_time)%Q -> gui W u d = None) ->
  polling W d false end_time t evs t' Deadline -> False.
Proof.
  intros Ht Ha Hgone H. remember Deadline as fin eqn:Hfin.
  induction H; try discriminate.
  - lra.
  - destruct (Qlt_le_dec t a) as [Hlt|Hge].
    + apply IHpolling; [lra | assumption].
    + rewrite (Hgone t Hge H) in H0. discriminate.
Qed.

Lemma open_patient_split fuel self W s :
  open_patient fuel self W s
  = bind (open_patient_search fuel self)
      (fun _ =>
         bind (wait_for_control fuel ListItemControl [("Name", ssn self)]
                 (Some 12%Z) None)
           (fun list_item =>
              bind (DoubleClick list_item false 0%Q)
                (fun _ =>
                   bind (wait_for_control fuel TabItemControl
                           [("Name", Py.replace (ssn self) "-" EmptyString)]
                           (Some 4%Z) None)
                     (fun _ => ret tt)))) W s.
Proof.
  unfold open_patient, open_patient_search.
  rewrite bind_assoc. apply bind_ext; intros w W1 s1.
  do 5 (rewrite bind_assoc; apply bind_ext; intros ? ? ?).
  reflexivity.
Qed.

(** ** [create_journal] when nothing was stored *)

(** C6, as the code has it.  After the click on the store button, in a
    causal world and with fuel for the whole wait: if the window
    [frmViewBase] is gone from some moment on until the deadline of the
    60-unit wait, and that moment lies at least one round (a check and the
    sleep of 0.5) before the deadline, then the wait returns [True] from a
    check made before the deadline; if moreover the database answers the
    query for the file name of the day and the identifier without hyphens
    with no rows, [create_journal] raises [ValueError], which is not a
    [TimeoutError]; the connection and the query are its last two calls
    and follow every user-interface call. *)
Theorem create_journal_not_stored fuel self W s s1 a :
  causal W ->
  polls_needed 60 <= fuel ->
  create_journal_click fuel self W s = (Return tt, s1) ->
  (clock s1 <= a)%Q ->
  (a + (probe_cost W + ((1#2) + sleep_lag W)) <= clock s1 + 60)%Q ->
  (forall t, (a <= t)%Q -> (t < clock s1 + 60)%Q ->
             gui W t (mkDescriptor WindowControl frmViewBase 2) = None) ->
  (forall t, (clock s1 <= t)%Q ->
             exists columns,
               database W t (connection_string self)
                 (journal_query (ssn self)
                    ("Udskrift af journal " ++ strftime_dmY (calendar W t)
                       ++ ".pdf"))
               = Rows columns []) ->
  exists s2,
    wait_for_control_to_disappear fuel WindowControl frmViewBase
      (Some 2%Z) (Some 60%Q) W s1 = (Return true, s2)
    /\ (clock s2 < clock s1 + 60 + probe_cost W)%Q
    /\ create_journal fuel self W s
       = (Raise (ValueError "The document was not found in the SQL database."),
          mkState (clock s2)
            (trace s2
               ++ [EvConnect (connection_string self) true;
                   EvExecute
                     (journal_query (ssn self)
                        ("Udskrift af journal "
                           ++ strftime_dmY (calendar W (clock s2)) ++ ".pdf"))
                     []])%list)
    /\ (forall msg,
           ValueError "The document was not found in the SQL database."
           <> TimeoutError msg)
    /\ (exists ui, trace s2 = (trace s ++ ui)%list
                   /\ existsb is_db_call ui = false).
Proof.
  intros Hc Hfuel Hclick Hlo Hhi Hgone Hdb.
  destruct (wait_for_control_to_disappear fuel WindowControl frmViewBase
              (Some 2%Z) (Some 60%Q) W s1) as [r s2] eqn:Hwait.
  destruct (wait_for_control_to_disappear_run _ _ _ _ _ _ _ _ _ Hwait)
    as (evs & fin & Hp & Ht & Hr & Hn).
  cbn [opt_arg] in Hp, Hr.
  destruct (create_journal_click_no_db fuel self W _ _ _ Hclick)
    as (evs0 & Ht0 & Hall0).
  destruct fin as [resolved| |]; cbn [disappeared] in Hr; subst r.
  - exists s2. split; [reflexivity|].
    destruct (polling_stop _ _ _ _ _ _ _ _ Hp)
      as (_ & _ & tp & Htp & Hclock & _).
    pose proof (polling_clock _ _ _ _ Hc _ _ _ _ Hp) as Hmono.
    destruct (Hdb (clock s2) Hmono) as (columns & Hrows).
    split; [rewrite Hclock; lra|]. split; [|split; [discriminate|]].
    + rewrite create_journal_split.
      rewrite (bind_Return _ _ _ _ _ _ Hclick).
      rewrite (bind_Return _ _ _ _ _ _ Hwait).
      unfold bind at 1. rewrite _is_journal_created_run.
      unfold journal_query_at. rewrite Hrows. reflexivity.
    + exists (evs0 ++ EvTime (clock s1) :: evs)%list.
      split; [rewrite Ht, Ht0, <- app_assoc; reflexivity|].
      rewrite existsb_app. cbn [existsb is_db_call orb].
      rewrite (existsb_false_Forall _ _ Hall0). cbn [orb].
      apply existsb_false_Forall. eapply polling_events; eauto.
  - exfalso. destruct Hc as (Hpc & Hsl & _).
    apply (polling_sees_gone _ _ _ a _ _ _) with (4 := Hp); auto. lra.
  - exfalso. eapply polling_not_exhausted; eauto.
Qed.

Lemma create_journal_not_stored_witness :
  let W := scripted_world 0 (3#4) [] in
  let self := logged_in_app "010101-0101" in
  fst (create_journal 121 self W at_start)
  = Raise (ValueError "The document was not found in the SQL database.").
Proof.
  intros W self.
  destruct (create_journal_not_stored 121 self W at_start
              (snd (create_journal_click 121 self W at_start)) (3#4)%Q)
    as (s2 & _ & _ & Hrun & _).
  - unfold causal; cbn; lra.
  - vm_compute; lia.
  - reflexivity.
  - vm_compute. discriminate.
  - vm_compute. discriminate.
  - intros t Hlo _. cbn.
    replace (Qltb t (3#4)) with false; [now rewrite andb_false_r|].
    symmetry. apply Qltb_ge. exact Hlo.
  - intros t _. now exists ["DocumentId"].
  - rewrite Hrun. reflexivity.
Defined.

(** C6, as stated, fails.  Here the dialog disappears 59.75 after the
    click, inside its budget of 60, and the database has no row; the checks
    run 0.5 apart, the last one at 59.5 still sees the dialog and the next
    reading of the clock is the deadline: [create_journal] raises the
    [TimeoutError] of the wait, the database is never asked, and no amount
    of fuel makes it raise the [ValueError]. *)
Lemma create_journal_misses_late_disappearance :
  let W := scripted_world 0 (239#4) [] in
  let self := logged_in_app "010101-0101" in
  let d := mkDescriptor WindowControl frmViewBase 2 in
  let s1 := snd (create_journal_click 121 self W at_start) in
  fst (create_journal_click 121 self W at_start) = Return tt
  /\ (clock s1 == 0)%Q
  /\ (forall t, (239#4 <= t)%Q -> gui W t d = None)
  /\ (forall t dsn sql, database W t dsn sql = Rows ["DocumentId"] [])
  /\ fst (create_journal 121 self W at_start)
     = Raise (TimeoutError
         "Control with parameters {'AutomationId': 'frmViewBase'} did not disappear within the timeout period.")
  /\ existsb is_db_call (trace (snd (create_journal 121 self W at_start)))
     = false
  /\ forall fuel msg,
      fst (create_journal fuel self W at_start) <> Raise (ValueError msg).
Proof.
  intros W self d s1.
  assert (Hrun : fst (create_journal 121 self W at_start)
                 = Raise (TimeoutError
                     "Control with parameters {'AutomationId': 'frmViewBase'} did not disappear within the timeout period."))
    by (vm_compute; reflexivity).
  split; [reflexivity|]. split; [reflexivity|]. split; [|split; [|split; [|split]]].
  - intros t Ht. cbn.
    replace (Qltb t (239#4)) with false; [now rewrite andb_false_r|].
    symmetry. apply Qltb_ge. exact Ht.
  - reflexivity.
  - exact Hrun.
  - vm_compute. reflexivity.
  - intros fuel msg Hv.
    destruct (create_journal fuel self W at_start) as [r s'] eqn:E.
    cbn [fst] in Hv. subst r.
    destruct (create_journal 121 self W at_start) as [r0 s0] eqn:E0.
    cbn [fst] in Hrun. subst r0.
    assert (H1 : create_journal (Nat.max fuel 121) self W at_start
                 = (Raise (ValueError msg), s'))
      by (apply (create_journal_fuel fuel _ _ _ _ _ _ (Nat.le_max_l _ _) E);
          discriminate).
    assert (H2 : create_journal (Nat.max fuel 121) self W at_start
                 = (Raise (TimeoutError
                      "Control with parameters {'AutomationId': 'frmViewBase'} did not disappear within the timeout period."),
                    s0))
      by (apply (create_journal_fuel 121 _ _ _ _ _ _ (Nat.le_max_r _ _) E0);
          discriminate).
    rewrite H1 in H2. discriminate.
Qed.

(** ** The stages of a run *)

(** A sequence either stops in its first part or goes on from where the
    first part returned. *)
Lemma bind_cases {A B} (m : M A) (k : A -> M B) W s r s' :
  bind m k W s = (r, s') ->
  (exists a s1, m W s = (Return a, s1) /\ k a W s1 = (r, s'))
  \/ ((forall b, r <> Return b)
      /\ exists r0, m W s = (r0, s') /\ forall a, r0 <> Return a).
Proof.
  unfold bind. destruct (m W s) as [[a|e|] s1].
  - left. eauto.
  - intros [= <- <-]. right. split; [discriminate|].
    eexists. split; [reflexivity | discriminate].
  - intros [= <- <-]. right. split; [discriminate|].
    eexists. split; [reflexivity | discriminate].
Qed.

Lemma no_milestone l :
  Forall (fun ev => is_milestone ev = false) l ->
  existsb is_double_click l = false /\ existsb is_db_call l = false.
Proof.
  induction 1 as [|x l Hx _ (IH1 & IH2)]; [split; reflexivity|].
  unfold is_milestone in Hx. apply orb_false_iff in Hx.
  destruct Hx as (Hx1 & Hx2). cbn [existsb]. rewrite Hx1, Hx2, IH1, IH2. auto.
Qed.

Ltac quiet_seq :=
  repeat (apply emits_bind;
          [first [apply emits_the_app_window | emits_step] | intros ?]);
  try emits_step; try reflexivity; intros; try reflexivity.

Lemma login_quiet fuel self W :
  emits W (fun ev => is_milestone ev = false) (login fuel self).
Proof.
  unfold login. quiet_seq.
Qed.

Lemma open_patient_search_returns fuel self W s w s1 :
  app_window self = Some w ->
  open_patient_search fuel self W s = (Return tt, s1) ->
  exists l0,
    trace s1
    = (trace s ++ l0
         ++ [EvSetFocus (cpr_box w);
             EvSendKeys (cpr_box w) (ssn self) None;
             EvSendKeys (cpr_box w) "{ENTER}" None])%list
    /\ Forall (fun ev => is_milestone ev = false) l0.
Proof.
  intros Hwin. unfold open_patient_search, the_app_window. rewrite Hwin.
  intros E.
  apply bind_Return_inv in E. destruct E as (w0 & s0 & [= <- <-] & E).
  apply bind_Return_inv in E. destruct E as ([] & sa & Ha & E).
  apply bind_Return_inv in E. destruct E as (c & sb & Hb & E).
  apply bind_Return_inv in E. destruct E as (w1 & sc & [= <- <-] & E).
  unfold SendKeys in Ha. injection Ha as <-.
  destruct (wait_for_control_run _ _ _ _ _ _ _ _ _ Hb)
    as (evs & fin & Hp & Ht & _).
  unfold bind, SetFocus, SendKeys in E. injection E as <-.
  cbn [emit trace clock] in *.
  exists (EvSendKeys w "{Ctrl}o" (Some 0%Q) :: EvTime (clock s + action_cost W)
            :: evs)%list.
  split.
  - rewrite Ht. repeat (rewrite <- app_assoc; cbn [app]). reflexivity.
  - repeat constructor. eapply polling_events; eauto.
Qed.

Lemma open_patient_search_quiet fuel self W :
  emits W (fun ev => is_milestone ev = false) (open_patient_search fuel self).
Proof.
  unfold open_patient_search. quiet_seq.
Qed.

Lemma create_journal_click_quiet fuel self W :
  emits W (fun ev => is_milestone ev = false) (create_journal_click fuel self).
Proof.
  unfold create_journal_click. quiet_seq.
Qed.

Lemma milestone_db l :
  Forall (fun ev => is_milestone ev = false) l ->
  Forall (fun ev => is_db_call ev = false) l.
Proof.
  apply Forall_impl. intros ev H. unfold is_milestone in H.
  apply orb_false_iff in H. tauto.
Qed.

Lemma milestone_double_click l :
  Forall (fun ev => is_milestone ev = false) l ->
  Forall (fun ev => is_double_click ev = false) l.
Proof.
  apply Forall_impl. intros ev H. unfold is_milestone in H.
  apply orb_false_iff in H. tauto.
Qed.

Ltac list_eq := repeat (rewrite <- app_assoc; cbn [app]); reflexivity.

(** How far a run of [open_patient] gets: it makes no call to the
    database; either it makes no double click and does not return, or it
    has typed the identifier into the cpr search box, found the list item
    named by it and double-clicked it, and if it returns, its last call is
    the check that found the tab. *)
Lemma open_patient_stages fuel self W s w r s' :
  app_window self = Some w ->
  open_patient fuel self W s = (r, s') ->
  exists evs,
    trace s' = (trace s ++ evs)%list
    /\ Forall (fun ev => is_db_call ev = false) evs
    /\ ((Forall (fun ev => is_double_click ev = false) evs /\ r <> Return tt)
        \/ exists l0 l1 e l2,
            evs = (l0 ++ EvSendKeys (cpr_box w) (ssn self) None
                      :: l1 ++ EvExists (patient_list_item self) 0 0 true
                      :: EvDoubleClick
                           (mkControl (patient_list_item self) None (Some e))
                           false 0
                      :: l2)%list
            /\ (r = Return tt ->
                exists l2',
                  l2 = (l2' ++ [EvExists (patient_tab self) 0 0 true])%list)).
Proof.
  intros Hwin E. rewrite open_patient_split in E.
  apply bind_cases in E.
  destruct E as [([] & s1 & Hsearch & E)|(Hr & r0 & Hsearch & _)].
  2: { destruct (open_patient_search_quiet _ _ _ _ _ _ Hsearch)
         as (evs & Ht & Hall).
       exists evs. split; [exact Ht|].
       split; [now apply milestone_db|]. left.
       split; [now apply milestone_double_click | apply Hr]. }
  destruct (open_patient_search_returns _ _ _ _ _ _ Hwin Hsearch)
    as (l0 & Ht0 & Hall0).
  apply bind_cases in E.
  destruct E as [(item & s2 & Hwait & E)|(Hr & r0 & Hwait & _)];
    destruct (wait_for_control_run _ _ _ _ _ _ _ _ _ Hwait)
      as (evs1 & fin & Hp1 & Ht1 & Hr1 & _);
    assert (Hq1 : Forall (fun ev => is_milestone ev = false) evs1)
      by (eapply polling_events; eauto; reflexivity).
  2: { exists (l0 ++ [EvSetFocus (cpr_box w);
                      EvSendKeys (cpr_box w) (ssn self) None;
                      EvSendKeys (cpr_box w) "{ENTER}" None]
                 ++ EvTime (clock s1) :: evs1)%list.
       assert (Hall : Forall (fun ev => is_milestone ev = false)
                        (l0 ++ [EvSetFocus (cpr_box w);
                                EvSendKeys (cpr_box w) (ssn self) None;
                                EvSendKeys (cpr_box w) "{ENTER}" None]
                           ++ EvTime (clock s1) :: evs1)%list).
       { apply Forall_app. split; [exact Hall0|]. repeat constructor.
         exact Hq1. }
       split; [rewrite Ht1, Ht0; list_eq|].
       split; [now apply milestone_db|]. left.
       split; [now apply milestone_double_click | apply Hr]. }
  destruct fin as [resolved| |]; try discriminate.
  pose proof (polling_stopped _ _ _ _ _ _ _ _ Hp1) as Hsome.
  destruct resolved as [e|]; [|discriminate]. injection Hr1 as ->.
  destruct (polling_stop _ _ _ _ _ _ _ _ Hp1)
    as (_ & (before1 & -> & _) & _).
  apply Forall_app in Hq1. destruct Hq1 as (Hq1 & _).
  unfold bind at 1, DoubleClick at 1 in E.
  remember (emit _ (action_cost W) s2) as s3 eqn:Hs3.
  assert (Ht3 : trace s3
                = (trace s
                     ++ (l0 ++ [EvSetFocus (cpr_box w)])
                     ++ EvSendKeys (cpr_box w) (ssn self) None
                     :: (EvSendKeys (cpr_box w) "{ENTER}" None
                           :: EvTime (clock s1) :: before1)
                     ++ EvExists (patient_list_item self) 0 0 true
                     :: [EvDoubleClick
                           (mkControl (patient_list_item self) None (Some e))
                           false 0])%list).
  { rewrite Hs3. cbn [emit trace]. rewrite Ht1, Ht0.
    unfold patient_list_item. cbn [opt_arg]. list_eq. }
  assert (Hdb3 : Forall (fun ev => is_db_call ev = false)
                   ((l0 ++ [EvSetFocus (cpr_box w)])
                      ++ EvSendKeys (cpr_box w) (ssn self) None
                      :: (EvSendKeys (cpr_box w) "{ENTER}" None
                            :: EvTime (clock s1) :: before1)
                      ++ EvExists (patient_list_item self) 0 0 true
                      :: [EvDoubleClick
                            (mkControl (patient_list_item self) None (Some e))
                            false 0])%list).
  { apply Forall_app. split.
    - apply Forall_app. split; [now apply milestone_db|].
      repeat constructor.
    - constructor; [reflexivity|]. apply Forall_app. split.
      + constructor; [reflexivity|]. constructor; [reflexivity|].
        now apply milestone_db.
      + repeat constructor. }
  apply bind_cases in E.
  destruct E as [(c3 & s4 & Hwait3 & E)|(Hr & r0 & Hwait3 & _)];
    destruct (wait_for_control_run _ _ _ _ _ _ _ _ _ Hwait3)
      as (evs3 & fin3 & Hp3 & Ht4 & Hr3 & _);
    assert (Hq3 : Forall (fun ev => is_db_call ev = false) evs3)
      by (eapply polling_events; eauto; reflexivity).
  - injection E as <- <-.
    destruct fin3 as [resolved| |]; try discriminate.
    destruct (polling_stop _ _ _ _ _ _ _ _ Hp3)
      as (_ & (before3 & Hevs3 & _) & _).
    eexists. split; [rewrite Ht4, Ht3, <- app_assoc; reflexivity|].
    split.
    + apply Forall_app. split; [exact Hdb3|].
      constructor; [reflexivity | exact Hq3].
    + right. exists (l0 ++ [EvSetFocus (cpr_box w)])%list,
        (EvSendKeys (cpr_box w) "{ENTER}" None
           :: EvTime (clock s1) :: before1)%list, e,
        (EvTime (clock s3) :: evs3)%list.
      split; [list_eq|]. intros _.
      exists (EvTime (clock s3) :: before3)%list.
      rewrite Hevs3. reflexivity.
  - eexists. split; [rewrite Ht4, Ht3, <- app_assoc; reflexivity|].
    split.
    + apply Forall_app. split; [exact Hdb3|].
      constructor; [reflexivity | exact Hq3].
    + right. exists (l0 ++ [EvSetFocus (cpr_box w)])%list,
        (EvSendKeys (cpr_box w) "{ENTER}" None
           :: EvTime (clock s1) :: before1)%list, e,
        (EvTime (clock s3) :: evs3)%list.
      split; [list_eq|]. intros Hret. now destruct (Hr tt).
Qed.

(** How far a run of [create_journal] gets: it makes no double click;
    either it makes no call to the database and does not return, or its
    last two calls are the connection and the journal query for the
    identifier. *)
Lemma create_journal_stages fuel self W s r s' :
  create_journal fuel self W s = (r, s') ->
  exists evs,
    trace s' = (trace s ++ evs)%list
    /\ Forall (fun ev => is_double_click ev = false) evs
    /\ ((Forall (fun ev => is_db_call ev = false) evs /\ r <> Return tt)
        \/ exists l3 filename,
            evs = (l3 ++ [EvConnect (connection_string self) true;
                          EvExecute (journal_query (ssn self) filename) []])%list).
Proof.
  intros E. rewrite create_journal_split in E.
  apply bind_cases in E.
  destruct E as [([] & s1 & Hclick & E)|(Hr & r0 & Hclick & _)];
    destruct (create_journal_click_quiet _ _ _ _ _ _ Hclick)
      as (evs0 & Ht0 & Hall0).
  2: { exists evs0. split; [exact Ht0|].
       split; [now apply milestone_double_click|]. left.
       split; [now apply milestone_db | apply Hr]. }
  apply bind_cases in E.
  destruct E as [(gone & s2 & Hwait & E)|(Hr & r0 & Hwait & _)];
    destruct (wait_for_control_to_disappear_run _ _ _ _ _ _ _ _ _ Hwait)
      as (evs1 & fin & Hp1 & Ht1 & _);
    assert (Hq1 : Forall (fun ev => is_milestone ev = false) evs1)
      by (eapply polling_events; eauto; reflexivity);
    assert (Hall : Forall (fun ev => is_milestone ev = false)
                     (evs0 ++ EvTime (clock s1) :: evs1)%list)
      by (apply Forall_app; split; [exact Hall0|];
          constructor; [reflexivity | exact Hq1]).
  2: { exists (evs0 ++ EvTime (clock s1) :: evs1)%list.
       split; [rewrite Ht1, Ht0; list_eq|].
       split; [now apply milestone_double_click|]. left.
       split; [now apply milestone_db | apply Hr]. }
  unfold bind at 1 in E. rewrite _is_journal_created_run in E.
  assert (Hs' : trace s'
                = (trace s
                     ++ (evs0 ++ EvTime (clock s1) :: evs1)
                     ++ [EvConnect (connection_string self) true;
                         EvExecute (journal_query_at W self (clock s2)) []])%list).
  { destruct (database W (clock s2) (connection_string self) _)
      as [cols [|row rows]|msg]; injection E as _ <-;
      cbn [trace]; rewrite Ht1, Ht0; list_eq. }
  eexists. split; [exact Hs'|]. split.
  - apply Forall_app. split; [now apply milestone_double_click|].
    repeat constructor.
  - right. eexists _, _. unfold journal_query_at. reflexivity.
Qed.

Lemma login_keeps_connection_string fuel self W s self' s' :
  login fuel self W s = (Return self', s') ->
  connection_string self' = connection_string self.
Proof.
  unfold login. intros E.
  do 8 (apply bind_Return_inv in E; destruct E as (? & ? & _ & E)).
  apply bind_Return_inv in E. destruct E as (w & s1 & _ & E).
  injection E as <- _. reflexivity.
Qed.

(** How far a run of the steps of [process] gets.  Either it stops before
    the patient is opened: no double click, no call to the database, no
    return.  Or it has typed the identifier of the object into the cpr
    search box, found the list item named by it and double-clicked it, and
    stops before the database is asked.  Or it has, after that, found the
    tab named by the identifier without its hyphens, and its last two
    calls are the connection and the journal query for the identifier. *)
Lemma process_steps_stages fuel self W s r s' :
  process_steps fuel self W s = (r, s') ->
  exists evs,
    trace s' = (trace s ++ evs)%list
    /\ ((Forall (fun ev => is_double_click ev = false) evs
         /\ Forall (fun ev => is_db_call ev = false) evs
         /\ r <> Return tt)
        \/ (exists w l0 l1 e l2,
               evs = (l0 ++ EvSendKeys (cpr_box w) (ssn self) None
                         :: l1 ++ EvExists (patient_list_item self) 0 0 true
                         :: EvDoubleClick
                              (mkControl (patient_list_item self) None
                                 (Some e)) false 0
                         :: l2)%list
               /\ Forall (fun ev => is_db_call ev = false) evs
               /\ r <> Return tt)
        \/ (exists w l0 l1 e l2 l3 filename,
               evs = (l0 ++ EvSendKeys (cpr_box w) (ssn self) None
                         :: l1 ++ EvExists (patient_list_item self) 0 0 true
                         :: EvDoubleClick
                              (mkControl (patient_list_item self) None
                                 (Some e)) false 0
                         :: l2 ++ EvExists (patient_tab self) 0 0 true
                         :: l3
                         ++ [EvConnect (connection_string self) true;
                             EvExecute (journal_query (ssn self) filename)
                               []])%list)).
Proof.
  unfold process_steps, start_application. intros E.
  unfold bind at 1, os_startfile at 1 in E.
  remember (log (EvStartFile (app_path self)) s) as s0 eqn:Hs0.
  assert (Ht0 : trace s0 = (trace s ++ [EvStartFile (app_path self)])%list)
    by (rewrite Hs0; reflexivity).
  apply bind_cases in E.
  destruct E as [(self' & s1 & Hlogin & E)|(Hr & r0 & Hlogin & _)];
    destruct (login_quiet _ _ _ _ _ _ Hlogin) as (evsL & HtL & HallL).
  2: { exists (EvStartFile (app_path self) :: evsL).
       split; [rewrite HtL, Ht0; list_eq|]. left.
       split; [constructor; [reflexivity | now apply milestone_double_click]|].
       split; [constructor; [reflexivity | now apply milestone_db]|].
       apply Hr. }
  destruct (login_result _ _ _ _ _ _ Hlogin) as (Hssn & e0 & Hwin).
  pose proof (login_keeps_connection_string _ _ _ _ _ _ Hlogin) as Hconn.
  assert (Hli : patient_list_item self' = patient_list_item self)
    by (unfold patient_list_item; now rewrite Hssn).
  assert (Htab : patient_tab self' = patient_tab self)
    by (unfold patient_tab; now rewrite Hssn).
  assert (HdcL : Forall (fun ev => is_double_click ev = false)
                   (EvStartFile (app_path self) :: evsL))
    by (constructor; [reflexivity | now apply milestone_double_click]).
  assert (HdbL : Forall (fun ev => is_db_call ev = false)
                   (EvStartFile (app_path self) :: evsL))
    by (constructor; [reflexivity | now apply milestone_db]).
  assert (Ht1 : trace s1
                = (trace s ++ EvStartFile (app_path self) :: evsL)%list)
    by (rewrite HtL, Ht0; list_eq).
  clear HtL Ht0 Hs0 HallL Hlogin.
  apply bind_cases in E.
  destruct E as [([] & s2 & Hopen & E)|(Hr & r0 & Hopen & _)];
    destruct (open_patient_stages _ _ _ _ _ _ _ Hwin Hopen)
      as (evsO & HtO & HdbO & Hstage);
    rewrite Hssn, Hli, Htab in Hstage.
  - destruct Hstage as [(_ & Hno)|(l0 & l1 & e & l2 & HevsO & Hlast)];
      [now destruct Hno|].
    destruct (Hlast eq_refl) as (l2' & ->). clear Hlast.
    destruct (create_journal_stages _ _ _ _ _ _ E)
      as (evsC & HtC & HdcC & Hcheck).
    rewrite Hssn, Hconn in Hcheck.
    destruct Hcheck as [(HdbC & Hno)|(l3 & filename & HevsC)].
    + eexists. split; [rewrite HtC, HtO, Ht1, <- !app_assoc; reflexivity|].
      right. left.
      exists (mkControl
                (mkDescriptor WindowControl [("AutomationId", "frmClient")] 2)
                None (Some e0)),
        (EvStartFile (app_path self) :: evsL ++ l0)%list, l1, e,
        ((l2' ++ [EvExists (patient_tab self) 0 0 true]) ++ evsC)%list.
      split; [rewrite HevsO; cbn [app]; list_eq|].
      split; [|exact Hno].
      cbn [app]. constructor; [reflexivity|].
      apply Forall_app. split; [now inversion HdbL|].
      apply Forall_app. split; assumption.
    + eexists. split; [rewrite HtC, HtO, Ht1, <- !app_assoc; reflexivity|].
      right. right.
      exists (mkControl
                (mkDescriptor WindowControl [("AutomationId", "frmClient")] 2)
                None (Some e0)),
        (EvStartFile (app_path self) :: evsL ++ l0)%list, l1, e, l2', l3,
        filename.
      rewrite HevsO, HevsC. cbn [app]. list_eq.
  - destruct Hstage as [(HdcO & _)|(l0 & l1 & e & l2 & HevsO & _)].
    + eexists. split; [rewrite HtO, Ht1, <- app_assoc; reflexivity|].
      left. split; [|split; [|apply Hr]].
      * cbn [app]. constructor; [reflexivity|].
        apply Forall_app. split; [now inversion HdcL | assumption].
      * cbn [app]. constructor; [reflexivity|].
        apply Forall_app. split; [now inversion HdbL | assumption].
    + eexists. split; [rewrite HtO, Ht1, <- app_assoc; reflexivity|].
      right. left.
      exists (mkControl
                (mkDescriptor WindowControl [("AutomationId", "frmClient")] 2)
                None (Some e0)),
        (EvStartFile (app_path self) :: evsL ++ l0)%list, l1, e, l2.
      split; [rewrite HevsO; cbn [app]; list_eq|].
      split; [|apply Hr].
      cbn [app]. constructor; [reflexivity|].
      apply Forall_app. split; [now inversion HdbL | assumption].
Qed.

Lemma process_run fuel config oc W s c db :
  get_credential oc "solteq_sund" = inr c ->
  get_constant oc "solteq_sund_db_connstr" = inr db ->
  process fuel config oc W s
  = process_steps fuel
      (init (APP_PATH config) (cred_username c) (cred_password c) EmptyString
         db)
      W (log (EvLogTrace "Running process.") s).
Proof.
  intros Hc Hdb. unfold process. rewrite Hc, Hdb. reflexivity.
Qed.

(** Without the credential or the connection string no driver is built:
    [process] raises what the lookup raised, having only logged. *)
Lemma process_no_driver fuel config oc W s e :
  get_credential oc "solteq_sund" = inl e
  \/ get_constant oc "solteq_sund_db_connstr" = inl e ->
  exists e',
    process fuel config oc W s
    = (Raise e', log (EvLogTrace "Running process.") s).
Proof.
  unfold process.
  destruct (get_credential oc "solteq_sund") as [e1|c] eqn:Hc.
  - intros _. exists e1. reflexivity.
  - intros [H|H]; [discriminate|]. rewrite H. exists e. reflexivity.
Qed.

(** Every call of every run of [process] that involves the identifier
    uses the empty one. *)
Lemma process_emits_empty_identifier fuel config oc W :
  emits W uses_empty_identifier (process fuel config oc).
Proof.
  unfold process.
  apply emits_bind; [now emits_step | intros _].
  apply emits_bind; [emits_step | intros c1].
  apply emits_bind; [emits_step | intros c2].
  apply emits_bind; [emits_step | intros db].
  apply emits_bind; [now emits_step | intros _].
  apply (emits_bind_post W _
           (fun self =>
              ssn self = EmptyString
              /\ exists e,
                  app_window self
                  = Some (mkControl
                            (mkDescriptor WindowControl
                               [("AutomationId", "frmClient")] 2)
                            None (Some e)))).
  - unfold login.
    apply emits_bind; [emits_step; side | intros w].
    unfold the_app_window. cbn [app_window set_app_window].
    emits_seq; side.
  - intros s0 a s1 Hlogin.
    destruct (login_result _ _ _ _ _ _ Hlogin) as (Hssn & Hwin). auto.
  - intros self (Hssn & e & Hwin).
    apply emits_bind.
    + unfold open_patient, the_app_window. rewrite Hssn, Hwin.
      emits_seq; side.
    + intros _. unfold create_journal, the_app_window. rewrite Hwin.
      emits_seq; side.
      apply emits_bind.
      * apply emits_is_journal_created; [exact (fun _ => I)|].
        intros filename. rewrite Hssn. split; [reflexivity|].
        exists filename. apply journal_query_parts.
      * intros created. destruct (negb created); emits_step.
Qed.

Ltac find_in :=
  solve [repeat first [apply in_eq | apply in_cons | apply in_or_app; right]].

Lemma existsb_Forall_false {A} (p : A -> bool) l :
  Forall (fun x => p x = false) l -> existsb p l = true -> False.
Proof.
  intros H. rewrite (existsb_false_Forall _ _ H). discriminate.
Qed.

(** C10. [process] builds the driver with the empty text as identifier,
    whatever the configuration, the orchestrator and the world are: once
    the credential and the connection string are looked up, the run of
    [process] is the run of its four steps on the object built with the
    identifier [EmptyString].  Consequently, in every run: every call that
    involves the identifier uses the empty one; a double click is made
    only after the empty text was typed into the cpr search box and the
    list item named by the empty text was found; the database is asked
    only after, in addition, the tab named by the empty text was found,
    and it is asked the journal query for the empty identifier as the last
    call; and a run that returns has asked the database, so it went
    through all of these. *)
Theorem process_uses_empty_ssn fuel config oc W s r s' :
  process fuel config oc W s = (r, s') ->
  (forall c db,
      get_credential oc "solteq_sund" = inr c ->
      get_constant oc "solteq_sund_db_connstr" = inr db ->
      let app_obj :=
        init (APP_PATH config) (cred_username c) (cred_password c)
          EmptyString db in
      ssn app_obj = EmptyString
      /\ process fuel config oc W s
         = process_steps fuel app_obj W
             (log (EvLogTrace "Running process.") s))
  /\ exists evs,
      trace s' = (trace s ++ evs)%list
      /\ Forall uses_empty_identifier evs
      /\ (existsb is_double_click evs = true ->
          exists w l0 l1 e l2,
            evs = (l0 ++ EvSendKeys (cpr_box w) EmptyString None
                      :: l1
                      ++ EvExists
                           (mkDescriptor ListItemControl
                              [("Name", EmptyString)] 12) 0 0 true
                      :: EvDoubleClick
                           (mkControl
                              (mkDescriptor ListItemControl
                                 [("Name", EmptyString)] 12) None (Some e))
                           false 0
                      :: l2)%list)
      /\ (existsb is_db_call evs = true ->
          exists w l0 l1 e l2 l3 db filename,
            get_constant oc "solteq_sund_db_connstr" = inr db
            /\ evs = (l0 ++ EvSendKeys (cpr_box w) EmptyString None
                         :: l1
                         ++ EvExists
                              (mkDescriptor ListItemControl
                                 [("Name", EmptyString)] 12) 0 0 true
                         :: EvDoubleClick
                              (mkControl
                                 (mkDescriptor ListItemControl
                                    [("Name", EmptyString)] 12) None
                                 (Some e)) false 0
                         :: l2
                         ++ EvExists
                              (mkDescriptor TabItemControl
                                 [("Name", EmptyString)] 4) 0 0 true
                         :: l3
                         ++ [EvConnect db true;
                             EvExecute (journal_query EmptyString filename)
                               []])%list)
      /\ (r = Return tt -> existsb is_db_call evs = true).
Proof.
  intros E. split.
  { intros c db Hc Hdb app_obj. split; [reflexivity|].
    now apply process_run. }
  destruct (process_emits_empty_identifier _ _ _ _ _ _ _ E)
    as (evs & Ht & Hall).
  exists evs. split; [exact Ht|]. split; [exact Hall|].
  destruct (get_credential oc "solteq_sund") as [e1|c] eqn:Hc;
    [|destruct (get_constant oc "solteq_sund_db_connstr") as [e2|db] eqn:Hdb].
  1,2: assert (Hstop : exists e',
                  process fuel config oc W s
                  = (Raise e', log (EvLogTrace "Running process.") s))
         by (eapply process_no_driver; eauto);
       destruct Hstop as (e' & Hstop); rewrite Hstop in E;
       injection E as <- <-; cbn [log trace] in Ht;
       apply app_inv_head in Ht; subst evs;
       repeat split; discriminate.
  rewrite (process_run _ _ _ _ _ _ _ Hc Hdb) in E.
  destruct (process_steps_stages _ _ _ _ _ _ E) as (evs' & Ht' & Hstage).
  cbn [log trace] in Ht'. rewrite <- app_assoc in Ht'. rewrite Ht' in Ht.
  apply app_inv_head in Ht. cbn [app] in Ht. subst evs.
  unfold patient_list_item, patient_tab in Hstage.
  cbn [ssn init connection_string Py.replace] in Hstage.
  destruct Hstage
    as [(Hdc & Hdb' & Hr)
       |[(w & l0 & l1 & e & l2 & Hevs & Hdb' & Hr)
        |(w & l0 & l1 & e & l2 & l3 & filename & Hevs)]].
  - split; [|split].
    + intros Hx. exfalso. cbn [existsb is_double_click orb] in Hx.
      exact (existsb_Forall_false _ _ Hdc Hx).
    + intros Hx. exfalso. cbn [existsb is_db_call orb] in Hx.
      exact (existsb_Forall_false _ _ Hdb' Hx).
    + intros ->. now destruct Hr.
  - split; [|split].
    + intros _.
      exists w, (EvLogTrace "Running process." :: l0)%list, l1, e, l2.
      rewrite Hevs. reflexivity.
    + intros Hx. exfalso. cbn [existsb is_db_call orb] in Hx.
      exact (existsb_Forall_false _ _ Hdb' Hx).
    + intros ->. now destruct Hr.
  - split; [|split].
    + intros _.
      exists w, (EvLogTrace "Running process." :: l0)%list, l1, e,
        (l2 ++ EvExists
                 (mkDescriptor TabItemControl [("Name", EmptyString)] 4)
                 0 0 true
            :: l3
            ++ [EvConnect db true;
                EvExecute (journal_query EmptyString filename) []])%list.
      rewrite Hevs. reflexivity.
    + intros _.
      exists w, (EvLogTrace "Running process." :: l0)%list, l1, e, l2, l3,
        db, filename.
      split; [reflexivity|]. rewrite Hevs. reflexivity.
    + intros _. apply existsb_exists. exists (EvConnect db true).
      split; [|reflexivity]. rewrite Hevs. find_in.
Qed.

Lemma process_uses_empty_ssn_witness :
  let run :=
    process 121 (mkConfig "C:\Solteq\Sund.exe")
      (mkOrchestratorConnection
         (fun _ => inr (mkCredential "robot" "secret"))
         (fun _ => inr "DSN=sund"))
      (scripted_world 0 (3#4) [[SqlInt 10]]) at_start in
  fst run = Return tt
  /\ existsb is_double_click (trace (snd run)) = true
  /\ existsb is_db_call (trace (snd run)) = true
  /\ Forall uses_empty_identifier (trace (snd run)).
Proof.
  intros run.
  destruct (process_uses_empty_ssn 121 (mkConfig "C:\Solteq\Sund.exe")
              (mkOrchestratorConnection
                 (fun _ => inr (mkCredential "robot" "secret"))
                 (fun _ => inr "DSN=sund"))
              (scripted_world 0 (3#4) [[SqlInt 10]]) at_start
              (fst run) (snd run) (surjective_pairing _))
    as (_ & evs & Ht & Hall & _ & Hdb & Hret).
  assert (Hrun : fst run = Return tt) by (vm_compute; reflexivity).
  cbn [at_start trace app] in Ht. rewrite Ht.
  split; [exact Hrun|].
  pose proof (Hret Hrun) as Hasked.
  destruct (Hdb Hasked)
    as (w & l0 & l1 & e & l2 & l3 & db & filename & _ & Hevs).
  split; [|split; [exact Hasked | exact Hall]].
  apply existsb_exists.
  exists (EvDoubleClick
            (mkControl
               (mkDescriptor ListItemControl [("Name", EmptyString)] 12)
               None (Some e)) false 0).
  split; [|reflexivity]. rewrite Hevs. find_in.
Defined.

Example process_asks_for_empty_cpr :
  last (trace (snd (process 200 (mkConfig "C:\Solteq\Sund.exe")
                      (mkOrchestratorConnection
                         (fun _ => inr (mkCredential "robot" "secret"))
                         (fun _ => inr "DSN=sund"))
                      (scripted_world 0 (3#4) []) at_start)))
    (EvSleep 0)
  = EvExecute
      (query_head ++ EmptyString ++ query_mid
         ++ "Udskrift af journal 05-03-2024.pdf" ++ query_tail) [].
Proof. vm_compute. reflexivity. Qed.

(** * Further properties of the driver *)

(** ** The waits at their edges *)

(** X1. With a timeout of zero or less both waits raise at once: the clock
    is read twice, no existence check is made and no time passes, whatever
    the tree holds at that moment. *)
Theorem waits_reject_nonpositive_timeout fuel ct sp search_depth timeout W s :
  (timeout <= 0)%Q ->
  wait_for_control (S fuel) ct sp search_depth (Some timeout) W s
  = (Raise (TimeoutError (not_found_message sp)),
     mkState (clock s)
       (trace s ++ [EvTime (clock s); EvTime (clock s)])%list)
  /\ wait_for_control_to_disappear (S fuel) ct sp search_depth (Some timeout)
       W s
     = (Raise (TimeoutError (not_gone_message sp)),
        mkState (clock s)
          (trace s ++ [EvTime (clock s); EvTime (clock s)])%list).
Proof.
  intros Hle.
  assert (Hlt : Qltb (clock s) (clock s + timeout) = false)
    by (apply Qltb_ge; lra).
  unfold wait_for_control, wait_for_control_to_disappear.
  cbn [opt_arg wait_for_control_loop wait_for_control_to_disappear_loop].
  run_step. rewrite Hlt. run_step. unfold log. cbn [clock trace].
  rewrite <- !app_assoc. split; reflexivity.
Qed.

Lemma waits_reject_nonpositive_timeout_witness :
  fst (wait_for_control 1 WindowControl frmLogin (Some 2%Z) (Some 0%Q)
         (scripted_world 0 100 []) at_start)
  = Raise (TimeoutError (not_found_message frmLogin)).
Proof.
  destruct (waits_reject_nonpositive_timeout 0 WindowControl frmLogin
              (Some 2%Z) 0%Q (scripted_world 0 100 []) at_start) as (H & _).
  - lra.
  - rewrite H. reflexivity.
Defined.

(** A loop started before the deadline is left less than one round after
    it. *)
Lemma polling_time_bound W d stop_when end_time t evs t' fin :
  causal W ->
  polling W d stop_when end_time t evs t' fin ->
  (t < end_time)%Q ->
  (t' < end_time + (probe_cost W + ((1#2) + sleep_lag W)))%Q.
Proof.
  intros (Hp & Hs & _). induction 1; intros Hlt; try lra.
  destruct (Qlt_le_dec (t + probe_cost W + ((1#2) + sleep_lag W)) end_time)
    as [Hnext|Hnext]; [auto|].
  inversion H1; subst; lra.
Qed.

(** X2. In a causal world a wait with a positive timeout makes at most
    [ceil(2 * timeout)] existence checks and, however it ends, is over less
    than one round (a check and the sleep of 0.5) after the deadline; this
    holds for both waits and for any amount of fuel. *)
Theorem waits_bounded fuel ct sp search_depth timeout W s :
  causal W ->
  (0 < timeout)%Q ->
  let bounded (s' : State) :=
    exists evs,
      trace s' = (trace s ++ EvTime (clock s) :: evs)%list
      /\ polls evs <= Z.to_nat (Qceiling (2 * timeout))
      /\ (clock s <= clock s')%Q
      /\ (clock s'
          < clock s + timeout + (probe_cost W + ((1#2) + sleep_lag W)))%Q in
  bounded (snd (wait_for_control fuel ct sp search_depth (Some timeout) W s))
  /\ bounded (snd (wait_for_control_to_disappear fuel ct sp search_depth
                     (Some timeout) W s)).
Proof.
  intros Hc Hpos bounded. split.
  - destruct (wait_for_control fuel ct sp search_depth (Some timeout) W s)
      as [r s'] eqn:E.
    destruct (wait_for_control_run _ _ _ _ _ _ _ _ _ E)
      as (evs & fin & Hp & Ht & _).
    cbn [opt_arg] in Hp. exists evs. cbn [snd].
    split; [exact Ht|]. split; [|split].
    + pose proof (polling_polls_le _ _ _ _ _ _ _ _ Hc Hp) as Hn.
      unfold polls_needed in Hn. lia.
    + eapply polling_clock; eauto.
    + eapply polling_time_bound; eauto. lra.
  - destruct (wait_for_control_to_disappear fuel ct sp search_depth
                (Some timeout) W s) as [r s'] eqn:E.
    destruct (wait_for_control_to_disappear_run _ _ _ _ _ _ _ _ _ E)
      as (evs & fin & Hp & Ht & _).
    cbn [opt_arg] in Hp. exists evs. cbn [snd].
    split; [exact Ht|]. split; [|split].
    + pose proof (polling_polls_le _ _ _ _ _ _ _ _ Hc Hp) as Hn.
      unfold polls_needed in Hn. lia.
    + eapply polling_clock; eauto.
    + eapply polling_time_bound; eauto. lra.
Qed.

Lemma waits_bounded_witness :
  exists evs,
    trace (snd (wait_for_control 10 WindowControl frmLogin (Some 2%Z)
                  (Some 1%Q) (scripted_world 5 100 []) at_start))
    = ([] ++ EvTime 0 :: evs)%list
    /\ polls evs <= 2.
Proof.
  destruct (waits_bounded 10 WindowControl frmLogin (Some 2%Z) 1%Q
              (scripted_world 5 100 []) at_start)
    as ((evs & Ht & Hn & _) & _).
  - unfold causal; cbn; lra.
  - lra.
  - exists evs. split; [exact Ht | exact Hn].
Defined.

(** X3. The two timeout messages never coincide, whatever the search
    parameters of the two waits, so the text tells which wait failed; and
    the message of the wait for disappearance, like the other one, names
    its search parameters without ambiguity. *)
Theorem timeout_messages_distinct sp1 sp2 :
  not_found_message sp1 <> not_gone_message sp2
  /\ (not_gone_message sp1 = not_gone_message sp2 -> sp1 = sp2).
Proof.
  split; [|apply not_gone_message_inj].
  unfold not_found_message, not_gone_message, Py.repr_dict. intros H.
  apply append_inv_head in H.
  cbn [append] in H. rewrite !append_assoc in H. cbn [append] in H.
  injection H as H. apply repr_items_inj in H. destruct H as (_ & H).
  discriminate H.
Qed.

(** X4. What [wait_for_control_to_disappear] guarantees about the tree, in
    a causal world with fuel for the whole wait: it returns [True] whenever
    the control is gone from some moment on until the deadline, if that
    moment lies at least one round before the deadline, and then returns
    from a check made inside the window at which the control did not
    resolve; it raises, at or after the deadline, whenever the control
    resolves at every moment of the window. *)
Theorem wait_for_control_to_disappear_guarantees
  fuel ct sp search_depth timeout W s r s' :
  causal W ->
  polls_needed (opt_arg 30%Q timeout) <= fuel ->
  wait_for_control_to_disappear fuel ct sp search_depth timeout W s = (r, s') ->
  let d := mkDescriptor ct sp (opt_arg 1%Z search_depth) in
  let timeout := opt_arg 30%Q timeout in
  let round := (probe_cost W + ((1#2) + sleep_lag W))%Q in
  (forall a,
      (clock s <= a)%Q -> (a + round <= clock s + timeout)%Q ->
      (forall t, (a <= t)%Q -> (t < clock s + timeout)%Q -> gui W t d = None) ->
      r = Return true)
  /\ (r = Return true ->
      exists t_probe,
        (clock s <= t_probe)%Q /\ (t_probe < clock s + timeout)%Q
        /\ gui W t_probe d = None
        /\ clock s' = (t_probe + probe_cost W)%Q)
  /\ ((forall t, (clock s <= t)%Q -> (t < clock s + timeout)%Q ->
                 gui W t d <> None) ->
      r = Raise (TimeoutError (not_gone_message sp))
      /\ (clock s + timeout <= clock s')%Q).
Proof.
  intros Hc Hfuel E d T round.
  destruct (wait_for_control_to_disappear_run _ _ _ _ _ _ _ _ _ E)
    as (evs & fin & Hp & Ht & Hr & Hn).
  fold d in Hp, Hr. fold T in Hp.
  destruct fin as [resolved| |]; cbn [disappeared search_params] in Hr; subst r.
  - pose proof (polling_stopped _ _ _ _ _ _ _ _ Hp) as Hnone.
    destruct (polling_stop_window _ _ _ _ Hc _ _ _ _ Hp)
      as (tp & Hlo & Hhi & Hclock & Hgui).
    destruct resolved as [e|]; [discriminate|].
    split; [auto|]. split.
    + intros _. exists tp. auto.
    + intros Hstays. now destruct (Hstays tp Hlo Hhi).
  - split; [|split; [discriminate|]].
    + intros a Hlo Hhi Hgone. exfalso.
      destruct Hc as (Hpc & Hsl & _).
      apply (polling_sees_gone _ _ _ a _ _ _) with (4 := Hp); auto. lra.
    + intros _. split; [reflexivity|]. now apply polling_deadline in Hp.
  - exfalso. eapply polling_not_exhausted; eauto.
Qed.

Lemma wait_for_control_to_disappear_guarantees_witness :
  fst (wait_for_control_to_disappear 10 WindowControl frmViewBase (Some 2%Z)
         (Some 2%Q) (scripted_world 0 (3#4) []) at_start)
  = Return true.
Proof.
  pose (run := wait_for_control_to_disappear 10 WindowControl frmViewBase
                 (Some 2%Z) (Some 2%Q) (scripted_world 0 (3#4) []) at_start).
  destruct (wait_for_control_to_disappear_guarantees 10 WindowControl
              frmViewBase (Some 2%Z) (Some 2%Q) (scripted_world 0 (3#4) [])
              at_start (fst run) (snd run)) as (Hgone & _).
  - unfold causal; cbn; lra.
  - vm_compute; lia.
  - reflexivity.
  - apply (Hgone 1%Q).
    + cbn; lra.
    + cbn; lra.
    + intros t Hlo _. cbn.
      replace (Qltb t (3#4)) with false; [now rewrite andb_false_r|].
      symmetry. apply Qltb_ge. lra.
Defined.

(** ** [login] *)

(** A wait for a control that no moment of the window resolves. *)
Lemma wait_for_control_never_found fuel ct sp search_depth timeout W s :
  causal W ->
  polls_needed (opt_arg 30%Q timeout) <= fuel ->
  (forall t, (clock s <= t)%Q -> (t < clock s + opt_arg 30%Q timeout)%Q ->
             gui W t (mkDescriptor ct sp (opt_arg 1%Z search_depth)) = None) ->
  exists s' evs,
    wait_for_control fuel ct sp search_depth timeout W s
    = (Raise (TimeoutError (not_found_message sp)), s')
    /\ trace s' = (trace s ++ evs)%list
    /\ existsb is_input evs = false
    /\ existsb is_db_call evs = false
    /\ (clock s + opt_arg 30%Q timeout <= clock s')%Q.
Proof.
  intros Hc Hfuel Hnever.
  destruct (wait_for_control fuel ct sp search_depth timeout W s)
    as [r s'] eqn:E.
  destruct (wait_for_control_run _ _ _ _ _ _ _ _ _ E)
    as (evs & fin & Hp & Ht & Hr & Hn).
  assert (Hquiet : Forall (fun ev => is_input ev = false
                                     /\ is_db_call ev = false) evs)
    by (eapply polling_events; eauto).
  exists s', (EvTime (clock s) :: evs).
  destruct fin as [resolved| |]; cbn [appeared search_params] in Hr; subst r.
  - exfalso. pose proof (polling_stopped _ _ _ _ _ _ _ _ Hp) as Hsome.
    destruct (polling_stop_window _ _ _ _ Hc _ _ _ _ Hp)
      as (tp & Hlo & Hhi & _ & Hgui).
    rewrite (Hnever tp Hlo Hhi) in Hgui. subst resolved. discriminate.
  - split; [reflexivity|]. split; [exact Ht|].
    cbn [existsb is_input is_db_call orb]. repeat split.
    + apply not_true_is_false. rewrite existsb_exists.
      intros (ev & Hin & Hev). rewrite Forall_forall in Hquiet.
      destruct (Hquiet _ Hin) as (Hi & _). congruence.
    + apply not_true_is_false. rewrite existsb_exists.
      intros (ev & Hin & Hev). rewrite Forall_forall in Hquiet.
      destruct (Hquiet _ Hin) as (_ & Hd). congruence.
    + now apply polling_deadline in Hp.
  - exfalso. eapply polling_not_exhausted; eauto.
Qed.

Lemma login_split fuel self W s :
  login fuel self W s
  = bind (login_submit fuel self)
      (fun self =>
         bind (wait_for_control fuel WindowControl frmClient
                 (Some 2%Z) (Some 60%Q))
           (fun w => ret (set_app_window self w))) W s.
Proof.
  unfold login, login_submit, frmLogin, frmClient.
  rewrite bind_assoc. apply bind_ext; intros w W1 s1.
  do 6 (rewrite bind_assoc; apply bind_ext; intros ? ? ?).
  reflexivity.
Qed.

(** X5. [login] types nothing blind: when the login window resolves at no
    moment of the 30 units after invocation, [login] raises the
    [TimeoutError] naming [frmLogin], not before those 30 units have passed,
    and has given the application no input at all: neither the user name
    nor the password has been sent. *)
Theorem login_types_nothing_blind fuel self W s :
  causal W ->
  polls_needed 30 <= fuel ->
  (forall t, (clock s <= t)%Q -> (t < clock s + 30)%Q ->
             gui W t (mkDescriptor WindowControl frmLogin 2) = None) ->
  exists s' evs,
    login fuel self W s
    = (Raise (TimeoutError
         "Control with parameters {'AutomationId': 'frmLogin'} was not found within the timeout period."),
       s')
    /\ trace s' = (trace s ++ evs)%list
    /\ existsb is_input evs = false
    /\ (clock s + 30 <= clock s')%Q.
Proof.
  intros Hc Hfuel Hnever.
  destruct (wait_for_control_never_found fuel WindowControl frmLogin
              (Some 2%Z) None W s Hc Hfuel Hnever)
    as (s' & evs & Hrun & Ht & Hin & _ & Hclock).
  exists s', evs. split; [|auto].
  unfold login. apply bind_Raise. exact Hrun.
Qed.

Lemma login_types_nothing_blind_witness :
  exists s' evs,
    login 61 (logged_in_app "010101-0101") (scripted_world 40 100 []) at_start
    = (Raise (TimeoutError
         "Control with parameters {'AutomationId': 'frmLogin'} was not found within the timeout period."),
       s')
    /\ trace s' = ([] ++ evs)%list
    /\ existsb is_input evs = false
    /\ (0 + 30 <= clock s')%Q.
Proof.
  apply (login_types_nothing_blind 61 (logged_in_app "010101-0101")
           (scripted_world 40 100 []) at_start).
  - unfold causal; cbn; lra.
  - vm_compute; lia.
  - intros t _ Hhi. cbn in Hhi. cbn.
    replace (Qle_bool 40 t) with false; [reflexivity|].
    symmetry. apply not_true_is_false. rewrite Qle_bool_iff. lra.
Defined.

(** What the submitting part of [login] leaves behind when it returns. *)
Lemma login_submit_run fuel self W s self1 s1 :
  login_submit fuel self W s = (Return self1, s1) ->
  exists e evs t,
    let window :=
      mkControl (mkDescriptor WindowControl frmLogin 2) None (Some e) in
    self1 = set_app_window self window
    /\ polling W (mkDescriptor WindowControl frmLogin 2) true
         (clock s + 30) (clock s) evs t (Stopped (Some e))
    /\ s1 = mkState (t + action_cost W + action_cost W + action_cost W
                      + action_cost W)%Q
              (trace s ++ EvTime (clock s) :: evs
                 ++ [EvSetFocus window;
                     EvSendKeys
                       (child_control window EditControl
                          [("AutomationId", "textBoxLogin")])
                       (username self) (Some 0%Q);
                     EvSendKeys
                       (child_control window EditControl
                          [("AutomationId", "textBoxPassword")])
                       (password self) (Some 0%Q);
                     EvSendKeys
                       (child_control window EditControl
                          [("AutomationId", "textBoxPassword")])
                       "{ENTER}" (Some 0%Q)])%list.
Proof.
  unfold login_submit. intros E.
  apply bind_Return_inv in E. destruct E as (w & s0 & Hwait & E).
  destruct (wait_for_control_run _ _ _ _ _ _ _ _ _ Hwait)
    as (evs & fin & Hp & Ht & Hr & _).
  cbn [opt_arg] in Hp, Hr.
  destruct fin as [resolved| |]; try discriminate.
  pose proof (polling_stopped _ _ _ _ _ _ _ _ Hp) as Hsome.
  destruct resolved as [e|]; [|discriminate].
  injection Hr as ->.
  unfold the_app_window in E. cbn [app_window set_app_window] in E.
  cbv beta iota delta [bind ret SetFocus SendKeys] in E.
  injection E as <- <-.
  exists e, evs, (clock s0). cbn zeta.
  split; [reflexivity|]. split; [exact Hp|].
  unfold emit. cbn [clock trace username password set_app_window].
  rewrite Ht. f_equal. rewrite <- !app_assoc. reflexivity.
Qed.

(** X6. When [login] returns, the login window was found within 30 units;
    it was focused, the user name was typed into [textBoxLogin], then the
    password and the Enter key into [textBoxPassword], in this order and
    with nothing in between; after that the client window was found within
    60 units and is the window of the object returned, whose other fields
    are those of the object [login] was called on. *)
Theorem login_success fuel self W s self' s' :
  login fuel self W s = (Return self', s') ->
  exists e1 e2 evs1 evs2 t1 t2,
    let login_window :=
      mkControl (mkDescriptor WindowControl frmLogin 2) None (Some e1) in
    let client_window :=
      mkControl (mkDescriptor WindowControl frmClient 2) None (Some e2) in
    self' = mkSolteqSundApp (app_path self) (username self) (password self)
              (ssn self) (connection_string self) (Some client_window)
    /\ polling W (mkDescriptor WindowControl frmLogin 2) true
         (clock s + 30) (clock s) evs1 t1 (Stopped (Some e1))
    /\ polling W (mkDescriptor WindowControl frmClient 2) true
         (t2 + 60) t2 evs2 (clock s') (Stopped (Some e2))
    /\ trace s'
       = (trace s ++ EvTime (clock s) :: evs1
            ++ [EvSetFocus login_window;
                EvSendKeys
                  (child_control login_window EditControl
                     [("AutomationId", "textBoxLogin")])
                  (username self) (Some 0%Q);
                EvSendKeys
                  (child_control login_window EditControl
                     [("AutomationId", "textBoxPassword")])
                  (password self) (Some 0%Q);
                EvSendKeys
                  (child_control login_window EditControl
                     [("AutomationId", "textBoxPassword")])
                  "{ENTER}" (Some 0%Q)]
            ++ EvTime t2 :: evs2)%list.
Proof.
  rewrite login_split. intros E.
  apply bind_Return_inv in E. destruct E as (self1 & s1 & Hsubmit & E).
  apply bind_Return_inv in E. destruct E as (w & s2 & Hwait & E).
  injection E as <- <-.
  destruct (login_submit_run _ _ _ _ _ _ Hsubmit)
    as (e1 & evs1 & t1 & -> & Hp1 & ->).
  destruct (wait_for_control_run _ _ _ _ _ _ _ _ _ Hwait)
    as (evs2 & fin & Hp2 & Ht2 & Hr & _).
  cbn [opt_arg clock trace] in Hp2, Hr, Ht2.
  destruct fin as [resolved| |]; try discriminate.
  pose proof (polling_stopped _ _ _ _ _ _ _ _ Hp2) as Hsome.
  destruct resolved as [e2|]; [|discriminate].
  injection Hr as ->.
  eexists e1, e2, evs1, evs2, t1, _.
  split; [reflexivity|]. split; [exact Hp1|]. split; [exact Hp2|].
  rewrite Ht2. repeat (rewrite <- app_assoc; cbn [app]). reflexivity.
Qed.

Lemma login_success_witness :
  exists self' s',
    login 5 (init "C:\Solteq\Sund.exe" "robot" "secret" "010101-0101"
               "DSN=sund")
      (scripted_world 0 100 []) at_start
    = (Return self', s')
    /\ app_window self'
       = Some (mkControl (mkDescriptor WindowControl frmClient 2) None
                 (Some 1))
    /\ ssn self' = "010101-0101".
Proof.
  pose (run := login 5 (init "C:\Solteq\Sund.exe" "robot" "secret"
                          "010101-0101" "DSN=sund")
                 (scripted_world 0 100 []) at_start).
  assert (E : run = (Return (logged_in_app "010101-0101"), snd run))
    by reflexivity.
  destruct (login_success _ _ _ _ _ _ E)
    as (e1 & e2 & evs1 & evs2 & t1 & t2 & Hself & _).
  exists (logged_in_app "010101-0101"), (snd run).
  split; [exact E|]. split; reflexivity.
Defined.

(** X7. After [login] has submitted the credentials, if the client window
    resolves at no moment of the 60 units that follow, [login] raises the
    [TimeoutError] naming [frmClient], not before those 60 units have
    passed, and gives the application no further input. *)
Theorem login_client_window_missing fuel self W s self1 s1 :
  causal W ->
  polls_needed 60 <= fuel ->
  login_submit fuel self W s = (Return self1, s1) ->
  (forall t, (clock s1 <= t)%Q -> (t < clock s1 + 60)%Q ->
             gui W t (mkDescriptor WindowControl frmClient 2) = None) ->
  exists s2 evs,
    login fuel self W s
    = (Raise (TimeoutError
         "Control with parameters {'AutomationId': 'frmClient'} was not found within the timeout period."),
       s2)
    /\ trace s2 = (trace s1 ++ evs)%list
    /\ existsb is_input evs = false
    /\ (clock s1 + 60 <= clock s2)%Q.
Proof.
  intros Hc Hfuel Hsubmit Hnever.
  destruct (wait_for_control_never_found fuel WindowControl frmClient
              (Some 2%Z) (Some 60%Q) W s1 Hc Hfuel Hnever)
    as (s2 & evs & Hrun & Ht & Hin & _ & Hclock).
  exists s2, evs. split; [|auto].
  rewrite login_split, (bind_Return _ _ _ _ _ _ Hsubmit).
  apply bind_Raise. exact Hrun.
Qed.

Lemma login_client_window_missing_witness :
  exists s2 evs,
    login 121 (init "C:\Solteq\Sund.exe" "robot" "secret" "010101-0101"
                 "DSN=sund")
      (world_without "frmClient" (Rows [] [])) at_start
    = (Raise (TimeoutError
         "Control with parameters {'AutomationId': 'frmClient'} was not found within the timeout period."),
       s2)
    /\ trace s2
       = (trace (snd (login_submit 121
                        (init "C:\Solteq\Sund.exe" "robot" "secret"
                           "010101-0101" "DSN=sund")
                        (world_without "frmClient" (Rows [] [])) at_start))
            ++ evs)%list
    /\ existsb is_input evs = false
    /\ (0 + 60 <= clock s2)%Q.
Proof.
  pose (self := init "C:\Solteq\Sund.exe" "robot" "secret" "010101-0101"
                  "DSN=sund").
  pose (W := world_without "frmClient" (Rows [] [])).
  destruct (login_client_window_missing 121 self W at_start
              (set_app_window self
                 (mkControl (mkDescriptor WindowControl frmLogin 2) None
                    (Some 1)))
              (snd (login_submit 121 self W at_start)))
    as (s2 & evs & Hrun & Ht & Hin & Hclock).
  - unfold causal; cbn; lra.
  - vm_compute; lia.
  - reflexivity.
  - intros t _ _. reflexivity.
  - exists s2, evs. split; [exact Hrun|]. split; [exact Ht|].
    split; [exact Hin | exact Hclock].
Defined.

(** ** Exceptions of straight-line code *)

Section Raises.

Context {W : World} {E : Exn -> Prop}.

Lemma raises_bind {A B} (m : M A) (k : A -> M B) :
  raises W E m -> (forall a, raises W E (k a)) -> raises W E (bind m k).
Proof.
  intros Hm Hk s e s'. unfold bind.
  destruct (m W s) as [[a|e0|] s1] eqn:Em.
  - apply Hk.
  - intros [= <- <-]. eapply Hm; eauto.
  - discriminate.
Qed.

Lemma raises_bind_ret {A B} (a : A) (k : A -> M B) :
  raises W E (k a) -> raises W E (bind (ret a) k).
Proof. intros H s e s' Ek. exact (H s e s' Ek). Qed.

Lemma raises_never {A} (m : M A) :
  (forall s, exists a s', m W s = (Return a, s')) -> raises W E m.
Proof.
  intros Hm s e s' Ee. destruct (Hm s) as (a & s1 & Ea).
  rewrite Ea in Ee. discriminate.
Qed.

Lemma raises_ret {A} (a : A) : raises W E (ret a).
Proof. apply raises_never. intros s. now exists a, s. Qed.

Lemma raises_raise {A} e : E e -> raises W E (@raise A e).
Proof. intros He s e' s' [= <- _]. exact He. Qed.

Lemma raises_SendKeys c text wt : raises W E (SendKeys c text wt).
Proof. apply raises_never. intros s. eexists _, _. reflexivity. Qed.

Lemma raises_SetFocus c : raises W E (SetFocus c).
Proof. apply raises_never. intros s. eexists _, _. reflexivity. Qed.

Lemma raises_Click c mv wt : raises W E (Click c mv wt).
Proof. apply raises_never. intros s. eexists _, _. reflexivity. Qed.

Lemma raises_DoubleClick c mv wt : raises W E (DoubleClick c mv wt).
Proof. apply raises_never. intros s. eexists _, _. reflexivity. Qed.

Lemma raises_wait_for_control fuel ct sp search_depth timeout :
  E (TimeoutError (not_found_message sp)) ->
  raises W E (wait_for_control fuel ct sp search_depth timeout).
Proof.
  intros He s e s' Ee.
  destruct (wait_for_control_run _ _ _ _ _ _ _ _ _ Ee)
    as (evs & fin & _ & _ & Hr & _).
  destruct fin; try discriminate. now injection Hr as ->.
Qed.

Lemma raises_wait_for_control_to_disappear fuel ct sp search_depth timeout :
  E (TimeoutError (not_gone_message sp)) ->
  raises W E (wait_for_control_to_disappear fuel ct sp search_depth timeout).
Proof.
  intros He s e s' Ee.
  destruct (wait_for_control_to_disappear_run _ _ _ _ _ _ _ _ _ Ee)
    as (evs & fin & _ & _ & Hr & _).
  destruct fin; try discriminate. now injection Hr as ->.
Qed.

Lemma raises_is_journal_created self :
  (forall msg, E (DatabaseError msg)) ->
  raises W E (_is_journal_created self).
Proof.
  intros He s e s' Ee. rewrite _is_journal_created_run in Ee.
  destruct (database W _ _ _); [discriminate|]. now injection Ee as <- _.
Qed.

End Raises.

Ltac raises_seq :=
  repeat first
    [ apply raises_bind_ret
    | apply raises_bind;
      [ first [ apply raises_SendKeys | apply raises_SetFocus
              | apply raises_Click | apply raises_DoubleClick
              | apply raises_wait_for_control
              | apply raises_wait_for_control_to_disappear
              | apply raises_is_journal_created ]
      | intros ? ] ];
  try first [ apply raises_ret | apply raises_raise
            | apply raises_wait_for_control | apply raises_Click ].

(** ** The steps and the session window *)

(** X8. [open_patient] and [create_journal] need the window that [login]
    sets: on an object whose [app_window] is [None], as [__init__] leaves
    it, each raises [AttributeError] at its first statement and calls
    nothing; on an object that has a window neither ever raises
    [AttributeError]. *)
Theorem steps_need_a_window fuel self W s :
  app_window (init (app_path self) (username self) (password self)
                (ssn self) (connection_string self)) = None
  /\ (app_window self = None ->
      open_patient fuel self W s
      = (Raise (AttributeError
                  "'NoneType' object has no attribute 'SendKeys'"), s)
      /\ create_journal fuel self W s
         = (Raise (AttributeError
                     "'NoneType' object has no attribute 'SendKeys'"), s))
  /\ (forall w e s',
         app_window self = Some w ->
         open_patient fuel self W s = (Raise e, s')
         \/ create_journal fuel self W s = (Raise e, s') ->
         is_attribute_error e = false).
Proof.
  split; [reflexivity|]. split.
  - intros Hnone. unfold open_patient, create_journal, the_app_window.
    rewrite Hnone. split; reflexivity.
  - intros w e s' Hwin [Hrun|Hrun]; revert Hrun; generalize s e s'.
    + change (raises W (fun e => is_attribute_error e = false)
                (open_patient fuel self)).
      unfold open_patient, the_app_window. rewrite Hwin.
      raises_seq; reflexivity.
    + change (raises W (fun e => is_attribute_error e = false)
                (create_journal fuel self)).
      unfold create_journal, the_app_window. rewrite Hwin.
      raises_seq; try reflexivity.
      destruct (negb _); [now apply raises_raise | apply raises_ret].
Qed.

(** ** [open_patient] beyond the tab *)

Lemma open_patient_search_no_double_click fuel self W :
  emits W (fun ev => is_double_click ev = false)
    (open_patient_search fuel self).
Proof.
  unfold open_patient_search.
  repeat (apply emits_bind;
          [first [apply emits_the_app_window | emits_step] | intros ?]);
    try emits_step; side.
Qed.

(** X9. [open_patient] double-clicks only what it found.  In every run,
    whatever its outcome, a double click is made at most on the control
    that the wait for the list item named by the identifier (hyphens kept,
    search depth 12) returned, right after the check that found it; and
    when no moment of the 30 units after the identifier was typed resolves
    that list item, [open_patient] raises the [TimeoutError] naming the
    identifier and has made no double click. *)
Theorem open_patient_double_click_guard fuel self W s r s' :
  open_patient fuel self W s = (r, s') ->
  (exists evs,
      trace s' = (trace s ++ evs)%list
      /\ (forall c mv wt,
             In (EvDoubleClick c mv wt) evs ->
             exists before after e,
               c = mkControl (patient_list_item self) None (Some e)
               /\ mv = false /\ wt = 0%Q
               /\ evs = (before
                           ++ EvExists (patient_list_item self) 0 0 true
                           :: EvDoubleClick c mv wt :: after)%list
               /\ existsb is_double_click before = false
               /\ existsb is_double_click after = false))
  /\ (forall s1,
         causal W -> polls_needed 30 <= fuel ->
         open_patient_search fuel self W s = (Return tt, s1) ->
         (forall t, (clock s1 <= t)%Q -> (t < clock s1 + 30)%Q ->
                    gui W t (patient_list_item self) = None) ->
         r = Raise (TimeoutError
                      ("Control with parameters "
                         ++ Py.repr_dict [("Name", ssn self)]
                         ++ " was not found within the timeout period."))
         /\ exists evs, trace s' = (trace s ++ evs)%list
                        /\ existsb is_double_click evs = false).
Proof.
  rewrite open_patient_split. intros E. split.
  - unfold bind at 1 in E.
    destruct (open_patient_search fuel self W s) as [[[]|e0|] s1] eqn:Esearch;
      destruct (open_patient_search_no_double_click _ _ _ _ _ _ Esearch)
        as (evs0 & Ht0 & Hall0).
    2,3: injection E as <- <-; exists evs0; split; [exact Ht0|];
         intros c mv wt Hin; rewrite Forall_forall in Hall0;
         now specialize (Hall0 _ Hin).
    unfold bind at 1 in E.
    destruct (wait_for_control fuel ListItemControl [("Name", ssn self)]
                (Some 12%Z) None W s1) as [[item|e1|] s2] eqn:Ewait;
      destruct (wait_for_control_run _ _ _ _ _ _ _ _ _ Ewait)
        as (evs1 & fin & Hp1 & Ht1 & Hr1 & _);
      assert (Hq1 : Forall (fun ev => is_double_click ev = false) evs1)
        by (eapply polling_events; eauto).
    2,3: injection E as <- <-;
         exists (evs0 ++ EvTime (clock s1) :: evs1)%list;
         split; [rewrite Ht1, Ht0, <- app_assoc; reflexivity|];
         intros c mv wt Hin; apply in_app_or in Hin;
         rewrite Forall_forall in Hall0, Hq1;
         destruct Hin as [Hin|[Hin|Hin]];
         [now specialize (Hall0 _ Hin) | discriminate Hin
         | now specialize (Hq1 _ Hin)].
    destruct fin as [resolved| |]; try discriminate.
    pose proof (polling_stopped _ _ _ _ _ _ _ _ Hp1) as Hsome.
    destruct resolved as [e|]; [|discriminate]. injection Hr1 as ->.
    destruct (polling_stop _ _ _ _ _ _ _ _ Hp1)
      as (_ & (before1 & -> & _) & _).
    unfold bind at 1, DoubleClick at 1 in E.
    destruct (emits_wait_for_control (W := W)
                (P := fun ev => is_double_click ev = false) fuel TabItemControl
                [("Name", Py.replace (ssn self) "-" EmptyString)] (Some 4%Z)
                None (fun _ => eq_refl) (fun _ => eq_refl) eq_refl
                (emit (EvDoubleClick
                         (mkControl (patient_list_item self) None (Some e))
                         false 0%Q) (action_cost W) s2)
                (fst (wait_for_control fuel TabItemControl
                        [("Name", Py.replace (ssn self) "-" EmptyString)]
                        (Some 4%Z) None W
                        (emit (EvDoubleClick
                                 (mkControl (patient_list_item self) None
                                    (Some e)) false 0%Q) (action_cost W) s2)))
                (snd (wait_for_control fuel TabItemControl
                        [("Name", Py.replace (ssn self) "-" EmptyString)]
                        (Some 4%Z) None W
                        (emit (EvDoubleClick
                                 (mkControl (patient_list_item self) None
                                    (Some e)) false 0%Q) (action_cost W) s2)))
                (surjective_pairing _))
      as (evs3 & Ht3 & Hall3).
    assert (Hs' : trace s'
                  = (trace s
                       ++ (evs0 ++ EvTime (clock s1) :: before1)
                       ++ EvExists (patient_list_item self) 0 0 true
                       :: EvDoubleClick
                            (mkControl (patient_list_item self) None (Some e))
                            false 0%Q :: evs3)%list).
    { unfold bind in E.
      destruct (wait_for_control fuel TabItemControl _ (Some 4%Z) None W _)
        as [[c3|e3|] s3]; cbn [snd] in Ht3; injection E as <- <-;
        rewrite Ht3; cbn [emit trace]; rewrite Ht1, Ht0;
        repeat (rewrite <- app_assoc; cbn [app]); reflexivity. }
    eexists. split; [exact Hs'|].
    assert (Hb : existsb is_double_click
                   (evs0 ++ EvTime (clock s1) :: before1) = false).
    { rewrite existsb_app. cbn [existsb is_double_click orb].
      rewrite (existsb_false_Forall _ _ Hall0). cbn [orb].
      apply existsb_false_Forall.
      apply Forall_app in Hq1. tauto. }
    intros c mv wt Hin. apply in_app_or in Hin.
    destruct Hin as [Hin|[Hin|[Hin|Hin]]].
    + exfalso. rewrite existsb_app in Hb. apply orb_false_iff in Hb.
      assert (Hx : existsb is_double_click
                     (evs0 ++ EvTime (clock s1) :: before1) = true).
      { apply existsb_exists. eexists. split; [exact Hin | reflexivity]. }
      rewrite existsb_app in Hx. destruct Hb as (Hb1 & Hb2).
      rewrite Hb1, Hb2 in Hx. discriminate.
    + discriminate Hin.
    + injection Hin as <- <- <-.
      exists (evs0 ++ EvTime (clock s1) :: before1)%list, evs3, e.
      repeat split; auto. now apply existsb_false_Forall.
    + exfalso. rewrite Forall_forall in Hall3.
      now specialize (Hall3 _ Hin).
  - intros s1 Hc Hfuel Hsearch Hnever.
    destruct (wait_for_control_never_found fuel ListItemControl
                [("Name", ssn self)] (Some 12%Z) None W s1 Hc Hfuel Hnever)
      as (s2 & evs & Hrun & Ht & _ & _ & _).
    rewrite (bind_Return _ _ _ _ _ _ Hsearch) in E.
    rewrite (bind_Raise _ _ _ _ _ _ Hrun) in E. injection E as <- <-.
    split; [reflexivity|].
    destruct (open_patient_search_no_double_click _ _ _ _ _ _ Hsearch)
      as (evs0 & Ht0 & Hall0).
    destruct (wait_for_control_run _ _ _ _ _ _ _ _ _ Hrun)
      as (evs1 & fin & Hp1 & Ht1 & _).
    exists (evs0 ++ EvTime (clock s1) :: evs1)%list.
    split; [rewrite Ht1, Ht0, <- app_assoc; reflexivity|].
    rewrite existsb_app. cbn [existsb is_double_click orb].
    rewrite (existsb_false_Forall _ _ Hall0). cbn [orb].
    apply existsb_false_Forall. eapply polling_events; eauto.
Qed.

Lemma open_patient_double_click_guard_witness :
  exists evs,
    trace (snd (open_patient 5 (logged_in_app "010101-0101")
                  (scripted_world 0 100 []) at_start))
    = ([] ++ evs)%list
    /\ forall c mv wt, In (EvDoubleClick c mv wt) evs -> mv = false.
Proof.
  pose (run := open_patient 5 (logged_in_app "010101-0101")
                 (scripted_world 0 100 []) at_start).
  destruct (open_patient_double_click_guard 5 (logged_in_app "010101-0101")
              (scripted_world 0 100 []) at_start (fst run) (snd run))
    as ((evs & Ht & Hclick) & _).
  - reflexivity.
  - exists evs. split; [exact Ht|].
    intros c mv wt Hin.
    destruct (Hclick c mv wt Hin) as (_ & _ & _ & _ & Hmv & _). exact Hmv.
Defined.

(** X10. [open_patient] types the identifier only into the cpr search box,
    and only once the box was found.  On an object whose window is [w], in
    every run: keys go either to [w] (the chord that opens the search) or
    to the box [TextBoxChildCPR] searched from [w], which receives the
    identifier as it is and then Enter; nothing else is focused.  When no
    moment of the 30 units after the chord resolves the box,
    [open_patient] raises the [TimeoutError] naming it and the chord is
    the only input it has given. *)
Theorem open_patient_types_into_found_box fuel self W s w r s' :
  app_window self = Some w ->
  open_patient fuel self W s = (r, s') ->
  let box :=
    child_control w EditControl [("AutomationId", "TextBoxChildCPR")] in
  exists evs,
    trace s' = (trace s ++ evs)%list
    /\ Forall (fun ev =>
                 match ev with
                 | EvSendKeys c text wt =>
                     (c = w /\ text = "{Ctrl}o" /\ wt = Some 0%Q)
                     \/ (c = box /\ (text = ssn self \/ text = "{ENTER}")
                         /\ wt = None)
                 | EvSetFocus c => c = box
                 | _ => True
                 end) evs
    /\ (causal W -> polls_needed 30 <= fuel ->
        (forall t, (clock s + action_cost W <= t)%Q ->
                   (t < clock s + action_cost W + 30)%Q ->
                   gui W t (mkDescriptor EditControl
                              [("AutomationId", "TextBoxChildCPR")] 8)
                   = None) ->
        r = Raise (TimeoutError
                     "Control with parameters {'AutomationId': 'TextBoxChildCPR'} was not found within the timeout period.")
        /\ filter is_input evs = [EvSendKeys w "{Ctrl}o" (Some 0%Q)]).
Proof.
  intros Hwin E box.
  assert (Hemits :
    emits W (fun ev =>
               match ev with
               | EvSendKeys c text wt =>
                   (c = w /\ text = "{Ctrl}o" /\ wt = Some 0%Q)
                   \/ (c = box /\ (text = ssn self \/ text = "{ENTER}")
                       /\ wt = None)
               | EvSetFocus c => c = box
               | _ => True
               end) (open_patient fuel self)).
  { unfold open_patient, the_app_window. rewrite Hwin.
    emits_seq; cbn; auto. }
  destruct (Hemits _ _ _ E) as (evs & Ht & Hall).
  exists evs. split; [exact Ht|]. split; [exact Hall|].
  intros Hc Hfuel Hnever.
  unfold open_patient, the_app_window in E. rewrite Hwin in E.
  unfold bind at 1, ret at 1, bind at 1, SendKeys at 1 in E.
  destruct (wait_for_control_never_found fuel EditControl
              [("AutomationId", "TextBoxChildCPR")] (Some 8%Z) None W
              (emit (EvSendKeys w "{Ctrl}o" (Some 0%Q)) (action_cost W) s)
              Hc Hfuel Hnever)
    as (s2 & evs1 & Hrun & Ht1 & Hin & _ & _).
  rewrite (bind_Raise _ _ _ _ _ _ Hrun) in E. injection E as <- <-.
  split; [reflexivity|].
  cbn [emit trace] in Ht1. rewrite Ht1, <- app_assoc in Ht.
  apply app_inv_head in Ht. subst evs. cbn [app filter is_input].
  f_equal. clear - Hin.
  induction evs1 as [|ev evs1 IH]; [reflexivity|].
  cbn in Hin. apply orb_false_iff in Hin. destruct Hin as (Hev & Hin).
  cbn [filter]. rewrite Hev. auto.
Qed.

Lemma open_patient_types_into_found_box_witness :
  exists evs,
    trace (snd (open_patient 61 (logged_in_app "010101-0101")
                  (world_without "TextBoxChildCPR" (Rows [] [])) at_start))
    = ([] ++ evs)%list
    /\ filter is_input evs
       = [EvSendKeys
            (mkControl (mkDescriptor WindowControl frmClient 2) None (Some 1))
            "{Ctrl}o" (Some 0%Q)].
Proof.
  pose (W := world_without "TextBoxChildCPR" (Rows [] [])).
  pose (run := open_patient 61 (logged_in_app "010101-0101") W at_start).
  destruct (open_patient_types_into_found_box 61
              (logged_in_app "010101-0101") W at_start
              (mkControl (mkDescriptor WindowControl frmClient 2) None
                 (Some 1))
              (fst run) (snd run))
    as (evs & Ht & _ & Hfail).
  - reflexivity.
  - apply surjective_pairing.
  - exists evs. split; [exact Ht|]. apply Hfail.
    + unfold causal; cbn; lra.
    + vm_compute; lia.
    + intros t _ _. reflexivity.
Defined.

(** ** [create_journal] beyond its two failures *)



(** X12. When the print dialog resolves at no moment of the 30 units after
    the chord that asks for it, [create_journal] raises the [TimeoutError]
    for its appearance; the chord is the only input given, so nothing was
    clicked, and the database was not contacted. *)
Theorem create_journal_dialog_missing fuel self W s w :
  causal W ->
  polls_needed 30 <= fuel ->
  app_window self = Some w ->
  (forall t, (clock s + action_cost W <= t)%Q ->
             (t < clock s + action_cost W + 30)%Q ->
             gui W t (mkDescriptor WindowControl frmViewBase 2) = None) ->
  exists s' evs,
    create_journal fuel self W s
    = (Raise (TimeoutError
         "Control with parameters {'AutomationId': 'frmViewBase'} was not found within the timeout period."),
       s')
    /\ trace s' = (trace s ++ evs)%list
    /\ filter is_input evs = [EvSendKeys w "{Ctrl}{Shift}p" (Some 0%Q)]
    /\ existsb is_db_call evs = false.
Proof.
  intros Hc Hfuel Hwin Hnever.
  destruct (wait_for_control_never_found fuel WindowControl frmViewBase
              (Some 2%Z) None W
              (emit (EvSendKeys w "{Ctrl}{Shift}p" (Some 0%Q))
                 (action_cost W) s)
              Hc Hfuel Hnever)
    as (s2 & evs1 & Hrun & Ht1 & Hin & Hdb & _).
  exists s2, (EvSendKeys w "{Ctrl}{Shift}p" (Some 0%Q) :: evs1).
  split; [|split; [|split]].
  - unfold create_journal, the_app_window. rewrite Hwin.
    unfold bind at 1, ret at 1, bind at 1, SendKeys at 1.
    apply bind_Raise. exact Hrun.
  - rewrite Ht1. cbn [emit trace]. now rewrite <- app_assoc.
  - cbn [filter is_input]. f_equal. clear - Hin.
    induction evs1 as [|ev evs1 IH]; [reflexivity|].
    cbn in Hin. apply orb_false_iff in Hin. destruct Hin as (Hev & Hin).
    cbn [filter]. rewrite Hev. auto.
  - cbn [existsb is_db_call orb]. exact Hdb.
Qed.

Lemma create_journal_dialog_missing_witness :
  exists s' evs,
    create_journal 61 (logged_in_app "010101-0101")
      (world_without "frmViewBase" (Rows [] [])) at_start
    = (Raise (TimeoutError
         "Control with parameters {'AutomationId': 'frmViewBase'} was not found within the timeout period."),
       s')
    /\ trace s' = ([] ++ evs)%list
    /\ filter is_input evs
       = [EvSendKeys
            (mkControl (mkDescriptor WindowControl frmClient 2) None (Some 1))
            "{Ctrl}{Shift}p" (Some 0%Q)]
    /\ existsb is_db_call evs = false.
Proof.
  apply (create_journal_dialog_missing 61 (logged_in_app "010101-0101")
           (world_without "frmViewBase" (Rows [] [])) at_start).
  - unfold causal; cbn; lra.
  - vm_compute; lia.
  - reflexivity.
  - intros t _ _. reflexivity.
Defined.




(** ** [process] beyond the identifier *)

Lemma lookup_Return {A} (r : Exn + A) W s a s' :
  lookup r W s = (Return a, s') -> r = inr a.
Proof. destruct r; [discriminate|]. now intros [= <- _]. Qed.

Lemma emits_steps_without fuel self W (p : Event -> bool) :
  (forall cs, p (EvConnect cs true) = false) ->
  (forall sql, p (EvExecute sql []) = false) ->
  (forall c text wt, p (EvSendKeys c text wt) = false) ->
  (forall c, p (EvSetFocus c) = false) ->
  (forall c mv wt, p (EvClick c mv wt) = false) ->
  (forall c mv wt, p (EvDoubleClick c mv wt) = false) ->
  (forall t, p (EvTime t) = false) ->
  (forall d m i b, p (EvExists d m i b) = false) ->
  (forall x, p (EvSleep x) = false) ->
  emits W (fun ev => p ev = false)
    (bind (login fuel self)
       (fun app_obj =>
          bind (open_patient fuel app_obj)
            (fun _ => create_journal fuel app_obj))).
Proof.
  intros Hconnect Hexecute Hkeys Hfocus Hclick Hdouble Htime Hprobe Hsleep.
  assert (Hwait : forall ct sp d t,
             emits W (fun ev => p ev = false) (wait_for_control fuel ct sp d t))
    by (intros; apply emits_wait_for_control; auto).
  apply emits_bind; [|intros app_obj; apply emits_bind; [|intros _]].
  - unfold login.
    repeat (apply emits_bind;
            [first [apply emits_the_app_window | apply Hwait
                   | apply emits_SetFocus | apply emits_SendKeys] | intros ?]);
      auto. apply emits_ret.
  - unfold open_patient.
    repeat (apply emits_bind;
            [first [apply emits_the_app_window | apply Hwait
                   | apply emits_SetFocus | apply emits_SendKeys
                   | apply emits_DoubleClick] | intros ?]);
      auto. apply emits_ret.
  - unfold create_journal.
    repeat (apply emits_bind;
            [first [apply emits_the_app_window | apply Hwait
                   | apply emits_SendKeys | apply emits_Click
                   | apply emits_wait_for_control_to_disappear
                   | apply emits_is_journal_created] | intros ?]);
      auto.
    destruct (negb _); [apply emits_raise | apply emits_ret].
Qed.

(** X14. [process] reads its settings before it touches anything.  When
    the credential or the connection string cannot be had, [process]
    raises what the orchestrator raised and has done nothing but write its
    log line: the application is not started.  Otherwise the log line and
    the start of the application at [APP_PATH] are its first two calls,
    and the run contains no other start and no other log line. *)
Theorem process_reads_settings_first fuel config oc W s :
  match get_credential oc "solteq_sund",
        get_constant oc "solteq_sund_db_connstr" with
  | inl e, _ | inr _, inl e =>
      process fuel config oc W s
      = (Raise e,
         mkState (clock s) (trace s ++ [EvLogTrace "Running process."])%list)
  | inr _, inr _ =>
      exists rest,
        trace (snd (process fuel config oc W s))
        = (trace s
             ++ EvLogTrace "Running process."
             :: EvStartFile (APP_PATH config) :: rest)%list
        /\ existsb is_launch rest = false
        /\ existsb is_log rest = false
  end.
Proof.
  destruct (get_credential oc "solteq_sund") as [e|cred] eqn:Hcred.
  { unfold process. rewrite Hcred. reflexivity. }
  destruct (get_constant oc "solteq_sund_db_connstr") as [e|db] eqn:Hdb.
  { unfold process. rewrite Hcred, Hdb. reflexivity. }
  rewrite (process_run _ _ _ _ _ _ _ Hcred Hdb).
  set (self := init (APP_PATH config) (cred_username cred)
                 (cred_password cred) EmptyString db).
  unfold process_steps, start_application.
  unfold bind at 1, os_startfile at 1.
  destruct (emits_steps_without fuel self W
              (fun ev => is_launch ev || is_log ev)
              (fun _ => eq_refl) (fun _ => eq_refl)
              (fun _ _ _ => eq_refl) (fun _ => eq_refl)
              (fun _ _ _ => eq_refl) (fun _ _ _ => eq_refl)
              (fun _ => eq_refl) (fun _ _ _ _ => eq_refl) (fun _ => eq_refl)
              (log (EvStartFile (app_path self))
                 (log (EvLogTrace "Running process.") s))
              _ _ (surjective_pairing _)) as (evs & Ht & Hall).
  exists evs. split; [|split].
  - rewrite Ht. cbn [log trace].
    repeat (rewrite <- app_assoc; cbn [app]). reflexivity.
  - apply existsb_false_Forall. eapply Forall_impl; [|exact Hall].
    cbn beta. intros ev Hev. now apply orb_false_iff in Hev.
  - apply existsb_false_Forall. eapply Forall_impl; [|exact Hall].
    cbn beta. intros ev Hev. now apply orb_false_iff in Hev.
Qed.

Lemma emits_journal_check W P self :
  P (EvConnect (connection_string self) true) ->
  (forall filename, P (EvExecute (journal_query (ssn self) filename) [])) ->
  emits W P (_is_journal_created self).
Proof.
  intros Hc He s r s' E. rewrite _is_journal_created_run in E.
  injection E as _ <-. eexists. split; [reflexivity|].
  repeat constructor; [apply Hc | apply He].
Qed.

(** X15. Every call of every run of [process] uses the settings it was
    given: the application started is the one at [APP_PATH]; what is typed
    into [textBoxLogin] is the user name of the credential "solteq_sund",
    what is typed into [textBoxPassword] is its password and then Enter;
    and the database is opened, with autocommit, under the connection
    string the orchestrator holds as "solteq_sund_db_connstr". *)
Theorem process_passes_settings fuel config oc W s :
  exists evs,
    trace (snd (process fuel config oc W s)) = (trace s ++ evs)%list
    /\ Forall (uses_settings config oc) evs.
Proof.
  destruct (process fuel config oc W s) as [r s'] eqn:E. cbn [snd].
  revert E. generalize s r s'.
  change (emits W (uses_settings config oc) (process fuel config oc)).
  unfold process.
  apply emits_bind; [now emits_step | intros _].
  apply (emits_bind_post W _
           (fun c => get_credential oc "solteq_sund" = inr c));
    [emits_step | intros ? ? ?; apply lookup_Return | intros c1 Hc1].
  apply (emits_bind_post W _
           (fun c => get_credential oc "solteq_sund" = inr c));
    [emits_step | intros ? ? ?; apply lookup_Return | intros c2 Hc2].
  apply (emits_bind_post W _
           (fun db => get_constant oc "solteq_sund_db_connstr" = inr db));
    [emits_step | intros ? ? ?; apply lookup_Return | intros db Hdb].
  apply emits_bind; [now emits_step | intros _].
  apply (emits_bind_post W _
           (fun self =>
              connection_string self = db
              /\ exists e,
                  app_window self
                  = Some (mkControl
                            (mkDescriptor WindowControl
                               [("AutomationId", "frmClient")] 2)
                            None (Some e)))).
  - unfold login.
    apply emits_bind; [emits_step; side | intros w].
    unfold the_app_window. cbn [app_window set_app_window].
    emits_seq; cbn; try exact I; try (intros; exact I).
    + split; [intros _; exists c1; auto | discriminate].
    + split; [discriminate | intros _; exists c2; auto].
    + split; [discriminate | intros _; exists c2; auto].
  - intros s0 a s1 Hlogin.
    rewrite (login_keeps_connection_string _ _ _ _ _ _ Hlogin).
    split; [reflexivity|]. now destruct (login_result _ _ _ _ _ _ Hlogin).
  - intros self (Hcs & e & Hwin).
    apply emits_bind.
    + unfold open_patient, the_app_window. rewrite Hwin.
      emits_seq; cbn; try exact I; try (intros; exact I).
      all: split; intros H; discriminate H.
    + intros _. unfold create_journal, the_app_window. rewrite Hwin.
      emits_seq; cbn; try exact I; try (intros; exact I).
      * split; intros H; discriminate H.
      * apply emits_bind.
        -- apply emits_journal_check; cbn; [|auto].
           rewrite Hcs. auto.
        -- intros created. destruct (negb created); emits_step.
Qed.

(** ** The identifier in the query *)

Lemma append_length a b :
  String.length (a ++ b) = String.length a + String.length b.
Proof. induction a as [|c a IH]; cbn; [reflexivity | now rewrite IH]. Qed.

Lemma append_inv_tail a b r : a ++ r = b ++ r -> a = b.
Proof.
  revert b. induction a as [|c a IH]; intros [|c' b] H.
  - reflexivity.
  - exfalso. apply (f_equal String.length) in H.
    change ((String c' b) ++ r) with (String c' (b ++ r)) in H.
    cbn [String.length append] in H. rewrite append_length in H. lia.
  - exfalso. apply (f_equal String.length) in H.
    change ((String c a) ++ r) with (String c (a ++ r)) in H.
    cbn [String.length append] in H. rewrite append_length in H. lia.
  - change (String c (a ++ r) = String c' (b ++ r)) in H.
    injection H as -> H. f_equal. now apply IH.
Qed.

(** X16. The database check knows the patient only by the identifier
    without its hyphens: for one file name, two identifiers give the same
    query text exactly when they agree once their hyphens are removed.  So
    "010101-0101" and "0101010101" are checked by the same query, and
    identifiers that differ in anything but hyphens never are. *)
Theorem journal_query_identifies_stripped a b filename :
  (journal_query a filename = journal_query b filename
   <-> Py.replace a "-" EmptyString = Py.replace b "-" EmptyString)
  /\ journal_query "010101-0101" filename
     = journal_query "0101010101" filename.
Proof.
  split; [|reflexivity].
  rewrite !journal_query_parts. split.
  - intros H. apply append_inv_head in H.
    now apply append_inv_tail in H.
  - now intros ->.
Qed.

(** ** Before the check *)

Lemma start_application_quiet self W :
  emits W (fun ev => is_milestone ev = false) (start_application self).
Proof. unfold start_application. now apply emits_os_startfile. Qed.

(** X17. The database is touched by [create_journal] alone: whatever
    happens, [start_application], [login] and [open_patient] make no call
    to it; and the only double click of the workflow is the one of
    [open_patient]: [start_application], [login] and [create_journal]
    make none. *)
Theorem database_untouched_before_check fuel self W :
  emits W (fun ev => is_db_call ev = false) (start_application self)
  /\ emits W (fun ev => is_db_call ev = false) (login fuel self)
  /\ emits W (fun ev => is_db_call ev = false) (open_patient fuel self)
  /\ emits W (fun ev => is_double_click ev = false) (start_application self)
  /\ emits W (fun ev => is_double_click ev = false) (login fuel self)
  /\ emits W (fun ev => is_double_click ev = false) (create_journal fuel self).
Proof.
  assert (Hstart := start_application_quiet self W).
  assert (Hlogin := login_quiet fuel self W).
  repeat split; intros s r s' E.
  - destruct (Hstart _ _ _ E) as (evs & Ht & Hall).
    exists evs. split; [exact Ht | now apply milestone_db].
  - destruct (Hlogin _ _ _ E) as (evs & Ht & Hall).
    exists evs. split; [exact Ht | now apply milestone_db].
  - unfold open_patient in E. revert s r s' E.
    change (emits W (fun ev => is_db_call ev = false)
              (open_patient fuel self)).
    unfold open_patient. quiet_seq.
  - destruct (Hstart _ _ _ E) as (evs & Ht & Hall).
    exists evs. split; [exact Ht | now apply milestone_double_click].
  - destruct (Hlogin _ _ _ E) as (evs & Ht & Hall).
    exists evs. split; [exact Ht | now apply milestone_double_click].
  - destruct (create_journal_stages _ _ _ _ _ _ E) as (evs & Ht & Hall & _).
    exists evs. split; [exact Ht | exact Hall].
Qed.

(** ** Every run ends *)

Section Finishes.

Context {W : World}.

Lemma finishes_bind {A B} (m : M A) (k : A -> M B) :
  finishes W m -> (forall a, finishes W (k a)) -> finishes W (bind m k).
Proof.
  intros Hm Hk s. unfold bind.
  destruct (m W s) as [[a|e|] s1] eqn:E.
  - apply Hk.
  - discriminate.
  - specialize (Hm s). rewrite E in Hm. now destruct Hm.
Qed.

Lemma finishes_ret {A} (a : A) : finishes W (ret a).
Proof. intros s. discriminate. Qed.

Lemma finishes_raise {A} e : finishes W (@raise A e).
Proof. intros s. discriminate. Qed.

Lemma finishes_the_app_window self method :
  finishes W (the_app_window self method).
Proof.
  unfold the_app_window. destruct (app_window self);
    [apply finishes_ret | apply finishes_raise].
Qed.

Lemma finishes_SendKeys c text wt : finishes W (SendKeys c text wt).
Proof. intros s. discriminate. Qed.

Lemma finishes_SetFocus c : finishes W (SetFocus c).
Proof. intros s. discriminate. Qed.

Lemma finishes_Click c mv wt : finishes W (Click c mv wt).
Proof. intros s. discriminate. Qed.

Lemma finishes_DoubleClick c mv wt : finishes W (DoubleClick c mv wt).
Proof. intros s. discriminate. Qed.

Lemma finishes_os_startfile path : finishes W (os_startfile path).
Proof. intros s. discriminate. Qed.

Lemma finishes_log_trace msg : finishes W (log_trace msg).
Proof. intros s. discriminate. Qed.

Lemma finishes_lookup {A} (r : Exn + A) : finishes W (lookup r).
Proof. destruct r; [apply finishes_raise | apply finishes_ret]. Qed.

Lemma finishes_is_journal_created self : finishes W (_is_journal_created self).
Proof.
  intros s. rewrite _is_journal_created_run. cbn [fst].
  destruct (database W (clock s) (connection_string self) _); discriminate.
Qed.

Hypothesis Hcausal : causal W.

Lemma finishes_wait_for_control fuel ct sp search_depth timeout :
  polls_needed (opt_arg 30%Q timeout) <= fuel ->
  finishes W (wait_for_control fuel ct sp search_depth timeout).
Proof.
  intros Hfuel s.
  destruct (wait_for_control fuel ct sp search_depth timeout W s)
    as [r s'] eqn:E.
  destruct (wait_for_control_run _ _ _ _ _ _ _ _ _ E)
    as (evs & fin & Hp & _ & Hr & Hn).
  cbn [fst]. subst r. destruct fin; try discriminate.
  intros _. eapply polling_not_exhausted; eauto.
Qed.

Lemma finishes_wait_for_control_to_disappear fuel ct sp search_depth timeout :
  polls_needed (opt_arg 30%Q timeout) <= fuel ->
  finishes W (wait_for_control_to_disappear fuel ct sp search_depth timeout).
Proof.
  intros Hfuel s.
  destruct (wait_for_control_to_disappear fuel ct sp search_depth timeout W s)
    as [r s'] eqn:E.
  destruct (wait_for_control_to_disappear_run _ _ _ _ _ _ _ _ _ E)
    as (evs & fin & Hp & _ & Hr & Hn).
  cbn [fst]. subst r. destruct fin; try discriminate.
  intros _. eapply polling_not_exhausted; eauto.
Qed.

End Finishes.

Lemma polls_needed_30_60 : polls_needed 30 <= polls_needed 60.
Proof. apply Nat.leb_le. vm_compute. reflexivity. Qed.

Ltac finishes_seq :=
  repeat (apply finishes_bind;
          [first [ apply finishes_the_app_window | apply finishes_SendKeys
                 | apply finishes_SetFocus | apply finishes_Click
                 | apply finishes_DoubleClick | apply finishes_os_startfile
                 | apply finishes_log_trace | apply finishes_lookup
                 | apply finishes_is_journal_created
                 | apply finishes_wait_for_control
                 | apply finishes_wait_for_control_to_disappear ]
          | intros ? ]);
  try apply finishes_ret.

Lemma login_fuel fuel fuel' self W s r s' :
  fuel <= fuel' ->
  login fuel self W s = (r, s') -> r <> OutOfFuel ->
  login fuel' self W s = (r, s').
Proof.
  intros Hle. unfold login.
  apply bind_fuel;
    [intros ? ?; now apply wait_for_control_fuel | intros ? ? ? ?].
  do 7 (apply bind_fuel; [auto | intros ? ? ? ?]).
  apply bind_fuel;
    [intros ? ?; now apply wait_for_control_fuel | auto].
Qed.

Lemma open_patient_fuel fuel fuel' self W s r s' :
  fuel <= fuel' ->
  open_patient fuel self W s = (r, s') -> r <> OutOfFuel ->
  open_patient fuel' self W s = (r, s').
Proof.
  intros Hle. unfold open_patient.
  do 2 (apply bind_fuel; [auto | intros ? ? ? ?]).
  apply bind_fuel;
    [intros ? ?; now apply wait_for_control_fuel | intros ? ? ? ?].
  do 4 (apply bind_fuel; [auto | intros ? ? ? ?]).
  apply bind_fuel;
    [intros ? ?; now apply wait_for_control_fuel | intros ? ? ? ?].
  apply bind_fuel; [auto | intros ? ? ? ?].
  apply bind_fuel;
    [intros ? ?; now apply wait_for_control_fuel | auto].
Qed.

Lemma process_fuel fuel fuel' config oc W s r s' :
  fuel <= fuel' ->
  process fuel config oc W s = (r, s') -> r <> OutOfFuel ->
  process fuel' config oc W s = (r, s').
Proof.
  intros Hle. unfold process.
  do 5 (apply bind_fuel; [auto | intros ? ? ? ?]).
  apply bind_fuel; [intros ? ?; now apply login_fuel | intros ? ? ? ?].
  apply bind_fuel;
    [intros ? ?; now apply open_patient_fuel | intros ? ? ? ?].
  now apply create_journal_fuel.
Qed.

(** X18. A run of [process] always ends.  In a causal world (no latency
    is negative) and with fuel for the loop tests of the longest wait (121
    for the 60 units of [create_journal] and [login], a round taking at
    least 0.5), no loop of the run is cut short: [process] returns or
    raises; and more fuel changes nothing of the run, neither its outcome
    nor a single call. *)
Theorem process_terminates fuel config oc W s :
  causal W ->
  polls_needed 60 <= fuel ->
  fst (process fuel config oc W s) <> OutOfFuel
  /\ forall fuel',
      fuel <= fuel' ->
      process fuel' config oc W s = process fuel config oc W s.
Proof.
  intros Hc Hfuel.
  pose proof polls_needed_30_60 as H30.
  assert (Hlogin : forall self, finishes W (login fuel self))
    by (intros self; unfold login;
        finishes_seq; try assumption; cbn [opt_arg]; lia).
  assert (Hopen : forall self, finishes W (open_patient fuel self))
    by (intros self; unfold open_patient;
        finishes_seq; try assumption; cbn [opt_arg]; lia).
  assert (Hcreate : forall self, finishes W (create_journal fuel self)).
  { intros self. unfold create_journal.
    finishes_seq; try assumption; cbn [opt_arg]; try lia.
    destruct (negb _); [apply finishes_raise | apply finishes_ret]. }
  assert (Hends : finishes W (process fuel config oc)).
  { unfold process, start_application.
    do 5 (apply finishes_bind;
          [first [apply finishes_log_trace | apply finishes_lookup
                 | apply finishes_os_startfile] | intros ?]).
    apply finishes_bind; [apply Hlogin | intros self].
    apply finishes_bind; [apply Hopen | intros _]. apply Hcreate. }
  split; [apply Hends|].
  intros fuel' Hle.
  destruct (process fuel config oc W s) as [r s'] eqn:E.
  apply (process_fuel fuel fuel' _ _ _ _ _ _ Hle E).
  specialize (Hends s). rewrite E in Hends. exact Hends.
Qed.

Lemma process_terminates_witness :
  fst (process 121 (mkConfig "C:\Solteq\Sund.exe")
         (mkOrchestratorConnection
            (fun _ => inr (mkCredential "robot" "secret"))
            (fun _ => inr "DSN=sund"))
         (scripted_world 0 (3#4) []) at_start)
  <> OutOfFuel.
Proof.
  refine (proj1 (process_terminates 121 _ _ (scripted_world 0 (3#4) [])
                   at_start _ _)).
  - unfold causal; cbn; lra.
  - apply Nat.leb_le. vm_compute. reflexivity.
Defined.
